(** * Client clearance system: the recommendation pipeline, embedded in Rocq

    A shallow embedding of [src/models/text_analyzer.py] (class
    [TextAnalyzer]) and [src/engine/recommendation_engine.py] (class
    [RecommendationEngine]), followed by the properties of the pipeline.

    Conventions of the embedding.
    - Python [str] is [string]; the text is taken to be ASCII, so that
      [str.lower], [str.title], [\s], [\w] and [\d] are the ASCII ones.
    - Python [int] is [Z]; Python [float] is [Q]: arithmetic is exact, the
      binary rounding of IEEE doubles is not modelled.  [round(x, n)] rounds
      half to even, as CPython does on the exact value of its argument.
    - A [dict] whose key set is fixed by the code that builds it is a
      [Record]; a [dict] whose keys are looked up with [.get] or may be
      missing ([platform_rec], [tech_stack_rec]) is an association list in
      insertion order with values in [pyval].
    - [additional_info] is [option AdditionalInfo]: [None] is Python's
      [None], and a field that is [None] is a key missing from the dict.
    - A raised exception is [inl] of its class name and argument.
    - [int] has no limit on the number of digits it converts.
    - [random.randint] reads a stream of integers that is threaded as state;
      spaCy's tokenizer and TextBlob's sentiment are parameters. *)

From Stdlib Require Import String Ascii List ZArith QArith Qround Lia Lqa Bool.
From ExtLib Require Import Structures.Monad Structures.MonadState
  Structures.MonadExc Structures.MonadTrans.
From ExtLib Require Import Data.Monads.StateMonad Data.Monads.EitherMonad.
Import ListNotations.
Import MonadNotation.

Local Close Scope Q_scope.
Local Open Scope string_scope.
Local Open Scope monad_scope.

#[local] Existing Instance Monad_stateT.

(** ** Exceptions *)

Record exn : Type := Raise { exn_class : string; exn_arg : string }.

Definition TypeError (msg : string) : exn := Raise "TypeError" msg.
Definition KeyError (key : string) : exn := Raise "KeyError" key.
Definition ValueError (msg : string) : exn := Raise "ValueError" msg.

(** Computations that may raise. *)
Definition result (A : Type) : Type := sum exn A.

#[export] Instance Monad_result : Monad result := Monad_either exn.
#[export] Instance Exception_result : MonadExc exn result := Exception_either exn.

(** ** Python strings (ASCII) *)

Module PyStr.

Definition is_upper (c : ascii) : bool :=
  let n := nat_of_ascii c in (65 <=? n)%nat && (n <=? 90)%nat.

Definition is_lower (c : ascii) : bool :=
  let n := nat_of_ascii c in (97 <=? n)%nat && (n <=? 122)%nat.

Definition is_alpha (c : ascii) : bool := is_upper c || is_lower c.

Definition is_digit (c : ascii) : bool :=
  let n := nat_of_ascii c in (48 <=? n)%nat && (n <=? 57)%nat.

(** [str.isspace] on ASCII: tab, newline, vertical tab, form feed, carriage
    return, the four separators 0x1c-0x1f and the space. *)
Definition is_space (c : ascii) : bool :=
  let n := nat_of_ascii c in
  ((9 <=? n)%nat && (n <=? 13)%nat) || ((28 <=? n)%nat && (n <=? 32)%nat).

(** [\w] on ASCII. *)
Definition is_word (c : ascii) : bool :=
  is_alpha c || is_digit c || (nat_of_ascii c =? 95)%nat.

Definition lower_char (c : ascii) : ascii :=
  if is_upper c then ascii_of_nat (nat_of_ascii c + 32) else c.

Definition upper_char (c : ascii) : ascii :=
  if is_lower c then ascii_of_nat (nat_of_ascii c - 32) else c.

(** [s.lower()] *)
Fixpoint lower (s : string) : string :=
  match s with
  | EmptyString => EmptyString
  | String c s' => String (lower_char c) (lower s')
  end.

(** [s.title()]: a letter that follows a letter is lower-cased, any other
    letter is upper-cased. *)
Fixpoint title_from (prev_cased : bool) (s : string) : string :=
  match s with
  | EmptyString => EmptyString
  | String c s' =>
      String (if prev_cased then lower_char c else upper_char c)
             (title_from (is_alpha c) s')
  end.

Definition title (s : string) : string := title_from false s.

(** [sub in s] *)
Fixpoint contains (sub s : string) : bool :=
  prefix sub s ||
  match s with
  | EmptyString => false
  | String _ s' => contains sub s'
  end.

(** [s.split()]: the maximal runs of non-space characters; [word] is the
    run being read. *)
Fixpoint split_from (word : string) (s : string) : list string :=
  match s with
  | EmptyString =>
      match word with EmptyString => [] | _ => [word] end
  | String c s' =>
      if is_space c
      then match word with
           | EmptyString => split_from EmptyString s'
           | _ => word :: split_from EmptyString s'
           end
      else split_from (word ++ String c EmptyString) s'
  end.

Definition split (s : string) : list string := split_from EmptyString s.

(** [s.strip()] *)
Fixpoint lstrip (s : string) : string :=
  match s with
  | EmptyString => EmptyString
  | String c s' => if is_space c then lstrip s' else s
  end.

Fixpoint rstrip (s : string) : string :=
  match s with
  | EmptyString => EmptyString
  | String c s' =>
      match rstrip s' with
      | EmptyString => if is_space c then EmptyString else String c EmptyString
      | r => String c r
      end
  end.

Definition strip (s : string) : string := rstrip (lstrip s).

(** [re.sub(r'\s+', ' ', s)] *)
Fixpoint collapse_spaces_from (in_run : bool) (s : string) : string :=
  match s with
  | EmptyString => EmptyString
  | String c s' =>
      if is_space c
      then (if in_run then collapse_spaces_from true s'
            else String " " (collapse_spaces_from true s'))
      else String c (collapse_spaces_from false s')
  end.

Definition collapse_spaces (s : string) : string := collapse_spaces_from false s.

(** [re.sub(r'[^\w\s\-\.\,\!\?]', '', s)] *)
Definition kept_char (c : ascii) : bool :=
  is_word c || is_space c ||
  existsb (Ascii.eqb c) ["-"; "."; ","; "!"; "?"]%char.

Fixpoint remove_special (s : string) : string :=
  match s with
  | EmptyString => EmptyString
  | String c s' =>
      if kept_char c then String c (remove_special s') else remove_special s'
  end.

(** [s.replace(',', '')] *)
Fixpoint remove_commas (s : string) : string :=
  match s with
  | EmptyString => EmptyString
  | String c s' =>
      if Ascii.eqb c "," then remove_commas s' else String c (remove_commas s')
  end.

(** [int(s)] for a string of ASCII digits with an optional fraction: a
    string that holds anything but digits is refused with [ValueError]. *)
Fixpoint digits_value (acc : Z) (s : string) : option Z :=
  match s with
  | EmptyString => Some acc
  | String c s' =>
      if is_digit c
      then digits_value (10 * acc + Z.of_nat (nat_of_ascii c - 48)) s'
      else None
  end.

Definition int_of_string (s : string) : result Z :=
  match s with
  | EmptyString => inl (ValueError "invalid literal for int()")
  | _ => match digits_value 0 s with
         | Some z => inr z
         | None => inl (ValueError "invalid literal for int()")
         end
  end.

(** *** [re.findall(r'\$?(\d+(?:,\d{3})*(?:\.\d{2})?)', s)]

    Every part after [\d+] is optional and greedy, so the leftmost match at a
    position is the greedy one and no backtracking is needed beyond [\$?]. *)

Fixpoint take_digits (s : string) : string :=
  match s with
  | String c s' => if is_digit c then String c (take_digits s') else EmptyString
  | EmptyString => EmptyString
  end.

Fixpoint drop (n : nat) (s : string) : string :=
  match n, s with
  | S k, String _ s' => drop k s'
  | _, _ => s
  end.

(** [(?:,\d{3})*] *)
Fixpoint take_groups (s : string) : string :=
  match s with
  | String "," (String a (String b (String c s'))) =>
      if is_digit a && is_digit b && is_digit c
      then String "," (String a (String b (String c (take_groups s'))))
      else EmptyString
  | _ => EmptyString
  end.

(** [(?:\.\d{2})?] *)
Definition take_cents (s : string) : string :=
  match s with
  | String "." (String a (String b _)) =>
      if is_digit a && is_digit b
      then String "." (String a (String b EmptyString))
      else EmptyString
  | _ => EmptyString
  end.

(** The match that starts at the head of [s], if any: its captured group and
    the number of characters it consumes. *)
Definition amount_at (s : string) : option (string * nat) :=
  let '(dollar, body) :=
    match s with
    | String "$" (String d t) =>
        if is_digit d then (1, String d t) else (0, s)
    | _ => (0, s)
    end in
  match take_digits body with
  | EmptyString => None
  | ds =>
      let r1 := drop (String.length ds) body in
      let gs := take_groups r1 in
      let r2 := drop (String.length gs) r1 in
      let cs := take_cents r2 in
      Some (ds ++ gs ++ cs,
            dollar + String.length ds + String.length gs + String.length cs)
  end.

(** Non-overlapping matches from left to right; [skip] counts the characters
    of the current match that are still to be passed over. *)
Fixpoint findall_amounts_from (skip : nat) (s : string) : list string :=
  match s with
  | EmptyString => []
  | String _ s' =>
      match skip with
      | S k => findall_amounts_from k s'
      | O =>
          match amount_at s with
          | Some (g, n) => g :: findall_amounts_from (n - 1) s'
          | None => findall_amounts_from 0 s'
          end
      end
  end.

Definition findall_amounts (s : string) : list string :=
  findall_amounts_from 0 s.

End PyStr.

(** ** Python numbers *)

Local Open Scope Q_scope.

(** Round half to even to the nearest integer. *)
Definition round_half_even (x : Q) : Z :=
  let f := Qfloor x in
  match Qcompare (x - inject_Z f) (1 # 2) with
  | Lt => f
  | Gt => (f + 1)%Z
  | Eq => if Z.even f then f else (f + 1)%Z
  end.

(** [round(x, ndigits)] *)
Definition pyround (x : Q) (ndigits : nat) : Q :=
  let scale := (10 ^ Z.of_nat ndigits)%Z in
  inject_Z (round_half_even (x * inject_Z scale)) / inject_Z scale.

(** [x < y] *)
Definition Qltb (x y : Q) : bool := if Qlt_le_dec x y then true else false.

(** [min(a, b)]: the first of the smallest. *)
Definition pymin (a b : Q) : Q := if Qlt_le_dec b a then b else a.

(** ** Python dicts in insertion order *)

Definition dict (V : Type) : Type := list (string * V).

(** [d.get(k)] *)
Fixpoint dict_find {V : Type} (d : dict V) (k : string) : option V :=
  match d with
  | [] => None
  | (k', v) :: d' => if String.eqb k k' then Some v else dict_find d' k
  end.

(** [d.get(k, default)] *)
Definition dict_get {V : Type} (d : dict V) (k : string) (default : V) : V :=
  match dict_find d k with
  | Some v => v
  | None => default
  end.

(** [d[k]] *)
Definition dict_item {V : Type} (d : dict V) (k : string) : result V :=
  match dict_find d k with
  | Some v => inr v
  | None => inl (KeyError k)
  end.

(** [d[k] = v]: an existing key keeps its place, a new key goes last. *)
Fixpoint dict_set {V : Type} (d : dict V) (k : string) (v : V) : dict V :=
  match d with
  | [] => [(k, v)]
  | (k', v') :: d' =>
      if String.eqb k k' then (k', v) :: d' else (k', v') :: dict_set d' k v
  end.

Definition dict_keys {V : Type} (d : dict V) : list string := map fst d.
Definition dict_values {V : Type} (d : dict V) : list V := map snd d.

(** [max(d, key=d.get)] over a dict of counts: the first key, in iteration
    order, whose value is the largest.  Keys of a dict are unique, so
    [d.get] of a key is the value stored with it. *)
Fixpoint max_key_from (best : string) (best_v : nat) (rest : dict nat) : string :=
  match rest with
  | [] => best
  | (k, v) :: rest' =>
      if (best_v <? v)%nat then max_key_from k v rest'
      else max_key_from best best_v rest'
  end.

Definition max_key (d : dict nat) : result string :=
  match d with
  | [] => inl (ValueError "max() arg is an empty sequence")
  | (k, v) :: rest => inr (max_key_from k v rest)
  end.

(** ** The text analyzer ([src/models/text_analyzer.py]) *)

Module TextAnalyzer.

(** Business keywords for classification *)
Definition business_keywords : dict (list string) :=
  [ ("retail", ["store"; "shop"; "retail"; "ecommerce"; "online store";
                "marketplace"; "selling"; "products"]);
    ("restaurant", ["restaurant"; "food"; "delivery"; "takeout"; "dining";
                    "cafe"; "menu"; "kitchen"]);
    ("healthcare", ["medical"; "healthcare"; "clinic"; "hospital"; "patient";
                    "doctor"; "health"; "medicine"]);
    ("education", ["school"; "education"; "learning"; "course"; "training";
                   "academy"; "student"; "teaching"]);
    ("logistics", ["logistics"; "shipping"; "delivery"; "warehouse";
                   "supply chain"; "transport"; "freight"]);
    ("finance", ["banking"; "finance"; "investment"; "accounting"; "budget";
                 "money"; "financial"]);
    ("real_estate", ["real estate"; "property"; "housing"; "rental";
                     "mortgage"; "realty"; "home"]);
    ("consulting", ["consulting"; "consultant"; "advisory";
                    "professional services"; "business advice"]) ].

(** Platform indicators *)
Definition platform_indicators : dict (list string) :=
  [ ("mobile", ["mobile"; "phone"; "android"; "ios"; "smartphone"; "tablet"]);
    ("web", ["website"; "web"; "online"; "browser"; "internet";
             "web application"]);
    ("desktop", ["desktop"; "computer"; "pc"; "software"; "application";
                 "program"]) ].

(** Feature keywords *)
Definition feature_keywords : dict (list string) :=
  [ ("inventory", ["inventory"; "stock"; "products"; "items"; "catalog"]);
    ("payment", ["payment"; "billing"; "checkout"; "pay"; "money";
                 "transaction"]);
    ("tracking", ["tracking"; "monitoring"; "analytics"; "reports";
                  "dashboard"]);
    ("user_management", ["users"; "accounts"; "profiles"; "registration";
                         "login"]);
    ("communication", ["chat"; "messaging"; "email"; "notifications";
                       "alerts"]);
    ("scheduling", ["appointments"; "booking"; "calendar"; "schedule";
                    "reservations"]);
    ("reporting", ["reports"; "analytics"; "statistics"; "data"; "insights"]) ].

Record BudgetIndicators : Type := mkBudget {
  budget_mentioned : bool;
  budget_amounts : list Z;
  has_budget_info : bool
}.

Record TimelineIndicators : Type := mkTimeline {
  timeline_mentioned : bool;
  time_indicators : list string;
  has_timeline_info : bool
}.

Record Sentiment : Type := mkSentiment {
  polarity : Q;
  subjectivity : Q
}.

(** The dict returned by [analyze_text]. *)
Record Analysis : Type := mkAnalysis {
  original_text : string;
  processed_text : string;
  clarity_score : Q;
  business_type : string * Q;
  platform_preference : string * Q;
  detected_features : list string;
  sentiment : Sentiment;
  urgency_level : string;
  budget_indicators : BudgetIndicators;
  timeline_indicators : TimelineIndicators;
  portability : string;
  notification_requirement : string
}.

(** [sum(1 for keyword in keywords if keyword in text)] *)
Definition keyword_hits (keywords : list string) (text : string) : nat :=
  length (filter (fun keyword => PyStr.contains keyword text) keywords).

(** [any(keyword in text for keyword in keywords)] *)
Definition any_keyword (keywords : list string) (text : string) : bool :=
  existsb (fun keyword => PyStr.contains keyword text) keywords.

(** The loop [for name, keywords in table.items(): scores[name] = ...] *)
Definition keyword_scores (table : dict (list string)) (text : string)
  : dict nat :=
  fold_left (fun scores '(name, keywords) =>
               dict_set scores name (keyword_hits keywords text))
            table [].

(** [any(scores.values())] *)
Definition any_score (scores : dict nat) : bool :=
  existsb (fun v => negb (v =? 0)%nat) (dict_values scores).

(** [max(len(keywords) for keywords in table.values())] *)
Definition max_keywords (table : dict (list string)) : nat :=
  list_max (map (fun keywords => length keywords) (dict_values table)).

Definition Q_of_nat (n : nat) : Q := inject_Z (Z.of_nat n).

Definition _preprocess_text (text : string) : string :=
  let text := PyStr.lower text in
  let text := PyStr.collapse_spaces text in
  let text := PyStr.remove_special text in
  PyStr.strip text.

Definition _classify_business_type (text : string) : result (string * Q) :=
  let text_lower := PyStr.lower text in
  let scores := keyword_scores business_keywords text_lower in
  if negb (any_score scores) then inr ("unknown", 0.0)
  else
    best_type <- max_key scores ;;
    score <- dict_item scores best_type ;;
    let confidence := Q_of_nat score / Q_of_nat (max_keywords business_keywords) in
    ret (best_type, pyround confidence 2).

Definition _detect_platform_preference (text : string) : result (string * Q) :=
  let text_lower := PyStr.lower text in
  let scores := keyword_scores platform_indicators text_lower in
  if negb (any_score scores) then inr ("web", 0.3)
  else
    best_platform <- max_key scores ;;
    score <- dict_item scores best_platform ;;
    let confidence :=
      Q_of_nat score / Q_of_nat (max_keywords platform_indicators) in
    ret (best_platform, pyround confidence 2).

Definition _extract_features (text : string) : list string :=
  let text_lower := PyStr.lower text in
  fold_left (fun detected_features '(feature_category, keywords) =>
               if any_keyword keywords text_lower
               then (detected_features ++ [feature_category])%list
               else detected_features)
            feature_keywords [].

Definition _detect_urgency (text : string) : string :=
  let urgency_keywords :=
    ["urgent"; "asap"; "quickly"; "fast"; "immediate"; "emergency"; "rush"] in
  let text_lower := PyStr.lower text in
  let urgency_count := keyword_hits urgency_keywords text_lower in
  if (2 <=? urgency_count)%nat then "high"
  else if (urgency_count =? 1)%nat then "medium"
  else "low".

(** [[int(num.replace(',', '')) for num in numbers
      if int(num.replace(',', '')) > 100]]; [int] raises on a number with
    cents. *)
Fixpoint amounts_over_100 (numbers : list string) : result (list Z) :=
  match numbers with
  | [] => ret []
  | num :: rest =>
      v <- PyStr.int_of_string (PyStr.remove_commas num) ;;
      amounts <- amounts_over_100 rest ;;
      ret (if (100 <? v)%Z then v :: amounts else amounts)
  end.

Definition _extract_budget_indicators (text : string) : result BudgetIndicators :=
  let budget_keywords :=
    ["budget"; "cost"; "price"; "affordable"; "cheap"; "expensive"; "money"] in
  let text_lower := PyStr.lower text in
  let budget_mentioned := any_keyword budget_keywords text_lower in
  let numbers := PyStr.findall_amounts text in
  budget_amounts <- amounts_over_100 numbers ;;
  ret (mkBudget budget_mentioned budget_amounts
                (0 <? length budget_amounts)%nat).

Definition _extract_timeline_indicators (text : string) : TimelineIndicators :=
  let timeline_keywords :=
    ["timeline"; "deadline"; "schedule"; "time"; "when"; "duration"] in
  let text_lower := PyStr.lower text in
  let timeline_mentioned := any_keyword timeline_keywords text_lower in
  let time_words := ["week"; "month"; "year"; "day"; "hour"] in
  let time_indicators :=
    filter (fun word => PyStr.contains word text_lower) time_words in
  mkTimeline timeline_mentioned time_indicators
             (0 <? length time_indicators)%nat.

Definition _detect_portability_requirement (text : string) : string :=
  let text_lower := PyStr.lower text in
  let high_portability_keywords :=
    ["mobile"; "phone"; "smartphone"; "tablet"; "ios"; "android";
     "on-the-go"; "portable"; "travel"; "remote"; "field"; "outdoor";
     "delivery"; "tracking"; "location"; "gps"; "real-time"; "instant";
     "anywhere"; "everywhere"; "accessible"; "mobile-first"; "responsive"] in
  let medium_portability_keywords :=
    ["web"; "website"; "online"; "browser"; "responsive"; "tablet-friendly";
     "cross-platform"; "accessible"; "remote access"; "cloud-based"] in
  let low_portability_keywords :=
    ["desktop"; "computer"; "pc"; "workstation"; "office"; "stationary";
     "fixed"; "local"; "internal"; "enterprise"; "corporate"] in
  let high_count := keyword_hits high_portability_keywords text_lower in
  let medium_count := keyword_hits medium_portability_keywords text_lower in
  let low_count := keyword_hits low_portability_keywords text_lower in
  if (0 <? high_count)%nat then "high"
  else if (0 <? medium_count)%nat then "medium"
  else if (0 <? low_count)%nat then "low"
  else "medium".

(** Major notification indicators *)
Definition major_notification_keywords : list string :=
  ["notification"; "alert"; "push"; "real-time"; "instant"; "immediate";
   "urgent"; "emergency"; "critical"; "important"; "reminder"; "ping";
   "message"; "update"; "status"; "tracking"; "monitoring"; "live";
   "notify"; "alarm"; "warning"; "announcement"; "broadcast"].

(** Minor notification indicators *)
Definition minor_notification_keywords : list string :=
  ["email"; "report"; "summary"; "daily"; "weekly"; "monthly";
   "newsletter"; "update"; "news"; "information"; "communication"].

Definition _detect_notification_requirement (text : string) : string :=
  let text_lower := PyStr.lower text in
  let major_count := keyword_hits major_notification_keywords text_lower in
  let minor_count := keyword_hits minor_notification_keywords text_lower in
  if (2 <=? major_count)%nat then "major"
  else if (0 <? minor_count)%nat then "minor"
  else "none".

Definition needs_clarification (analysis : Analysis) : bool :=
  let clarity_score := clarity_score analysis in
  let '(business_type, confidence) := business_type analysis in
  Qltb clarity_score 0.5
  || String.eqb business_type "unknown"
  || Qltb confidence 0.3
  || (length (detected_features analysis) =? 0)%nat.

Definition generate_clarification_questions (analysis : Analysis)
  : list string :=
  let questions := [] in
  let '(business_type, confidence) := business_type analysis in
  let questions :=
    if String.eqb business_type "unknown" || Qltb confidence 0.3
    then (questions ++ ["What type of business do you operate?"])%list
    else questions in
  let questions :=
    if (length (detected_features analysis) =? 0)%nat
    then (questions ++
          ["What specific features or functionality do you need?"])%list
    else questions in
  let questions :=
    if negb (budget_mentioned (budget_indicators analysis))
    then (questions ++
          ["Do you have a budget range in mind for this project?"])%list
    else questions in
  let questions :=
    if negb (timeline_mentioned (timeline_indicators analysis))
    then (questions ++
          ["When do you need this system to be completed?"])%list
    else questions in
  let questions :=
    if Qltb (clarity_score analysis) 0.4
    then (questions ++
          ["Can you provide more details about your business requirements?"])%list
    else questions in
  firstn 3 questions.

(** The two NLP collaborators: spaCy's pipeline, as the texts of the tokens
    of a string, and TextBlob's sentiment, as (polarity, subjectivity). *)
Section WithNLP.

Variable nlp : string -> list string.
Variable textblob_sentiment : string -> Q * Q.

(** [any(keyword in token for keywords in table.values()
         for keyword in keywords)] *)
Definition token_has_keyword (table : dict (list string)) (token : string)
  : bool :=
  existsb (fun keywords => any_keyword keywords token) (dict_values table).

Definition _calculate_clarity_score (text : string) : Q :=
  let doc := nlp (PyStr.lower text) in
  let business_terms :=
    length (filter (token_has_keyword business_keywords) doc) in
  let platform_terms :=
    length (filter (token_has_keyword platform_indicators) doc) in
  let feature_terms :=
    length (filter (token_has_keyword feature_keywords) doc) in
  let total_indicators := (business_terms + platform_terms + feature_terms)%nat in
  let text_length := length (PyStr.split text) in
  if (text_length =? 0)%nat then 0.0
  else
    let clarity :=
      pymin 1.0 (Q_of_nat total_indicators / Q_of_nat text_length * 10 + 0.2) in
    pyround clarity 2.

Definition _analyze_sentiment (text : string) : Sentiment :=
  let '(p, s) := textblob_sentiment text in
  mkSentiment (pyround p 2) (pyround s 2).

Definition analyze_text (text : string) : result Analysis :=
  let processed_text := _preprocess_text text in
  let clarity := _calculate_clarity_score text in
  business <- _classify_business_type text ;;
  platform <- _detect_platform_preference text ;;
  let features := _extract_features text in
  let sentiment := _analyze_sentiment text in
  let urgency := _detect_urgency text in
  budget <- _extract_budget_indicators text ;;
  let timeline := _extract_timeline_indicators text in
  ret (mkAnalysis text processed_text clarity business platform features
                  sentiment urgency budget timeline
                  (_detect_portability_requirement text)
                  (_detect_notification_requirement text)).

End WithNLP.

End TextAnalyzer.

(** ** Values held by the dicts the engine passes around *)

#[warnings="-register-all"]
Inductive pyval : Type :=
| VStr (s : string)
| VNum (q : Q)
| VTuple (items : list pyval)
| VList (items : list pyval).

(** Lists are the only unhashable values here. *)
Fixpoint hashable (v : pyval) : bool :=
  match v with
  | VStr _ | VNum _ => true
  | VTuple items => forallb hashable items
  | VList _ => false
  end.

(** [table.get(key, default)] on a table with string keys: a key that is not
    a string is found nowhere, and an unhashable key raises. *)
Definition table_get {V : Type} (table : dict V) (key : pyval) (default : V)
  : result V :=
  match key with
  | VStr k => inr (dict_get table k default)
  | _ => if hashable key then inr default
         else inl (TypeError "unhashable type: 'list'")
  end.

(** [v == 'literal'] *)
Definition is_str (v : pyval) (literal : string) : bool :=
  match v with
  | VStr s => String.eqb s literal
  | _ => false
  end.

(** The operand of a product with a float: anything but a number raises. *)
Definition as_number (v : pyval) : result Q :=
  match v with
  | VNum q => inr q
  | _ => inl (TypeError "can't multiply sequence by non-int of type 'float'")
  end.

(** [a, b = v] *)
Definition unpack_pair (v : pyval) : result (pyval * pyval) :=
  match v with
  | VTuple [a; b] | VList [a; b] => inr (a, b)
  | VStr (String a (String b EmptyString)) =>
      inr (VStr (String a EmptyString), VStr (String b EmptyString))
  | VNum _ => inl (TypeError "cannot unpack non-iterable object")
  | _ => inl (ValueError "wrong number of values to unpack")
  end.

(** ** The random source *)

(** The integers [random] will hand out, in order. *)
Definition rng : Type := nat -> Z.

(** Computations that draw random numbers and may raise. *)
Definition M : Type -> Type := stateT rng result.

(** [random.randint(a, b)]: the next integer of the stream, brought into
    [a..b]. *)
Definition randint (a b : Z) : M Z :=
  mkStateT (fun g : rng =>
    inr ((a + (g O) mod (b - a + 1))%Z, fun n => g (S n)) : result (Z * rng)).

(** ** The recommendation engine ([src/engine/recommendation_engine.py]) *)

Module RecommendationEngine.

Record StackInfo : Type := mkStack {
  name : string;
  description : string;
  pros : list string;
  cons : list string;
  cost_factor : Q;
  timeline_factor : Q
}.

(** Technology stacks for different platforms *)
Definition tech_stacks : dict (dict StackInfo) :=
  [ ("mobile",
     [ ("flutter",
        mkStack "Flutter + Firebase"
          "Cross-platform mobile development with cloud backend"
          ["Cross-platform"; "Fast development"; "Rich UI components"]
          ["Limited native features"; "Large app size"] 1.0 1.0);
       ("react_native",
        mkStack "React Native + Node.js"
          "JavaScript-based mobile development"
          ["Cross-platform"; "Large community"; "Reusable code"]
          ["Performance issues"; "Native dependencies"] 0.9 1.1);
       ("native_ios",
        mkStack "Swift + iOS Native" "Native iOS development"
          ["Best performance"; "Full iOS features"; "App Store optimization"]
          ["iOS only"; "Higher cost"; "Longer timeline"] 1.3 1.4);
       ("native_android",
        mkStack "Kotlin + Android Native" "Native Android development"
          ["Best performance"; "Full Android features";
           "Google Play optimization"]
          ["Android only"; "Higher cost"; "Longer timeline"] 1.2 1.3) ]);
    ("web",
     [ ("mern",
        mkStack "MERN Stack (MongoDB, Express, React, Node.js)"
          "Full-stack JavaScript development"
          ["Fast development"; "Large ecosystem"; "Scalable"]
          ["JavaScript everywhere"; "Learning curve"] 0.8 0.9);
       ("mean",
        mkStack "MEAN Stack (MongoDB, Express, Angular, Node.js)"
          "Full-stack JavaScript with Angular"
          ["TypeScript support"; "Enterprise-ready";
           "Comprehensive framework"]
          ["Steep learning curve"; "Heavy framework"] 1.0 1.1);
       ("django",
        mkStack "Django + PostgreSQL" "Python-based web development"
          ["Rapid development"; "Built-in admin"; "Security features"]
          ["Less flexible"; "Monolithic"] 0.9 0.8);
       ("laravel",
        mkStack "Laravel + MySQL" "PHP-based web development"
          ["Elegant syntax"; "Rich ecosystem"; "Easy deployment"]
          ["PHP ecosystem"; "Performance concerns"] 0.7 0.9) ]);
    ("desktop",
     [ ("electron",
        mkStack "Electron + React" "Cross-platform desktop development"
          ["Cross-platform"; "Web technologies"; "Rapid development"]
          ["Large app size"; "Memory usage"; "Security concerns"] 0.8 0.9);
       ("qt",
        mkStack "Qt + Python" "Native desktop development"
          ["Native performance"; "Cross-platform"; "Rich UI"]
          ["Complex setup"; "Licensing costs"] 1.1 1.2);
       ("wpf",
        mkStack "WPF + C#" "Windows desktop development"
          ["Native Windows"; "Rich UI"; "Good performance"]
          ["Windows only"; "Microsoft ecosystem"] 1.0 1.0) ]) ].

(** Feature recommendations by business type *)
Definition business_features : dict (list string) :=
  [ ("retail", ["inventory_management"; "payment_processing";
                "order_tracking"; "customer_management";
                "analytics_dashboard"; "multi_vendor_support"]);
    ("restaurant", ["menu_management"; "online_ordering"; "delivery_tracking";
                    "reservation_system"; "kitchen_display";
                    "loyalty_program"]);
    ("healthcare", ["patient_management"; "appointment_scheduling";
                    "medical_records"; "billing_system";
                    "prescription_management"; "telemedicine"]);
    ("education", ["course_management"; "student_portal"; "progress_tracking";
                   "video_streaming"; "assignment_submission";
                   "grade_management"]);
    ("logistics", ["route_optimization"; "real_time_tracking";
                   "inventory_management"; "driver_app";
                   "warehouse_management"; "analytics_dashboard"]);
    ("finance", ["account_management"; "transaction_history";
                 "budget_tracking"; "financial_reports";
                 "investment_portfolio"; "loan_management"]);
    ("real_estate", ["property_listings"; "search_filters"; "virtual_tours";
                     "contact_forms"; "lead_management";
                     "property_analytics"]);
    ("consulting", ["project_management"; "time_tracking"; "client_billing";
                    "report_generation"; "resource_management";
                    "knowledge_base"]) ].

(** Feature descriptions *)
Definition feature_descriptions : dict string :=
  [ ("inventory_management", "Track and manage product inventory in real-time");
    ("payment_processing",
     "Secure payment processing with multiple payment methods");
    ("order_tracking", "Real-time order status tracking for customers");
    ("customer_management",
     "Comprehensive customer database and relationship management");
    ("analytics_dashboard", "Business intelligence and performance analytics");
    ("multi_vendor_support", "Support for multiple vendors and suppliers");
    ("menu_management", "Dynamic menu creation and management system");
    ("online_ordering", "Online food ordering and delivery system");
    ("delivery_tracking", "Real-time delivery tracking for customers");
    ("reservation_system", "Table reservation and booking management");
    ("kitchen_display", "Kitchen order display and management system");
    ("loyalty_program", "Customer loyalty and rewards program");
    ("patient_management", "Comprehensive patient information management");
    ("appointment_scheduling", "Automated appointment booking and scheduling");
    ("medical_records", "Secure electronic health records management");
    ("billing_system", "Automated billing and insurance processing");
    ("prescription_management", "Digital prescription and medication tracking");
    ("telemedicine", "Video consultation and remote healthcare services");
    ("course_management", "Learning management system for courses");
    ("student_portal", "Student dashboard and self-service portal");
    ("progress_tracking", "Student progress monitoring and assessment");
    ("video_streaming", "Educational video content delivery");
    ("assignment_submission", "Digital assignment submission and grading");
    ("grade_management", "Automated grading and transcript management");
    ("route_optimization", "AI-powered route planning and optimization");
    ("real_time_tracking", "GPS-based real-time location tracking");
    ("driver_app", "Mobile application for drivers and delivery personnel");
    ("warehouse_management", "Inventory and warehouse operations management");
    ("account_management", "Banking account and transaction management");
    ("transaction_history", "Detailed transaction history and statements");
    ("budget_tracking", "Personal and business budget management");
    ("financial_reports", "Comprehensive financial reporting and analytics");
    ("investment_portfolio", "Investment tracking and portfolio management");
    ("loan_management", "Loan application and management system");
    ("property_listings", "Real estate property listing and showcase");
    ("search_filters", "Advanced property search and filtering");
    ("virtual_tours", "360-degree virtual property tours");
    ("contact_forms", "Lead capture and contact management");
    ("lead_management", "Sales lead tracking and management");
    ("property_analytics", "Real estate market analytics and insights");
    ("project_management", "Comprehensive project planning and tracking");
    ("time_tracking", "Employee time tracking and billing");
    ("client_billing", "Automated client billing and invoicing");
    ("report_generation", "Automated report generation and delivery");
    ("resource_management", "Team and resource allocation management");
    ("knowledge_base", "Documentation and knowledge management system");
    ("tracking", "Real-time activity and data tracking with analytics") ].

(** The caller's [additional_info] dict; a field that is [None] is a key
    the dict does not have. *)
Record AdditionalInfo : Type := mkInfo {
  portability_requirement : option string;
  business_type : option string;
  access_requirement : option string;
  budget_constraint : option Q;
  timeline_constraint : option Q;
  requested_features : option (list string);
  tech_stack_preference : option string
}.

Definition is_some {A : Type} (o : option A) : bool :=
  match o with Some _ => true | None => false end.

(** A dict is true when it has a key. *)
Definition info_truthy (info : AdditionalInfo) : bool :=
  is_some (portability_requirement info) || is_some (business_type info)
  || is_some (access_requirement info) || is_some (budget_constraint info)
  || is_some (timeline_constraint info) || is_some (requested_features info)
  || is_some (tech_stack_preference info).

(** [additional_info['key']] *)
Definition info_item {A : Type} (additional_info : option AdditionalInfo)
  (field : AdditionalInfo -> option A) (key : string) : result A :=
  match additional_info with
  | None => inl (TypeError "'NoneType' object is not subscriptable")
  | Some info =>
      match field info with
      | Some v => inr v
      | None => inl (KeyError key)
      end
  end.

(** [additional_info and 'key' in additional_info] *)
Definition info_has {A : Type} (additional_info : option AdditionalInfo)
  (field : AdditionalInfo -> option A) : bool :=
  match additional_info with
  | None => false
  | Some info => info_truthy info && is_some (field info)
  end.

Record FeatureRec : Type := mkFeature {
  feature : string;
  feature_description : string;
  priority : string;
  estimated_effort : Z;
  estimated_cost : Z
}.

Record CostEstimate : Type := mkCost {
  base_cost : Z;
  feature_cost : Z;
  total_cost : Q;
  cost_range : Q * Q;      (* the two bounds the source prints into a string *)
  currency : string
}.

Record TimelineEstimate : Type := mkTimelineEstimate {
  base_timeline : Z;
  feature_timeline : Z;
  total_timeline : Q;
  timeline_range : Q * Q;  (* the two bounds the source prints into a string *)
  unit : string
}.

Record Recommendation : Type := mkRecommendation {
  input_analysis : TextAnalyzer.Analysis;
  needs_clarification : bool;
  clarification_questions : list string;
  platform_recommendation : dict pyval;
  feature_recommendations : list FeatureRec;
  tech_stack_recommendation : dict pyval;
  cost_estimate : CostEstimate;
  timeline_estimate : TimelineEstimate;
  confidence_score : Q
}.

(** Recommend the best platform (mobile/web/desktop).  Every branch of the
    source returns, so the mapping by business type that follows the
    branches in the source is never reached. *)
Definition _recommend_platform (analysis : TextAnalyzer.Analysis)
  (additional_info : option AdditionalInfo) : result (dict pyval) :=
  let '(platform_pref, platform_confidence) :=
    TextAnalyzer.platform_preference analysis in
  portability <-
    info_item additional_info portability_requirement "portability_requirement" ;;
  business_type <- info_item additional_info business_type "business_type" ;;
  access <- info_item additional_info access_requirement "access_requirement" ;;
  let notification_requirement :=
    PyStr.lower (TextAnalyzer.notification_requirement analysis) in
  if String.eqb portability "high" || String.eqb notification_requirement "major"
  then ret [ ("type", VStr business_type);
             ("platform", VStr "mobile");
             ("confidence", VNum 0.95);
             ("reasoning",
              VStr "Mobile recommended due to high portability requirement") ]
  else if String.eqb portability "low" || String.eqb access "offline"
  then ret [ ("type", VStr business_type);
             ("platform", VStr "desktop");
             ("confidence", VNum 0.9);
             ("reasoning",
              VStr "Desktop recommended due to low portability requirement") ]
  else ret [ ("type", VStr business_type);
             ("platform", VStr platform_pref);
             ("confidence", VNum 0.9);
             ("reasoning",
              VStr (PyStr.title platform_pref ++
                    " recommended due to medium portability requirement")) ].

(** One entry of the feature list; the effort is drawn before the cost. *)
Definition new_feature (feature description_default priority : string)
  : M FeatureRec :=
  effort <- randint 2 8 ;;
  cost <- randint 1000 5000 ;;
  ret (mkFeature feature
                 (dict_get feature_descriptions feature description_default)
                 priority effort cost).

(** [for feature in features: feature_recommendations.append(...)] *)
Fixpoint append_features (features : list string)
  (description_default priority : string)
  (feature_recommendations : list FeatureRec) : M (list FeatureRec) :=
  match features with
  | [] => ret feature_recommendations
  | feature :: rest =>
      feature_rec <- new_feature feature description_default priority ;;
      append_features rest description_default priority
                      (feature_recommendations ++ [feature_rec])%list
  end.

(** The loop over [additional_info['requested_features']], which skips the
    ids the list already holds. *)
Fixpoint append_requested (requested : list string)
  (feature_recommendations : list FeatureRec) : M (list FeatureRec) :=
  match requested with
  | [] => ret feature_recommendations
  | feature :: rest =>
      if existsb (String.eqb feature) (map RecommendationEngine.feature feature_recommendations)
      then append_requested rest feature_recommendations
      else
        feature_rec <-
          new_feature feature "Feature description not available" "medium" ;;
        append_requested rest (feature_recommendations ++ [feature_rec])%list
  end.

(** Recommend features based on detected features or business type *)
Definition _recommend_features (analysis : TextAnalyzer.Analysis)
  (additional_info : option AdditionalInfo) : M (list FeatureRec) :=
  business_type <-
    lift (info_item additional_info business_type "business_type") ;;
  let detected_features := TextAnalyzer.detected_features analysis in
  let feature_recommendations := [] in
  feature_recommendations <-
    match detected_features with
    | [] => ret feature_recommendations
    | _ => append_features detected_features "None" "high"
                           feature_recommendations
    end ;;
  let base_features := firstn 3 (dict_get business_features business_type []) in
  feature_recommendations <-
    append_features base_features "Feature description not available" "medium"
                    feature_recommendations ;;
  if info_has additional_info requested_features
  then
    requested <-
      lift (info_item additional_info requested_features "requested_features") ;;
    append_requested requested feature_recommendations
  else ret feature_recommendations.

(** [s in [a, b, ...]] *)
Definition str_in (s : string) (l : list string) : bool :=
  existsb (String.eqb s) l.

(** Recommend technology stack based on platform and requirements *)
Definition _recommend_tech_stack (platform_rec : dict pyval)
  (analysis : TextAnalyzer.Analysis)
  (additional_info : option AdditionalInfo) : result (dict pyval) :=
  platform <- dict_item platform_rec "platform" ;;
  business_type <- info_item additional_info business_type "business_type" ;;
  available_stacks <- table_get tech_stacks platform [] ;;
  match available_stacks with
  | [] =>
      ret [ ("tech_stack", VStr "Unknown");
            ("description",
             VStr "No technology stack available for this platform");
            ("pros", VList []);
            ("cons", VList []);
            ("confidence", VNum 0.0) ]
  | (first_key, _) :: _ =>
      let recommended_stack :=
        if is_str platform "mobile" then
          if str_in business_type ["restaurant"; "logistics"] then "flutter"
          else if str_in business_type ["healthcare"; "finance"]
               then "react_native"
          else "flutter"
        else if is_str platform "web" then
          if str_in business_type ["retail"; "real_estate"] then "mern"
          else if str_in business_type ["healthcare"; "finance"] then "django"
          else if str_in business_type ["education"] then "laravel"
          else "mern"
        else "electron" in
      recommended_stack <-
        (if info_has additional_info tech_stack_preference
         then info_item additional_info tech_stack_preference
                        "tech_stack_preference"
         else ret recommended_stack) ;;
      first_stack <- dict_item available_stacks first_key ;;
      let tech_stack_info :=
        dict_get available_stacks recommended_stack first_stack in
      confidence <- dict_item platform_rec "confidence" ;;
      ret [ ("tech_stack", VStr recommended_stack);
            ("name", VStr (name tech_stack_info));
            ("description", VStr (description tech_stack_info));
            ("pros", VList (map VStr (pros tech_stack_info)));
            ("cons", VList (map VStr (cons tech_stack_info)));
            ("cost_factor", VNum (cost_factor tech_stack_info));
            ("timeline_factor", VNum (timeline_factor tech_stack_info));
            ("confidence", confidence) ]
  end.

(** [sum(feature[key] for feature in features_rec)] *)
Definition sum_of (key : FeatureRec -> Z) (features_rec : list FeatureRec) : Z :=
  fold_left Z.add (map key features_rec) 0%Z.

Definition platform_base_cost : dict Z :=
  [ ("mobile", 15000%Z); ("web", 12000%Z); ("desktop", 10000%Z) ].

Definition business_multipliers : dict Q :=
  [ ("healthcare", 1.3);    (* Higher due to compliance *)
    ("finance", 1.4);       (* Higher due to security *)
    ("logistics", 1.2);     (* Higher due to complexity *)
    ("retail", 1.0);        (* Standard *)
    ("restaurant", 0.9);    (* Slightly lower *)
    ("education", 1.1);     (* Slightly higher *)
    ("real_estate", 1.0);   (* Standard *)
    ("consulting", 0.9) ].  (* Slightly lower *)

(** Estimate project cost *)
Definition _estimate_cost (platform_rec : dict pyval)
  (features_rec : list FeatureRec) (tech_stack_rec : dict pyval)
  (additional_info : option AdditionalInfo) : result CostEstimate :=
  platform <- dict_item platform_rec "platform" ;;
  base_platform_cost <- table_get platform_base_cost platform 12000%Z ;;
  let feature_cost := sum_of estimated_cost features_rec in
  let tech_stack_cost_factor := dict_get tech_stack_rec "cost_factor" (VNum 1.0) in
  '(business_type, _) <-
    unpack_pair (dict_get platform_rec "business_type"
                          (VTuple [VStr "retail"; VNum 0.5])) ;;
  business_multiplier <- table_get business_multipliers business_type 1.0 ;;
  tech_stack_cost_factor <- as_number tech_stack_cost_factor ;;
  let total_cost :=
    inject_Z (base_platform_cost + feature_cost) * tech_stack_cost_factor
    * business_multiplier in
  total_cost <-
    (if info_has additional_info budget_constraint
     then budget <- info_item additional_info budget_constraint
                              "budget_constraint" ;;
          ret (pymin total_cost budget)
     else ret total_cost) ;;
  ret (mkCost base_platform_cost feature_cost (pyround total_cost 2)
              (pyround (total_cost * 0.8) 2, pyround (total_cost * 1.2) 2)
              "USD").

Definition platform_base_timeline : dict Z :=
  [ ("mobile", 12%Z); ("web", 10%Z); ("desktop", 8%Z) ].

(** Estimate project timeline *)
Definition _estimate_timeline (platform_rec : dict pyval)
  (features_rec : list FeatureRec) (tech_stack_rec : dict pyval)
  (additional_info : option AdditionalInfo) : result TimelineEstimate :=
  platform <- dict_item platform_rec "platform" ;;
  base_platform_timeline <- table_get platform_base_timeline platform 10%Z ;;
  let feature_timeline := sum_of estimated_effort features_rec in
  let tech_stack_timeline_factor :=
    dict_get tech_stack_rec "timeline_factor" (VNum 1.0) in
  tech_stack_timeline_factor <- as_number tech_stack_timeline_factor ;;
  let total_timeline :=
    inject_Z (base_platform_timeline + feature_timeline)
    * tech_stack_timeline_factor in
  total_timeline <-
    (if info_has additional_info timeline_constraint
     then limit <- info_item additional_info timeline_constraint
                             "timeline_constraint" ;;
          ret (pymin total_timeline limit)
     else ret total_timeline) ;;
  ret (mkTimelineEstimate base_platform_timeline feature_timeline
         (pyround total_timeline 1)
         (pyround (total_timeline * 0.8) 1, pyround (total_timeline * 1.2) 1)
         "weeks").

(** Calculate confidence score for the recommendation *)
Definition _calculate_confidence (analysis : TextAnalyzer.Analysis)
  (platform_rec : dict pyval) (features_rec : list FeatureRec) : result Q :=
  let clarity_score := TextAnalyzer.clarity_score analysis in
  let '(business_type, business_confidence) :=
    TextAnalyzer.business_type analysis in
  platform_confidence <- dict_item platform_rec "confidence" ;;
  platform_confidence <- as_number platform_confidence ;;
  let confidence_factors :=
    [ clarity_score * 0.3;
      business_confidence * 0.3;
      platform_confidence * 0.2;
      pymin 1.0 (TextAnalyzer.Q_of_nat (length features_rec) / 10) * 0.2 ] in
  let total_confidence := fold_left Qplus confidence_factors 0 in
  ret (pyround total_confidence 2).

Section WithNLP.

Variable nlp : string -> list string.
Variable textblob_sentiment : string -> Q * Q.

(** Generate comprehensive recommendation based on client input *)
Definition generate_recommendation (client_input : string)
  (additional_info : option AdditionalInfo) : M Recommendation :=
  analysis <-
    lift (TextAnalyzer.analyze_text nlp textblob_sentiment client_input) ;;
  let needs_clarification := TextAnalyzer.needs_clarification analysis in
  let clarification_questions :=
    TextAnalyzer.generate_clarification_questions analysis in
  platform_rec <- lift (_recommend_platform analysis additional_info) ;;
  features_rec <- _recommend_features analysis additional_info ;;
  tech_stack_rec <-
    lift (_recommend_tech_stack platform_rec analysis additional_info) ;;
  cost_estimate <-
    lift (_estimate_cost platform_rec features_rec tech_stack_rec
                         additional_info) ;;
  timeline_estimate <-
    lift (_estimate_timeline platform_rec features_rec tech_stack_rec
                             additional_info) ;;
  confidence <-
    lift (_calculate_confidence analysis platform_rec features_rec) ;;
  ret (mkRecommendation analysis needs_clarification clarification_questions
         platform_rec features_rec tech_stack_rec cost_estimate
         timeline_estimate confidence).

End WithNLP.

End RecommendationEngine.

(** * Vocabulary of the properties *)

Section AnalyzerVocabulary.

Import TextAnalyzer.

(** What the scoring loop builds from a table without repeated keys: one
    entry per row, in the order of the table. *)
Definition scored (table : dict (list string)) (text : string) : dict nat :=
  map (fun row => (fst row, TextAnalyzer.keyword_hits (snd row) text)) table.

(** The number of keywords of a row of a keyword table that occur in the
    lower-cased text. *)
Definition row_hits (text : string) (row : string * list string) : nat :=
  keyword_hits (snd row) (PyStr.lower text).

(** What the classifier answers on a text, with the confidence passed
    through [rounding]: ("unknown", 0.0) when no row of the keyword table
    has a keyword in the text, else the first row, in the order of the
    table, that has the most, with the share of its count in the size of the
    largest keyword list. *)
Definition classifier_answer (rounding : Q -> Q) (text : string)
  (answer : string * Q) : Prop :=
  (Forall (fun row => row_hits text row = 0%nat) business_keywords ->
   answer = ("unknown", 0.0)) /\
  (Exists (fun row => row_hits text row <> 0%nat) business_keywords ->
   exists pre best post,
     business_keywords = (pre ++ best :: post)%list /\
     Forall (fun row => row_hits text row < row_hits text best)%nat pre /\
     Forall (fun row => row_hits text row <= row_hits text best)%nat post /\
     fst answer = fst best /\
     snd answer ==
       rounding (Q_of_nat (row_hits text best)
                 / Q_of_nat (max_keywords business_keywords))).

(** At least two distinct major-notification keywords occur in the
    lower-cased text. *)
Definition two_major_keywords (text : string) : Prop :=
  exists k1 k2,
    k1 <> k2 /\
    In k1 major_notification_keywords /\ In k2 major_notification_keywords /\
    PyStr.contains k1 (PyStr.lower text) = true /\
    PyStr.contains k2 (PyStr.lower text) = true.

(** Some minor-notification keyword occurs in the lower-cased text. *)
Definition some_minor_keyword (text : string) : Prop :=
  exists k,
    In k minor_notification_keywords /\
    PyStr.contains k (PyStr.lower text) = true.

(** The five questions in their priority order, each with the condition
    that triggers it. *)
Definition question_rules (analysis : Analysis) : list (bool * string) :=
  [ (String.eqb (fst (business_type analysis)) "unknown"
     || Qltb (snd (business_type analysis)) 0.3,
     "What type of business do you operate?");
    ((length (detected_features analysis) =? 0)%nat,
     "What specific features or functionality do you need?");
    (negb (budget_mentioned (budget_indicators analysis)),
     "Do you have a budget range in mind for this project?");
    (negb (timeline_mentioned (timeline_indicators analysis)),
     "When do you need this system to be completed?");
    (Qltb (clarity_score analysis) 0.4,
     "Can you provide more details about your business requirements?") ].

(** The questions whose condition holds, in priority order. *)
Definition applicable_questions (analysis : Analysis) : list string :=
  map snd (filter fst (question_rules analysis)).

End AnalyzerVocabulary.

Section EngineVocabulary.

Import RecommendationEngine.

(** The stacks registered for a platform. *)
Definition registered_stacks (platform : string) : dict StackInfo :=
  dict_get tech_stacks platform [].

(** The category ids the analyzer can detect. *)
Definition feature_categories : list string :=
  dict_keys TextAnalyzer.feature_keywords.

(** [additional_info] is absent or lacks one of the three fields the
    platform recommender reads. *)
Definition lacks_required (additional_info : option AdditionalInfo) : Prop :=
  match additional_info with
  | None => True
  | Some info =>
      portability_requirement info = None \/ business_type info = None
      \/ access_requirement info = None
  end.

(** The exception the first failing subscript raises. *)
Definition missing_error (additional_info : option AdditionalInfo) : exn :=
  match additional_info with
  | None => TypeError "'NoneType' object is not subscriptable"
  | Some info =>
      match portability_requirement info, business_type info with
      | None, _ => KeyError "portability_requirement"
      | Some _, None => KeyError "business_type"
      | Some _, Some _ => KeyError "access_requirement"
      end
  end.

End EngineVocabulary.

(** ** Sample collaborators and inputs *)

Module Samples.

(** A whitespace tokenizer and a neutral sentiment stand for spaCy and
    TextBlob where a concrete run is needed. *)
Definition nlp (text : string) : list string := PyStr.split text.
Definition textblob_sentiment (text : string) : Q * Q := (0, 0).

(** A random source that always hands out its lowest value. *)
Definition lowest : rng := fun _ => 0%Z.

Definition vague_analysis : TextAnalyzer.Analysis :=
  Eval vm_compute in
  match TextAnalyzer.analyze_text nlp textblob_sentiment
          "I need something to help manage my business" with
  | inr analysis => analysis
  | inl _ => TextAnalyzer.mkAnalysis "" "" 0 ("", 0) ("", 0) []
               (TextAnalyzer.mkSentiment 0 0) ""
               (TextAnalyzer.mkBudget false [] false)
               (TextAnalyzer.mkTimeline false [] false) "" ""
  end.

Definition store_analysis : TextAnalyzer.Analysis :=
  Eval vm_compute in
  match TextAnalyzer.analyze_text nlp textblob_sentiment
          "I need an online store to sell my products" with
  | inr analysis => analysis
  | inl _ => vague_analysis
  end.

End Samples.

(** ** Vocabulary of the signals of a text *)

Section SignalVocabulary.

Import TextAnalyzer.

(** What a keyword classifier answers over a keyword table: [default] when
    no row has a keyword in the text, else the first row with the most,
    with its count over the size of the largest keyword list, rounded to 2
    decimals. *)
Definition keyword_table_answer (table : dict (list string))
  (default : string * Q) (text : string) (answer : string * Q) : Prop :=
  (Forall (fun row => row_hits text row = 0%nat) table -> answer = default) /\
  (Exists (fun row => row_hits text row <> 0%nat) table ->
   exists pre best post,
     table = (pre ++ best :: post)%list /\
     Forall (fun row => row_hits text row < row_hits text best)%nat pre /\
     Forall (fun row => row_hits text row <= row_hits text best)%nat post /\
     answer = (fst best,
               pyround (Q_of_nat (row_hits text best)
                        / Q_of_nat (max_keywords table)) 2)).

(** Some keyword of the feature category occurs in the lower-cased text. *)
Definition category_mentioned (text : string) (category : string) : Prop :=
  exists keywords keyword,
    In (category, keywords) feature_keywords /\
    In keyword keywords /\
    PyStr.contains keyword (PyStr.lower text) = true.

(** Some keyword of the list occurs in the lower-cased text. *)
Definition mentions (keywords : list string) (text : string) : Prop :=
  exists keyword,
    In keyword keywords /\ PyStr.contains keyword (PyStr.lower text) = true.

(** At least two distinct keywords of the list occur in the lower-cased
    text. *)
Definition mentions_two (keywords : list string) (text : string) : Prop :=
  exists k1 k2,
    k1 <> k2 /\ In k1 keywords /\ In k2 keywords /\
    PyStr.contains k1 (PyStr.lower text) = true /\
    PyStr.contains k2 (PyStr.lower text) = true.

(** The text has no character but whitespace. *)
Definition blank (text : string) : Prop :=
  forallb PyStr.is_space (list_ascii_of_string text) = true.

(** The text has the character. *)
Definition has_char (c : ascii) (text : string) : bool :=
  existsb (Ascii.eqb c) (list_ascii_of_string text).

(** The urgency keywords of [_detect_urgency]. *)
Definition urgency_keywords : list string :=
  ["urgent"; "asap"; "quickly"; "fast"; "immediate"; "emergency"; "rush"].

(** The three keyword tiers of [_detect_portability_requirement]. *)
Definition high_portability_keywords : list string :=
  ["mobile"; "phone"; "smartphone"; "tablet"; "ios"; "android";
   "on-the-go"; "portable"; "travel"; "remote"; "field"; "outdoor";
   "delivery"; "tracking"; "location"; "gps"; "real-time"; "instant";
   "anywhere"; "everywhere"; "accessible"; "mobile-first"; "responsive"].

Definition medium_portability_keywords : list string :=
  ["web"; "website"; "online"; "browser"; "responsive"; "tablet-friendly";
   "cross-platform"; "accessible"; "remote access"; "cloud-based"].

Definition low_portability_keywords : list string :=
  ["desktop"; "computer"; "pc"; "workstation"; "office"; "stationary";
   "fixed"; "local"; "internal"; "enterprise"; "corporate"].

(** The matched number carries cents. *)
Definition has_cents (amount : string) : bool := has_char "." amount.

(** The budget keywords of [_extract_budget_indicators]. *)
Definition budget_keywords : list string :=
  ["budget"; "cost"; "price"; "affordable"; "cheap"; "expensive"; "money"].

(** A character of a matched number: a digit, a comma or a dot. *)
Definition amount_char (c : ascii) : bool :=
  PyStr.is_digit c || Ascii.eqb c "," || Ascii.eqb c ".".

(** A matched number as the pattern shapes it: it starts with a digit and
    holds nothing but digits, commas and dots. *)
Definition amount_shape (amount : string) : Prop :=
  (exists d rest, amount = String d rest /\ PyStr.is_digit d = true) /\
  forallb amount_char (list_ascii_of_string amount) = true.

(** The timeline keywords and the time words of
    [_extract_timeline_indicators]. *)
Definition timeline_keywords : list string :=
  ["timeline"; "deadline"; "schedule"; "time"; "when"; "duration"].

Definition time_words : list string :=
  ["week"; "month"; "year"; "day"; "hour"].


End SignalVocabulary.

(** ** Vocabulary of the engine's records *)

Section EngineRecords.

Import RecommendationEngine.

(** The dict a branch of [_recommend_platform] returns. *)
Definition platform_record (business platform : string) (confidence : Q)
  (reasoning : string) : dict pyval :=
  [ ("type", VStr business); ("platform", VStr platform);
    ("confidence", VNum confidence); ("reasoning", VStr reasoning) ].

(** The dict [_recommend_tech_stack] returns for a stack id and the table
    entry whose fields it copies. *)
Definition stack_record (stack_id : string) (stack : StackInfo)
  (confidence : pyval) : dict pyval :=
  [ ("tech_stack", VStr stack_id);
    ("name", VStr (name stack));
    ("description", VStr (description stack));
    ("pros", VList (map VStr (pros stack)));
    ("cons", VList (map VStr (cons stack)));
    ("cost_factor", VNum (cost_factor stack));
    ("timeline_factor", VNum (timeline_factor stack));
    ("confidence", confidence) ].

(** The dict [_recommend_tech_stack] returns for a platform without
    stacks. *)
Definition unknown_stack_record : dict pyval :=
  [ ("tech_stack", VStr "Unknown");
    ("description", VStr "No technology stack available for this platform");
    ("pros", VList []);
    ("cons", VList []);
    ("confidence", VNum 0.0) ].

(** The total of an estimate before it is rounded: the raw total, capped by
    the constraint when there is one. *)
Definition capped (raw : Q) (constraint : option Q) : Q :=
  match constraint with
  | Some limit => pymin raw limit
  | None => raw
  end.

(** [additional_info] carries the three fields the engine requires. *)
Definition configured (info : AdditionalInfo) : Prop :=
  portability_requirement info <> None /\ business_type info <> None
  /\ access_requirement info <> None.

(** The cost estimate of the engine for a platform, a feature list and a
    stack; the business multiplier it applies is the default one, 1.0. *)
Definition cost_of (platform : string) (features_rec : list FeatureRec)
  (stack : StackInfo) (info : AdditionalInfo) : CostEstimate :=
  let base := dict_get platform_base_cost platform 12000%Z in
  let features := sum_of estimated_cost features_rec in
  let total :=
    capped (inject_Z (base + features) * cost_factor stack * 1.0)
           (budget_constraint info) in
  mkCost base features (pyround total 2)
         (pyround (total * 0.8) 2, pyround (total * 1.2) 2) "USD".

(** The timeline estimate of the engine. *)
Definition timeline_of (platform : string) (features_rec : list FeatureRec)
  (stack : StackInfo) (info : AdditionalInfo) : TimelineEstimate :=
  let base := dict_get platform_base_timeline platform 10%Z in
  let features := sum_of estimated_effort features_rec in
  let total :=
    capped (inject_Z (base + features) * timeline_factor stack)
           (timeline_constraint info) in
  mkTimelineEstimate base features (pyround total 1)
    (pyround (total * 0.8) 1, pyround (total * 1.2) 1) "weeks".

(** The confidence score of the engine. *)
Definition confidence_of (analysis : TextAnalyzer.Analysis)
  (platform_confidence : Q) (feature_count : nat) : Q :=
  pyround (0 + TextAnalyzer.clarity_score analysis * 0.3
           + snd (TextAnalyzer.business_type analysis) * 0.3
           + platform_confidence * 0.2
           + pymin 1.0 (TextAnalyzer.Q_of_nat feature_count / 10) * 0.2) 2.

(** The effort and the cost of a feature lie in the ranges they are drawn
    from. *)
Definition in_range (feature_rec : FeatureRec) : Prop :=
  (2 <= estimated_effort feature_rec <= 8)%Z /\
  (1000 <= estimated_cost feature_rec <= 5000)%Z.

(** What a feature entry holds apart from its random draws. *)
Definition outline (feature_rec : FeatureRec) : string * string * string :=
  (feature feature_rec, feature_description feature_rec,
   priority feature_rec).

(** The ids [additional_info] requests; none without the key. *)
Definition requested_ids (info : AdditionalInfo) : list string :=
  match requested_features info with
  | Some requested => requested
  | None => []
  end.

(** The base features considered for a business type. *)
Definition base_ids (business : string) : list string :=
  firstn 3 (dict_get business_features business []).

(** Where a feature entry comes from and which description it carries: a
    detected feature has priority high and its registered description or
    'None'; a base feature of the business type or a requested feature has
    priority medium and its registered description or the fallback text. *)
Definition described (analysis : TextAnalyzer.Analysis)
  (info : AdditionalInfo) (business : string) (feature_rec : FeatureRec)
  : Prop :=
  (priority feature_rec = "high" /\
   In (feature feature_rec) (TextAnalyzer.detected_features analysis) /\
   feature_description feature_rec
   = dict_get feature_descriptions (feature feature_rec) "None") \/
  (priority feature_rec = "medium" /\
   (In (feature feature_rec) (base_ids business) \/
    In (feature feature_rec) (requested_ids info)) /\
   feature_description feature_rec
   = dict_get feature_descriptions (feature feature_rec)
              "Feature description not available").

(** Two recommendations agree in everything but the effort and the cost
    drawn for each feature and the totals computed from them. *)
Definition same_up_to_draws (r1 r2 : Recommendation) : Prop :=
  (input_analysis r1 = input_analysis r2) /\
  (needs_clarification r1 = needs_clarification r2) /\
  (clarification_questions r1 = clarification_questions r2) /\
  (platform_recommendation r1 = platform_recommendation r2) /\
  (map outline (feature_recommendations r1)
   = map outline (feature_recommendations r2)) /\
  (tech_stack_recommendation r1 = tech_stack_recommendation r2) /\
  (base_cost (cost_estimate r1) = base_cost (cost_estimate r2)) /\
  (base_timeline (timeline_estimate r1)
   = base_timeline (timeline_estimate r2)) /\
  (currency (cost_estimate r1) = currency (cost_estimate r2)) /\
  (unit (timeline_estimate r1) = unit (timeline_estimate r2)) /\
  (confidence_score r1 = confidence_score r2).

(** Two runs end alike: with the same exception, or with recommendations
    that agree up to the draws. *)
Definition same_outcome (run1 run2 : result (Recommendation * rng)) : Prop :=
  match run1, run2 with
  | inl e1, inl e2 => e1 = e2
  | inr (r1, _), inr (r2, _) => same_up_to_draws r1 r2
  | _, _ => False
  end.

End EngineRecords.

(** * Properties *)

(** ** Rounding *)

Section Rounding.

Lemma Qltb_true (x y : Q) : Qltb x y = true <-> x < y.
Proof.
  unfold Qltb. destruct (Qlt_le_dec x y) as [Hlt | Hle].
  - tauto.
  - split; [discriminate | intros H; apply Qle_not_lt in Hle; contradiction].
Qed.

Lemma round_half_even_comp (x y : Q) :
  x == y -> round_half_even x = round_half_even y.
Proof.
  intros E. unfold round_half_even.
  rewrite (Qfloor_comp _ _ E).
  assert (C : Qcompare (x - inject_Z (Qfloor y)) (1 # 2)
              = Qcompare (y - inject_Z (Qfloor y)) (1 # 2)).
  { apply Qcompare_comp; [rewrite E|]; reflexivity. }
  rewrite C. reflexivity.
Qed.

Lemma round_half_even_bounds (x : Q) :
  (Qfloor x <= round_half_even x <= Qfloor x + 1)%Z.
Proof.
  unfold round_half_even.
  destruct (Qcompare _ _); [destruct (Z.even _)| |]; lia.
Qed.

Lemma round_half_even_mono (x y : Q) :
  x <= y -> (round_half_even x <= round_half_even y)%Z.
Proof.
  intros Hxy.
  pose proof (Qfloor_resp_le _ _ Hxy) as Hf.
  destruct (Z.eq_dec (Qfloor x) (Qfloor y)) as [E | N].
  - unfold round_half_even. rewrite E.
    destruct (Qcompare_spec (x - inject_Z (Qfloor y)) (1 # 2)) as [Hx | Hx | Hx];
      destruct (Qcompare_spec (y - inject_Z (Qfloor y)) (1 # 2)) as [Hy | Hy | Hy];
      try destruct (Z.even (Qfloor y)); try lia; exfalso; lra.
  - pose proof (round_half_even_bounds x). pose proof (round_half_even_bounds y).
    lia.
Qed.

Lemma round_half_even_Z (z : Z) : round_half_even (inject_Z z) = z.
Proof.
  unfold round_half_even. rewrite Qfloor_Z.
  destruct (Qcompare_spec (inject_Z z - inject_Z z) (1 # 2)) as [H | H | H];
    [exfalso; lra | reflexivity | exfalso; lra].
Qed.

Lemma scale_pos (n : nat) : 0 < inject_Z (10 ^ Z.of_nat n).
Proof.
  change 0 with (inject_Z 0). rewrite <- Zlt_Qlt.
  apply Z.pow_pos_nonneg; lia.
Qed.

Lemma pyround_comp (x y : Q) (n : nat) : x == y -> pyround x n == pyround y n.
Proof.
  intros E. unfold pyround.
  set (s := inject_Z (10 ^ Z.of_nat n)).
  rewrite (round_half_even_comp (x * s) (y * s)); [reflexivity|].
  rewrite E. reflexivity.
Qed.

Lemma pyround_mono (x y : Q) (n : nat) : x <= y -> pyround x n <= pyround y n.
Proof.
  intros Hxy. unfold pyround.
  pose proof (scale_pos n) as Hs.
  apply Qmult_le_compat_r; [|apply Qlt_le_weak, Qinv_lt_0_compat, Hs].
  rewrite <- Zle_Qle. apply round_half_even_mono.
  apply Qmult_le_compat_r; [exact Hxy | apply Qlt_le_weak, Hs].
Qed.

(** A value that is a whole number of [10^-n] is left as it is. *)
Lemma pyround_exact (z : Z) (n : nat) :
  pyround (inject_Z z / inject_Z (10 ^ Z.of_nat n)) n
  == inject_Z z / inject_Z (10 ^ Z.of_nat n).
Proof.
  pose proof (scale_pos n) as Hs. unfold pyround.
  rewrite (round_half_even_comp _ (inject_Z z)).
  - rewrite round_half_even_Z. reflexivity.
  - field. intros E. rewrite E in Hs. apply (Qlt_irrefl 0 Hs).
Qed.

Lemma pymin_le_l (a b : Q) : pymin a b <= a.
Proof. unfold pymin. destruct (Qlt_le_dec b a); lra. Qed.


Lemma pymin_glb (a b c : Q) : c <= a -> c <= b -> c <= pymin a b.
Proof. unfold pymin. destruct (Qlt_le_dec b a); lra. Qed.

End Rounding.

(** ** Running a computation that may raise *)

Section Binds.

Lemma bind_inr {A B : Type} (a : A) (f : A -> result B) :
  bind (inr a : result A) f = f a.
Proof. reflexivity. Qed.

Lemma bind_ret {A B : Type} (a : A) (f : A -> result B) :
  bind (ret a) f = f a.
Proof. reflexivity. Qed.


Lemma bind_inv {A B : Type} (c : result A) (f : A -> result B) (b : B) :
  bind c f = inr b -> exists a, c = inr a /\ f a = inr b.
Proof. destruct c as [e | a]; [discriminate | eauto]. Qed.

End Binds.

(** ** Dicts of keyword counts *)

Section Scores.

Lemma dict_set_fresh {V : Type} (d : dict V) (k : string) (v : V) :
  ~ In k (dict_keys d) -> dict_set d k v = (d ++ [(k, v)])%list.
Proof.
  induction d as [| [k' v'] d IH]; simpl; intros Hk; [reflexivity|].
  destruct (String.eqb_spec k k') as [-> | _]; [tauto|].
  rewrite IH by tauto. reflexivity.
Qed.

Lemma dict_find_app_fresh {V : Type} (pre post : dict V) (k : string) :
  ~ In k (dict_keys pre) ->
  dict_find (pre ++ post)%list k = dict_find post k.
Proof.
  induction pre as [| [k' v'] pre IH]; simpl; intros Hk; [reflexivity|].
  destruct (String.eqb_spec k k') as [-> | _]; [tauto|].
  apply IH. tauto.
Qed.

Lemma keyword_scores_from (table : dict (list string)) (text : string) :
  forall acc : dict nat,
    NoDup (dict_keys acc ++ dict_keys table) ->
    fold_left (fun scores '(name, keywords) =>
                 dict_set scores name (TextAnalyzer.keyword_hits keywords text))
              table acc
    = (acc ++ scored table text)%list.
Proof.
  induction table as [| [name keywords] table IH]; simpl; intros acc Hnd.
  - now rewrite app_nil_r.
  - rewrite dict_set_fresh.
    + rewrite IH.
      * now rewrite <- app_assoc.
      * unfold dict_keys in *. rewrite map_app, <- app_assoc. exact Hnd.
    + apply NoDup_remove_2 in Hnd. intros Hin. apply Hnd.
      apply in_or_app. now left.
Qed.

Lemma keyword_scores_scored (table : dict (list string)) (text : string) :
  NoDup (dict_keys table) ->
  TextAnalyzer.keyword_scores table text = scored table text.
Proof.
  intros Hnd. unfold TextAnalyzer.keyword_scores.
  now rewrite keyword_scores_from.
Qed.

Lemma any_score_false (table : dict (list string)) (text : string) :
  TextAnalyzer.any_score (scored table text) = false <->
  Forall (fun row => TextAnalyzer.keyword_hits (snd row) text = 0%nat) table.
Proof.
  unfold TextAnalyzer.any_score, scored, dict_values.
  induction table as [| row table IH]; simpl.
  - split; [constructor | reflexivity].
  - rewrite orb_false_iff, IH, negb_false_iff, Nat.eqb_eq.
    split.
    + intros [? ?]. now constructor.
    + intros H. inversion H. tauto.
Qed.

(** [max_key_from] returns the first entry that holds the largest count. *)
Lemma max_key_from_first (rest : dict nat) :
  forall (before between : dict nat) (best : string) (best_v : nat),
    Forall (fun e => snd e < best_v)%nat before ->
    Forall (fun e => snd e <= best_v)%nat between ->
    exists pre k v post,
      (before ++ (best, best_v) :: between ++ rest)%list
      = (pre ++ (k, v) :: post)%list /\
      max_key_from best best_v rest = k /\
      Forall (fun e => snd e < v)%nat pre /\
      Forall (fun e => snd e <= v)%nat post.
Proof.
  induction rest as [| [k v] rest IH]; simpl; intros before between best best_v Hb Hm.
  - exists before, best, best_v, between. rewrite app_nil_r. auto.
  - destruct (Nat.ltb_spec best_v v) as [Hlt | Hge].
    + destruct (IH (before ++ (best, best_v) :: between)%list [] k v)
        as (pre & k' & v' & post & E & R & Hpre & Hpost).
      * apply Forall_app. split.
        -- eapply Forall_impl; [|exact Hb]. simpl. intros; lia.
        -- constructor; [simpl; lia|].
           eapply Forall_impl; [|exact Hm]. simpl. intros; lia.
      * constructor.
      * exists pre, k', v', post. repeat split; auto.
        rewrite <- E. simpl. rewrite <- app_assoc. reflexivity.
    + destruct (IH before (between ++ [(k, v)])%list best best_v)
        as (pre & k' & v' & post & E & R & Hpre & Hpost).
      * exact Hb.
      * apply Forall_app. split; [exact Hm|]. constructor; [simpl; lia|constructor].
      * exists pre, k', v', post. repeat split; auto.
        rewrite <- E. rewrite <- app_assoc. reflexivity.
Qed.

Lemma max_key_first (d : dict nat) :
  d <> [] ->
  exists pre k v post,
    d = (pre ++ (k, v) :: post)%list /\
    max_key d = inr k /\
    Forall (fun e => snd e < v)%nat pre /\
    Forall (fun e => snd e <= v)%nat post.
Proof.
  destruct d as [| [k0 v0] rest]; [congruence|]. intros _.
  destruct (max_key_from_first rest [] [] k0 v0)
    as (pre & k & v & post & E & R & Hpre & Hpost); try constructor.
  exists pre, k, v, post. simpl in *. rewrite R. auto.
Qed.

(** The row of a table at which a split of its scores falls. *)
Lemma scored_split (table : dict (list string)) (text : string) :
  forall (pre : dict nat) (k : string) (v : nat) (post : dict nat),
    scored table text = (pre ++ (k, v) :: post)%list ->
    exists tpre row tpost,
      table = (tpre ++ row :: tpost)%list /\
      pre = scored tpre text /\ post = scored tpost text /\
      k = fst row /\ v = TextAnalyzer.keyword_hits (snd row) text.
Proof.
  unfold scored. intros pre k v post E.
  apply map_eq_app in E. destruct E as (tpre & t2 & -> & E1 & E2).
  apply map_eq_cons in E2. destruct E2 as (row & tpost & -> & E2 & E3).
  exists tpre, row, tpost. inversion E2. subst. auto.
Qed.

Lemma Forall_scored (P : nat -> Prop) (table : dict (list string)) (text : string) :
  Forall (fun e => P (snd e)) (scored table text) <->
  Forall (fun row => P (TextAnalyzer.keyword_hits (snd row) text)) table.
Proof.
  unfold scored. rewrite Forall_map. simpl. reflexivity.
Qed.

Lemma dict_find_values {V : Type} (d : dict V) (k : string) (v : V) :
  dict_find d k = Some v -> In v (dict_values d).
Proof.
  induction d as [| [k' v'] d IH]; simpl; [discriminate|].
  destruct (String.eqb k k').
  - intros [= ->]. now left.
  - intros H. right. now apply IH.
Qed.

End Scores.

(** ** The keyword classifiers *)

Section Classifiers.

Import TextAnalyzer.

Lemma scored_keys (table : dict (list string)) (text : string) :
  dict_keys (scored table text) = dict_keys table.
Proof.
  unfold scored, dict_keys. rewrite map_map. reflexivity.
Qed.

Lemma best_row (table : dict (list string)) (text : string) :
  NoDup (dict_keys table) ->
  Exists (fun row => keyword_hits (snd row) text <> 0%nat) table ->
  exists tpre row tpost,
    table = (tpre ++ row :: tpost)%list /\
    Forall (fun r => keyword_hits (snd r) text < keyword_hits (snd row) text)%nat tpre /\
    Forall (fun r => keyword_hits (snd r) text <= keyword_hits (snd row) text)%nat tpost /\
    any_score (keyword_scores table text) = true /\
    max_key (keyword_scores table text) = inr (fst row) /\
    dict_item (keyword_scores table text) (fst row)
    = inr (keyword_hits (snd row) text).
Proof.
  intros Hnd Hex. rewrite (keyword_scores_scored _ _ Hnd).
  assert (Hne : scored table text <> []).
  { destruct table; [inversion Hex | discriminate]. }
  destruct (max_key_first _ Hne) as (pre & k & v & post & E & R & Hpre & Hpost).
  destruct (scored_split _ _ _ _ _ _ E) as (tpre & row & tpost & -> & -> & -> & -> & ->).
  exists tpre, row, tpost.
  apply (Forall_scored (fun n => n < keyword_hits (snd row) text)%nat) in Hpre.
  apply (Forall_scored (fun n => n <= keyword_hits (snd row) text)%nat) in Hpost.
  repeat split; auto.
  - destruct (any_score (scored (tpre ++ row :: tpost)%list text)) eqn:A;
      [reflexivity|].
    apply any_score_false in A. apply Exists_exists in Hex.
    destruct Hex as (r & Hin & Hr). rewrite Forall_forall in A.
    elim Hr. now apply A.
  - unfold dict_item. rewrite E, dict_find_app_fresh.
    + simpl. rewrite String.eqb_refl. reflexivity.
    + rewrite scored_keys. unfold dict_keys in *.
      rewrite map_app in Hnd. simpl in Hnd.
      apply NoDup_remove_2 in Hnd. intros Hin. apply Hnd.
      apply in_or_app. now left.
Qed.

Lemma business_keywords_NoDup : NoDup (dict_keys business_keywords).
Proof. repeat constructor; simpl; intuition discriminate. Qed.

Lemma platform_indicators_NoDup : NoDup (dict_keys platform_indicators).
Proof. repeat constructor; simpl; intuition discriminate. Qed.

Lemma no_row_hits (table : dict (list string)) (text : string) :
  NoDup (dict_keys table) ->
  Forall (fun row => keyword_hits (snd row) text = 0%nat) table ->
  any_score (keyword_scores table text) = false.
Proof.
  intros Hnd H. rewrite (keyword_scores_scored _ _ Hnd).
  now apply any_score_false.
Qed.

Lemma hits_dec (table : dict (list string)) (text : string) :
  Forall (fun row => keyword_hits (snd row) text = 0%nat) table \/
  Exists (fun row => keyword_hits (snd row) text <> 0%nat) table.
Proof.
  induction table as [| row table [IH | IH]].
  - left. constructor.
  - destruct (Nat.eq_dec (keyword_hits (snd row) text) 0).
    + left. now constructor.
    + right. now constructor.
  - right. now constructor 2.
Qed.

(** The platform detector returns, and returns one of the three platforms. *)
Lemma detect_platform_preference_total (text : string) :
  exists platform confidence,
    _detect_platform_preference text = inr (platform, confidence) /\
    In platform ["mobile"; "web"; "desktop"].
Proof.
  unfold _detect_platform_preference.
  destruct (hits_dec platform_indicators (PyStr.lower text)) as [H0 | H1].
  - rewrite (no_row_hits _ _ platform_indicators_NoDup H0). simpl.
    eexists _, _. split; [reflexivity|]. simpl. auto.
  - destruct (best_row _ _ platform_indicators_NoDup H1)
      as (tpre & row & tpost & E & _ & _ & A & R & I).
    rewrite A. cbn [negb]. rewrite R, bind_inr, I, bind_inr.
    eexists _, _. split; [reflexivity|].
    assert (Hin : In (fst row) (dict_keys platform_indicators)).
    { rewrite E. unfold dict_keys. rewrite map_app. apply in_or_app.
      right. now left. }
    exact Hin.
Qed.


End Classifiers.

(** ** The business-type classifier *)

Section BusinessType.

Import TextAnalyzer.

Lemma max_keywords_business : max_keywords business_keywords = 8%nat.
Proof. reflexivity. Qed.

(** C4, as amended: on every text the classifier returns; it returns
    ("unknown", 0.0) when no category has a keyword in the lower-cased text,
    and otherwise the first category of the keyword table with the highest
    count, with confidence that count divided by 8, the size of the largest
    keyword list, rounded to 2 decimals. *)
Theorem classify_business_type_rounded (text : string) :
  exists answer,
    _classify_business_type text = inr answer /\
    classifier_answer (fun q => pyround q 2) text answer.
Proof.
  unfold _classify_business_type, classifier_answer.
  destruct (hits_dec business_keywords (PyStr.lower text)) as [H0 | H1].
  - rewrite (no_row_hits _ _ business_keywords_NoDup H0). cbn [negb].
    eexists. split; [reflexivity|]. split; [reflexivity|].
    intros Hex. exfalso. apply Exists_exists in Hex.
    destruct Hex as (row & Hin & Hrow). rewrite Forall_forall in H0.
    apply Hrow. now apply H0.
  - destruct (best_row _ _ business_keywords_NoDup H1)
      as (tpre & row & tpost & E & Hpre & Hpost & A & R & I).
    rewrite A. cbn [negb]. rewrite R, bind_inr, I, bind_inr.
    eexists. split; [reflexivity|]. split.
    + intros H0. exfalso. apply Exists_exists in H1.
      destruct H1 as (r & Hin & Hr). rewrite Forall_forall in H0.
      apply Hr. now apply H0.
    + intros _. exists tpre, row, tpost. repeat split; auto.
Qed.

Lemma classify_business_type_rounded_witness :
  exists answer,
    _classify_business_type "food delivery" = inr answer /\
    classifier_answer (fun q => pyround q 2) "food delivery" answer.
Proof. exact (classify_business_type_rounded "food delivery"). Defined.

(** C4, as stated, fails on the text "store": one keyword of "retail"
    occurs, and the confidence returned is 0.12, not 1/8. *)
Lemma classify_business_type_not_exact :
  exists answer,
    _classify_business_type "store" = inr answer /\
    ~ classifier_answer (fun q => q) "store" answer.
Proof.
  eexists. split; [reflexivity|].
  intros [_ H].
  destruct H as (pre & best & post & _ & _ & _ & _ & Hc).
  - constructor. vm_compute. discriminate.
  - rewrite max_keywords_business in Hc. cbn [snd] in Hc.
    generalize dependent (row_hits "store" best). intros n Hc.
    unfold Qeq, Qdiv, Qmult, Qinv, Q_of_nat in Hc. simpl in Hc. lia.
Qed.

End BusinessType.

(** ** The notification requirement *)

Section Notification.

Import TextAnalyzer.

Lemma two_in_filter (p : string -> bool) (l : list string) :
  NoDup l ->
  (2 <= length (filter p l))%nat <->
  exists k1 k2, k1 <> k2 /\ In k1 l /\ In k2 l /\ p k1 = true /\ p k2 = true.
Proof.
  intros Hnd. pose proof (NoDup_filter p Hnd) as Hf. split.
  - destruct (filter p l) as [| a [| b rest]] eqn:E; simpl; try lia. intros _.
    assert (Ha : In a (filter p l)) by (rewrite E; simpl; auto).
    assert (Hb : In b (filter p l)) by (rewrite E; simpl; auto).
    apply filter_In in Ha, Hb. exists a, b. repeat split; try tauto.
    inversion Hf as [| ? ? Hnotin _]. subst. intros ->. apply Hnotin. now left.
  - intros (k1 & k2 & Hne & H1 & H2 & P1 & P2).
    assert (Hincl : incl [k1; k2] (filter p l)).
    { intros k [<- | [<- | []]]; apply filter_In; auto. }
    apply NoDup_incl_length in Hincl; [exact Hincl|].
    constructor; [simpl; intuition | constructor; [simpl; tauto | constructor]].
Qed.

Lemma one_in_filter (p : string -> bool) (l : list string) :
  (0 < length (filter p l))%nat <-> exists k, In k l /\ p k = true.
Proof.
  split.
  - destruct (filter p l) as [| a rest] eqn:E; simpl; [lia|]. intros _.
    exists a. apply filter_In. rewrite E. now left.
  - intros (k & Hin & Hp).
    assert (H : In k (filter p l)) by (apply filter_In; auto).
    destruct (filter p l); [contradiction | simpl; lia].
Qed.

Lemma major_notification_keywords_NoDup : NoDup major_notification_keywords.
Proof.
  unfold major_notification_keywords.
  repeat (constructor; [simpl; intuition discriminate|]). constructor.
Qed.

(** C7: the notification requirement of a text is "major" exactly when at
    least two distinct major keywords occur in the lower-cased text,
    otherwise "minor" exactly when some minor keyword occurs, otherwise
    "none"; and "urgent real-time alert tracking" yields "major". *)
Theorem detect_notification_requirement_levels :
  (forall text : string,
      (_detect_notification_requirement text = "major"
       <-> two_major_keywords text) /\
      (_detect_notification_requirement text = "minor"
       <-> ~ two_major_keywords text /\ some_minor_keyword text) /\
      (_detect_notification_requirement text = "none"
       <-> ~ two_major_keywords text /\ ~ some_minor_keyword text)) /\
  _detect_notification_requirement "urgent real-time alert tracking" = "major".
Proof.
  split; [|reflexivity].
  intros text. unfold _detect_notification_requirement, keyword_hits.
  pose proof (two_in_filter
                (fun keyword => PyStr.contains keyword (PyStr.lower text))
                _ major_notification_keywords_NoDup) as Hmajor.
  pose proof (one_in_filter
                (fun keyword => PyStr.contains keyword (PyStr.lower text))
                minor_notification_keywords) as Hminor.
  fold (two_major_keywords text) in Hmajor.
  fold (some_minor_keyword text) in Hminor.
  set (major_count := length (filter _ major_notification_keywords)) in *.
  set (minor_count := length (filter _ minor_notification_keywords)) in *.
  destruct (Nat.leb_spec 2 major_count) as [H2 | H2].
  - assert (Hm : two_major_keywords text) by tauto.
    repeat split; intros; try discriminate; try reflexivity; tauto.
  - assert (Hm : ~ two_major_keywords text).
    { intros H. apply Hmajor in H. lia. }
    destruct (Nat.ltb_spec 0 minor_count) as [H1 | H1].
    + assert (Hs : some_minor_keyword text) by tauto.
      repeat split; intros; try discriminate; try reflexivity; tauto.
    + assert (Hs : ~ some_minor_keyword text).
      { intros H. apply Hminor in H. lia. }
      repeat split; intros; try discriminate; try reflexivity; tauto.
Qed.

End Notification.

(** ** The clarification policy *)

Section Clarification.

Import TextAnalyzer.

Lemma firstn_In {A : Type} (n : nat) (l : list A) (x : A) :
  In x (firstn n l) -> In x l.
Proof.
  revert l. induction n as [| n IH]; intros [| a l]; simpl; try tauto.
  intros [H | H]; auto.
Qed.

(** C5: the questions generated are the first three applicable ones in the
    priority order, so there are at most three and each has its condition
    met; and clarification is needed whenever the clarity score is below
    0.5. *)
Theorem clarification_policy (analysis : Analysis) :
  generate_clarification_questions analysis
  = firstn 3 (applicable_questions analysis) /\
  (length (generate_clarification_questions analysis) <= 3)%nat /\
  (forall question,
      In question (generate_clarification_questions analysis) ->
      In (true, question) (question_rules analysis)) /\
  (clarity_score analysis < 0.5 -> needs_clarification analysis = true).
Proof.
  assert (E : generate_clarification_questions analysis
              = firstn 3 (applicable_questions analysis)).
  { unfold generate_clarification_questions, applicable_questions,
      question_rules.
    destruct (business_type analysis) as [category confidence].
    cbn [fst snd filter map].
    destruct (String.eqb category "unknown" || Qltb confidence 0.3);
      destruct (length (detected_features analysis) =? 0)%nat;
      destruct (negb (budget_mentioned (budget_indicators analysis)));
      destruct (negb (timeline_mentioned (timeline_indicators analysis)));
      destruct (Qltb (clarity_score analysis) 0.4); reflexivity. }
  split; [exact E|]. split; [|split].
  - rewrite E. apply firstn_le_length.
  - intros question Hin. rewrite E in Hin.
    apply firstn_In in Hin.
    unfold applicable_questions in Hin. apply in_map_iff in Hin.
    destruct Hin as ([b q] & Hq & Hf). simpl in Hq. subst q.
    apply filter_In in Hf. destruct Hf as [Hin Hb]. simpl in Hb. now subst b.
  - intros Hc. unfold needs_clarification.
    destruct (business_type analysis) as [category confidence].
    apply Qltb_true in Hc. rewrite Hc. reflexivity.
Qed.

End Clarification.

Lemma clarification_policy_witness :
  TextAnalyzer.clarity_score Samples.vague_analysis < 0.5 /\
  TextAnalyzer.needs_clarification Samples.vague_analysis = true.
Proof.
  assert (H : TextAnalyzer.clarity_score Samples.vague_analysis < 0.5)
    by (vm_compute; reflexivity).
  split; [exact H|].
  exact (proj2 (proj2 (proj2 (clarification_policy Samples.vague_analysis))) H).
Defined.

Lemma detect_notification_requirement_levels_witness :
  two_major_keywords "urgent real-time alert tracking".
Proof.
  destruct detect_notification_requirement_levels as [Hall Hscenario].
  exact (proj1 (proj1 (Hall "urgent real-time alert tracking")) Hscenario).
Defined.

(** ** The platform recommender *)

Section Platform.

Import RecommendationEngine.

Lemma detect_notification_requirement_enum (text : string) :
  In (TextAnalyzer._detect_notification_requirement text)
     ["none"; "minor"; "major"].
Proof.
  unfold TextAnalyzer._detect_notification_requirement.
  destruct (2 <=? _)%nat; [simpl; auto|].
  destruct (0 <? _)%nat; simpl; auto.
Qed.

(** C2: with the three required fields present, the platform recommender
    returns; the first matching rule decides: mobile with confidence 0.95
    for high portability or a major notification requirement, else desktop
    with confidence 0.90 for low portability or offline access, else the
    detected platform preference with confidence 0.90; the business type
    returned is the one of [additional_info], and the platform is one of
    mobile, web and desktop. *)
Theorem recommend_platform_decision
  (analysis : TextAnalyzer.Analysis) (info : AdditionalInfo)
  (portability business access : string) :
  portability_requirement info = Some portability ->
  business_type info = Some business ->
  access_requirement info = Some access ->
  In (TextAnalyzer.notification_requirement analysis)
     ["none"; "minor"; "major"] ->
  In (fst (TextAnalyzer.platform_preference analysis))
     ["mobile"; "web"; "desktop"] ->
  exists platform confidence reasoning,
    _recommend_platform analysis (Some info)
    = inr [ ("type", VStr business); ("platform", VStr platform);
            ("confidence", VNum confidence); ("reasoning", VStr reasoning) ] /\
    In platform ["mobile"; "web"; "desktop"] /\
    let first_rule :=
      portability = "high"
      \/ TextAnalyzer.notification_requirement analysis = "major" in
    let second_rule := portability = "low" \/ access = "offline" in
    (first_rule -> platform = "mobile" /\ confidence == 0.95) /\
    (~ first_rule -> second_rule ->
     platform = "desktop" /\ confidence == 0.90) /\
    (~ first_rule -> ~ second_rule ->
     platform = fst (TextAnalyzer.platform_preference analysis)
     /\ confidence == 0.90).
Proof.
  intros Hp Hb Ha Hn Hpref. unfold _recommend_platform.
  destruct (TextAnalyzer.platform_preference analysis) as [pref pref_conf].
  cbn [fst] in *. cbn [info_item]. rewrite Hp, Hb, Ha, !bind_inr.
  assert (Hlow : PyStr.lower (TextAnalyzer.notification_requirement analysis)
                 = TextAnalyzer.notification_requirement analysis).
  { destruct Hn as [<- | [<- | [<- | []]]]; reflexivity. }
  rewrite Hlow.
  destruct (String.eqb_spec portability "high") as [E1 | N1];
    [| destruct (String.eqb_spec
                   (TextAnalyzer.notification_requirement analysis) "major")
         as [E2 | N2]];
    cbn [orb].
  1, 2: eexists _, _, _; split; [reflexivity|];
        split; [simpl; auto|];
        repeat split; try reflexivity; intros; tauto.
  destruct (String.eqb_spec portability "low") as [E3 | N3];
    [| destruct (String.eqb_spec access "offline") as [E4 | N4]];
    cbn [orb].
  1, 2: eexists _, _, _; split; [reflexivity|];
        split; [simpl; auto|];
        repeat split; try reflexivity; intros; tauto.
  eexists _, _, _. split; [reflexivity|]. split; [exact Hpref|].
  repeat split; try reflexivity; intros; tauto.
Qed.

Lemma recommend_platform_decision_witness :
  exists platform confidence reasoning,
    _recommend_platform Samples.store_analysis
      (Some (mkInfo (Some "low") (Some "retail") (Some "offline")
                    None None None None))
    = inr [ ("type", VStr "retail"); ("platform", VStr platform);
            ("confidence", VNum confidence); ("reasoning", VStr reasoning) ] /\
    platform = "desktop" /\ confidence == 0.90.
Proof.
  destruct (recommend_platform_decision Samples.store_analysis
              (mkInfo (Some "low") (Some "retail") (Some "offline")
                      None None None None)
              "low" "retail" "offline" eq_refl eq_refl eq_refl)
    as (platform & confidence & reasoning & Hrun & _ & _ & Hsecond & _).
  - simpl. auto.
  - simpl. auto.
  - exists platform, confidence, reasoning. split; [exact Hrun|].
    apply Hsecond.
    + intros [H | H]; discriminate H.
    + left. reflexivity.
Defined.

End Platform.

(** ** The confidence score *)

Section Confidence.

Import RecommendationEngine.

Lemma Q_of_nat_nonneg (n : nat) : 0 <= TextAnalyzer.Q_of_nat n.
Proof.
  unfold TextAnalyzer.Q_of_nat. change 0 with (inject_Z 0).
  rewrite <- Zle_Qle. lia.
Qed.



End Confidence.

(** ** The cost estimate *)

Section Cost.

Import RecommendationEngine.

Lemma recommend_platform_keys
  (analysis : TextAnalyzer.Analysis) (additional_info : option AdditionalInfo)
  (platform_rec : dict pyval) :
  _recommend_platform analysis additional_info = inr platform_rec ->
  dict_keys platform_rec = ["type"; "platform"; "confidence"; "reasoning"] /\
  exists platform, dict_find platform_rec "platform" = Some (VStr platform).
Proof.
  unfold _recommend_platform.
  destruct (TextAnalyzer.platform_preference analysis) as [pref pref_conf].
  intros H.
  apply bind_inv in H. destruct H as (portability & _ & H).
  apply bind_inv in H. destruct H as (business & _ & H).
  apply bind_inv in H. destruct H as (access & _ & H).
  destruct (_ || _) in H; [|destruct (_ || _) in H];
    injection H as <-; split; try reflexivity; eexists; reflexivity.
Qed.

(** What the cost estimator computes from a platform recommendation of the
    engine when no budget is given: the multiplier of the business type
    does not enter. *)
Lemma estimate_cost_of_recommended_platform
  (analysis : TextAnalyzer.Analysis) (info : AdditionalInfo)
  (platform_rec tech_stack_rec : dict pyval)
  (features_rec : list FeatureRec) (factor : Q) :
  _recommend_platform analysis (Some info) = inr platform_rec ->
  budget_constraint info = None ->
  dict_find tech_stack_rec "cost_factor" = Some (VNum factor) ->
  exists platform estimate,
    dict_find platform_rec "platform" = Some (VStr platform) /\
    _estimate_cost platform_rec features_rec tech_stack_rec (Some info)
    = inr estimate /\
    total_cost estimate
    == pyround (inject_Z (dict_get platform_base_cost platform 12000%Z
                          + sum_of estimated_cost features_rec)
                * factor) 2.
Proof.
  intros Hrec Hbudget Hfactor.
  destruct (recommend_platform_keys _ _ _ Hrec) as [Hkeys [platform Hplatform]].
  exists platform.
  assert (Hnone : dict_find platform_rec "business_type" = None).
  { destruct platform_rec as [| [k1 v1] [| [k2 v2] [| [k3 v3] [| [k4 v4] [| ? ?]]]]];
      try discriminate Hkeys.
    injection Hkeys as -> -> -> ->. reflexivity. }
  eexists. split; [exact Hplatform|]. split.
  - unfold _estimate_cost, dict_item, dict_get.
    rewrite Hplatform, Hnone, Hfactor, bind_inr.
    cbn [table_get]. rewrite bind_inr.
    cbn [unpack_pair]. rewrite bind_inr.
    cbn [table_get]. rewrite bind_inr.
    cbn [as_number]. rewrite bind_inr.
    unfold info_has. rewrite Hbudget. cbn [is_some]. rewrite andb_false_r.
    rewrite bind_ret. reflexivity.
  - cbn [total_cost]. apply pyround_comp.
    change (dict_get business_multipliers "retail" 1.0) with 1.0.
    unfold dict_get. ring.
Qed.

(** C1 fails on the code: for a healthcare client steered to mobile, with
    the React Native stack (cost factor 0.9), the estimator returns
    15000 x 0.9 = 13500 for an empty feature list where the healthcare
    multiplier 1.3 of the claim gives 17550, and the engine returns
    (15000 + 4000) x 0.9 = 17100 where the claim gives 22230.  The estimator
    looks the business type up under the key 'business_type', while the
    platform recommender stores it under 'type'. *)
Theorem estimate_cost_skips_business_multiplier :
  let info :=
    mkInfo (Some "high") (Some "healthcare") (Some "online")
           None None None None in
  (exists platform_rec tech_stack_rec estimate,
      _recommend_platform Samples.store_analysis (Some info)
      = inr platform_rec /\
      dict_find platform_rec "type" = Some (VStr "healthcare") /\
      dict_find platform_rec "platform" = Some (VStr "mobile") /\
      _recommend_tech_stack platform_rec Samples.store_analysis (Some info)
      = inr tech_stack_rec /\
      dict_find tech_stack_rec "cost_factor" = Some (VNum 0.9) /\
      _estimate_cost platform_rec [] tech_stack_rec (Some info)
      = inr estimate /\
      total_cost estimate == 13500 /\
      inject_Z (15000 + 0) * 0.9
      * dict_get business_multipliers "healthcare" 1.0 == 17550) /\
  (exists recommendation g',
      runStateT
        (generate_recommendation Samples.nlp Samples.textblob_sentiment
           "I need an online store to sell my products" (Some info))
        Samples.lowest
      = inr (recommendation, g') /\
      dict_find (platform_recommendation recommendation) "type"
      = Some (VStr "healthcare") /\
      base_cost (cost_estimate recommendation) = 15000%Z /\
      feature_cost (cost_estimate recommendation) = 4000%Z /\
      dict_find (tech_stack_recommendation recommendation) "cost_factor"
      = Some (VNum 0.9) /\
      total_cost (cost_estimate recommendation) == 17100 /\
      inject_Z (15000 + 4000) * 0.9
      * dict_get business_multipliers "healthcare" 1.0 == 22230).
Proof.
  split.
  - eexists _, _, _.
    split; [reflexivity|]. split; [reflexivity|]. split; [reflexivity|].
    split; [reflexivity|]. split; [reflexivity|]. split; [reflexivity|].
    split; reflexivity.
  - destruct (runStateT _ Samples.lowest) as [e | [recommendation g']] eqn:Hrun;
      vm_compute in Hrun; [discriminate Hrun|].
    injection Hrun as <- <-.
    eexists _, _. split; [reflexivity|]. repeat split.
Qed.

End Cost.

(** ** The tech-stack selector *)

Section TechStack.

Import RecommendationEngine.




End TechStack.

(** ** Running a computation that draws random numbers *)

Section Runs.

Lemma run_ret {A : Type} (a : A) (g : rng) :
  runStateT (ret a : M A) g = inr (a, g).
Proof. reflexivity. Qed.

Lemma run_bind {A B : Type} (c : M A) (k : A -> M B) (g : rng) :
  runStateT (bind c k) g
  = match runStateT c g with
    | inl e => inl e
    | inr (a, g') => runStateT (k a) g'
    end.
Proof.
  cbn. destruct (runStateT c g) as [e | [a g']]; reflexivity.
Qed.

Lemma run_lift {A : Type} (c : result A) (g : rng) :
  runStateT (lift c : M A) g
  = match c with
    | inl e => inl e
    | inr a => inr (a, g)
    end.
Proof. destruct c; reflexivity. Qed.

End Runs.

(** ** The feature recommender *)

Section Features.

Import RecommendationEngine.

Lemma new_feature_run (id description_default level : string) (g : rng) :
  exists feature_rec g',
    runStateT (new_feature id description_default level) g
    = inr (feature_rec, g') /\
    feature feature_rec = id /\
    priority feature_rec = level /\
    (2 <= estimated_effort feature_rec <= 8)%Z /\
    (1000 <= estimated_cost feature_rec <= 5000)%Z.
Proof.
  unfold new_feature. eexists _, _. split; [reflexivity|].
  cbn [feature priority estimated_effort estimated_cost].
  repeat split; try reflexivity.
  - pose proof (Z.mod_pos_bound (g O) (8 - 2 + 1)). lia.
  - pose proof (Z.mod_pos_bound (g O) (8 - 2 + 1)). lia.
  - pose proof (Z.mod_pos_bound (g 1%nat) (5000 - 1000 + 1)). lia.
  - pose proof (Z.mod_pos_bound (g 1%nat) (5000 - 1000 + 1)). lia.
Qed.

Lemma append_features_run (ids : list string)
  (description_default level : string) :
  forall (acc : list FeatureRec) (g : rng),
  exists features g',
    runStateT (append_features ids description_default level acc) g
    = inr (features, g') /\
    map feature features = (map feature acc ++ ids)%list.
Proof.
  induction ids as [| id ids IH]; intros acc g; cbn [append_features].
  - exists acc, g. rewrite app_nil_r. split; reflexivity.
  - rewrite run_bind.
    destruct (new_feature_run id description_default level g)
      as (feature_rec & g1 & -> & Hid & _).
    destruct (IH (acc ++ [feature_rec])%list g1) as (features & g' & Hrun & Hids).
    exists features, g'. split; [exact Hrun|].
    rewrite Hids, map_app, <- app_assoc. cbn [map app]. now rewrite Hid.
Qed.

Lemma existsb_eqb_In (x : string) (l : list string) :
  existsb (String.eqb x) l = true <-> In x l.
Proof.
  rewrite existsb_exists. split.
  - intros (y & Hin & E). apply String.eqb_eq in E. now subst.
  - intros Hin. exists x. split; [exact Hin | apply String.eqb_refl].
Qed.

Lemma append_requested_run (requested : list string) :
  forall (acc : list FeatureRec) (g : rng),
    NoDup (map feature acc) ->
    exists features g',
      runStateT (append_requested requested acc) g = inr (features, g') /\
      NoDup (map feature features).
Proof.
  induction requested as [| id requested IH]; intros acc g Hnd;
    cbn [append_requested].
  - exists acc, g. split; [reflexivity | exact Hnd].
  - destruct (existsb (String.eqb id) (map feature acc)) eqn:E.
    + apply IH, Hnd.
    + rewrite run_bind.
      destruct (new_feature_run id "Feature description not available"
                  "medium" g) as (feature_rec & g1 & -> & Hid & _).
      apply IH. rewrite map_app. cbn [map]. rewrite Hid.
      apply NoDup_app; [exact Hnd | repeat constructor; simpl; tauto |].
      intros x Hin [<- | []].
      apply existsb_eqb_In in Hin. congruence.
Qed.

(** The base features of a business type are distinct and none of them is a
    category id. *)
Lemma base_features_fresh (business : string) :
  let base := firstn 3 (dict_get business_features business []) in
  NoDup base /\ forall id, In id feature_categories -> ~ In id base.
Proof.
  unfold dict_get, business_features. cbn [dict_find].
  repeat (destruct (String.eqb business _);
          [split;
           [repeat constructor; simpl; intuition discriminate
           | intros id Hin; simpl in *; intuition (subst; discriminate)]|]).
  split; [constructor | intros id _ []].
Qed.

(** With a business type given, the feature recommender returns, and the
    ids it returns are distinct when the detected features are distinct
    category ids. *)
Lemma recommend_features_run
  (analysis : TextAnalyzer.Analysis) (info : AdditionalInfo)
  (business : string) (g : rng) :
  business_type info = Some business ->
  NoDup (TextAnalyzer.detected_features analysis) ->
  incl (TextAnalyzer.detected_features analysis) feature_categories ->
  exists features g',
    runStateT (_recommend_features analysis (Some info)) g
    = inr (features, g') /\
    NoDup (map feature features).
Proof.
  intros Hb Hnd Hincl. unfold _recommend_features.
  rewrite run_bind, run_lift. cbn [info_item]. rewrite Hb.
  rewrite run_bind.
  set (detected := TextAnalyzer.detected_features analysis) in *.
  match goal with
  | |- context [runStateT ?c g] =>
      assert (Hdet : exists features g1,
                 runStateT c g = inr (features, g1)
                 /\ map feature features = detected)
  end.
  { destruct detected as [| d ds] eqn:E.
    - exists [], g. split; reflexivity.
    - destruct (append_features_run (d :: ds) "None" "high" [] g)
        as (features & g1 & Hrun & Hids).
      exists features, g1. split; [exact Hrun | exact Hids]. }
  destruct Hdet as (features1 & g1 & -> & Hids1).
  rewrite run_bind.
  set (base := firstn 3 (dict_get business_features business [])).
  destruct (append_features_run base "Feature description not available"
              "medium" features1 g1) as (features2 & g2 & -> & Hids2).
  destruct (base_features_fresh business) as [Hbase Hfresh]. fold base in Hbase, Hfresh.
  assert (Hnd2 : NoDup (map feature features2)).
  { rewrite Hids2, Hids1. apply NoDup_app; [exact Hnd | exact Hbase |].
    intros id Hin. apply Hfresh, Hincl, Hin. }
  destruct (info_has (Some info) requested_features) eqn:Hreq.
  - rewrite run_bind, run_lift. cbn [info_item].
    destruct (requested_features info) as [requested |] eqn:R.
    + apply append_requested_run, Hnd2.
    + unfold info_has in Hreq. rewrite R in Hreq. cbn [is_some] in Hreq.
      rewrite andb_false_r in Hreq. discriminate.
  - exists features2, g2. split; [reflexivity | exact Hnd2].
Qed.

End Features.

(** ** What the analysis of a text holds *)

Section Analysis.

Import TextAnalyzer.

Lemma extract_features_from (text : string) (table : dict (list string)) :
  forall acc : list string,
    fold_left (fun detected '(category, keywords) =>
                 if any_keyword keywords text
                 then (detected ++ [category])%list
                 else detected)
              table acc
    = (acc ++ map fst (filter (fun row => any_keyword (snd row) text) table))%list.
Proof.
  induction table as [| [category keywords] table IH]; intros acc; simpl.
  - now rewrite app_nil_r.
  - rewrite IH. destruct (any_keyword keywords text); simpl.
    + now rewrite <- app_assoc.
    + reflexivity.
Qed.

Lemma extract_features_filter (text : string) :
  _extract_features text
  = map fst (filter (fun row => any_keyword (snd row) (PyStr.lower text))
                    feature_keywords).
Proof. unfold _extract_features. now rewrite extract_features_from. Qed.

Lemma NoDup_keys_filter {V : Type} (p : string * V -> bool) (d : dict V) :
  NoDup (map fst d) -> NoDup (map fst (filter p d)).
Proof.
  induction d as [| row d IH]; simpl; intros Hnd; [constructor|].
  inversion Hnd as [| ? ? Hnotin Hrest]. subst.
  destruct (p row); simpl; [|auto].
  constructor; [|auto].
  intros Hin. apply Hnotin. apply in_map_iff in Hin.
  destruct Hin as (r & E & Hr). apply filter_In in Hr.
  apply in_map_iff. exists r. tauto.
Qed.

(** The detected features are distinct category ids. *)
Lemma extract_features_categories (text : string) :
  NoDup (_extract_features text) /\
  incl (_extract_features text) feature_categories.
Proof.
  rewrite extract_features_filter. split.
  - apply NoDup_keys_filter.
    repeat constructor; simpl; intuition discriminate.
  - intros id Hin. apply in_map_iff in Hin. destruct Hin as (r & E & Hr).
    apply filter_In in Hr. unfold feature_categories, dict_keys.
    apply in_map_iff. exists r. tauto.
Qed.


(** The fields of a finished analysis that the engine decides on. *)
Lemma analyze_text_fields (nlp : string -> list string)
  (textblob_sentiment : string -> Q * Q) (text : string)
  (analysis : Analysis) :
  analyze_text nlp textblob_sentiment text = inr analysis ->
  clarity_score analysis = _calculate_clarity_score nlp text /\
  _classify_business_type text = inr (business_type analysis) /\
  _detect_platform_preference text = inr (platform_preference analysis) /\
  detected_features analysis = _extract_features text /\
  notification_requirement analysis = _detect_notification_requirement text.
Proof.
  unfold analyze_text. intros H.
  apply bind_inv in H. destruct H as (business & Hb & H).
  apply bind_inv in H. destruct H as (platform & Hp & H).
  apply bind_inv in H. destruct H as (budget & _ & H).
  injection H as <-. cbn. auto.
Qed.


End Analysis.

(** ** The engine's entry point *)

Section Engine.

Import RecommendationEngine.

Variable nlp : string -> list string.
Variable textblob_sentiment : string -> Q * Q.

(** C8: on the analysis of any text and any [additional_info], the feature
    recommender returns whenever a business type is given, and the feature
    ids of every list it returns are pairwise distinct. *)
Theorem recommended_feature_ids_distinct
  (text : string) (analysis : TextAnalyzer.Analysis)
  (additional_info : option AdditionalInfo) (g : rng) :
  TextAnalyzer.analyze_text nlp textblob_sentiment text = inr analysis ->
  (forall info business,
      additional_info = Some info -> business_type info = Some business ->
      exists features g',
        runStateT (_recommend_features analysis additional_info) g
        = inr (features, g')) /\
  (forall features g',
      runStateT (_recommend_features analysis additional_info) g
      = inr (features, g') ->
      NoDup (map feature features)).
Proof.
  intros Ha.
  destruct (analyze_text_fields _ _ _ _ Ha) as (_ & _ & _ & Hdet & _).
  destruct (extract_features_categories text) as [Hnd Hincl].
  rewrite <- Hdet in Hnd, Hincl. split.
  - intros info business -> Hb.
    destruct (recommend_features_run analysis info business g Hb Hnd Hincl)
      as (features & g' & Hrun & _).
    eauto.
  - intros features g' Hrun.
    destruct additional_info as [info |]; [|discriminate Hrun].
    destruct (business_type info) as [business |] eqn:Hb.
    + destruct (recommend_features_run analysis info business g Hb Hnd Hincl)
        as (features0 & g0 & Hrun0 & Hdistinct).
      rewrite Hrun0 in Hrun. injection Hrun as <- _. exact Hdistinct.
    + unfold _recommend_features in Hrun.
      rewrite run_bind, run_lift in Hrun. cbn [info_item] in Hrun.
      rewrite Hb in Hrun. discriminate Hrun.
Qed.

Lemma generate_recommendation_inv
  (client_input : string) (additional_info : option AdditionalInfo)
  (g g' : rng) (recommendation : Recommendation) :
  runStateT (generate_recommendation nlp textblob_sentiment client_input
                                     additional_info) g
  = inr (recommendation, g') ->
  exists analysis platform_rec features_rec tech_stack_rec cost timeline
         confidence,
    TextAnalyzer.analyze_text nlp textblob_sentiment client_input
    = inr analysis /\
    _recommend_platform analysis additional_info = inr platform_rec /\
    runStateT (_recommend_features analysis additional_info) g
    = inr (features_rec, g') /\
    _recommend_tech_stack platform_rec analysis additional_info
    = inr tech_stack_rec /\
    _estimate_cost platform_rec features_rec tech_stack_rec additional_info
    = inr cost /\
    _estimate_timeline platform_rec features_rec tech_stack_rec additional_info
    = inr timeline /\
    _calculate_confidence analysis platform_rec features_rec = inr confidence /\
    recommendation
    = mkRecommendation analysis
        (TextAnalyzer.needs_clarification analysis)
        (TextAnalyzer.generate_clarification_questions analysis)
        platform_rec features_rec tech_stack_rec cost timeline confidence.
Proof.
  unfold generate_recommendation. intros H.
  rewrite run_bind, run_lift in H.
  destruct (TextAnalyzer.analyze_text _ _ _) as [? | analysis] eqn:E1;
    [discriminate H|].
  rewrite run_bind, run_lift in H.
  destruct (_recommend_platform _ _) as [? | platform_rec] eqn:E2;
    [discriminate H|].
  rewrite run_bind in H.
  destruct (runStateT (_recommend_features _ _) g)
    as [? | [features_rec g1]] eqn:E3; [discriminate H|].
  rewrite run_bind, run_lift in H.
  destruct (_recommend_tech_stack _ _ _) as [? | tech_stack_rec] eqn:E4;
    [discriminate H|].
  rewrite run_bind, run_lift in H.
  destruct (_estimate_cost _ _ _ _) as [? | cost] eqn:E5; [discriminate H|].
  rewrite run_bind, run_lift in H.
  destruct (_estimate_timeline _ _ _ _) as [? | timeline] eqn:E6;
    [discriminate H|].
  rewrite run_bind, run_lift in H.
  destruct (_calculate_confidence _ _ _) as [? | confidence] eqn:E7;
    [discriminate H|].
  rewrite run_ret in H. injection H as <- <-.
  exists analysis, platform_rec, features_rec, tech_stack_rec, cost, timeline,
    confidence.
  repeat split; assumption.
Qed.

End Engine.

(** ** Budget and timeline constraints *)

Section Constraints.

Import RecommendationEngine.




End Constraints.

(** ** Concrete runs of the engine *)

Section ConcreteRuns.

Import RecommendationEngine.



Lemma recommended_feature_ids_distinct_witness :
  exists features g',
    runStateT
      (_recommend_features Samples.store_analysis
         (Some (mkInfo None (Some "retail") None None None
                       (Some ["inventory"; "chat"; "order_tracking"; "chat"])
                       None)))
      Samples.lowest
    = inr (features, g') /\
    NoDup (map feature features).
Proof.
  destruct (runStateT _ Samples.lowest) as [e | [features g']] eqn:Hrun.
  - vm_compute in Hrun. discriminate Hrun.
  - exists features, g'. split; [reflexivity|].
    apply (proj2 (recommended_feature_ids_distinct
                    Samples.nlp Samples.textblob_sentiment
                    "I need an online store to sell my products"
                    Samples.store_analysis _ Samples.lowest eq_refl)
                 features g' Hrun).
Defined.

End ConcreteRuns.

(** ** Missing configuration *)

Section MissingConfiguration.

Import RecommendationEngine.

Lemma recommend_platform_missing
  (analysis : TextAnalyzer.Analysis)
  (additional_info : option AdditionalInfo) :
  lacks_required additional_info ->
  _recommend_platform analysis additional_info
  = inl (missing_error additional_info).
Proof.
  unfold _recommend_platform, lacks_required, missing_error.
  destruct (TextAnalyzer.platform_preference analysis) as [pref pref_conf].
  destruct additional_info as [info |]; [|reflexivity].
  cbn [info_item].
  destruct (portability_requirement info); [|reflexivity].
  destruct (business_type info); [|reflexivity].
  destruct (access_requirement info); [|reflexivity].
  intros [H | [H | H]]; discriminate H.
Qed.




End MissingConfiguration.

(** ** Confidence of the keyword classifiers *)

Section KeywordConfidence.

Import TextAnalyzer.

Lemma keyword_hits_le (keywords : list string) (text : string) :
  (keyword_hits keywords text <= length keywords)%nat.
Proof. unfold keyword_hits. apply filter_length_le. Qed.

Lemma row_keywords_le_max (table : dict (list string))
  (row : string * list string) :
  In row table -> (length (snd row) <= max_keywords table)%nat.
Proof.
  intros Hin. unfold max_keywords.
  pose proof (proj1 (list_max_le _ _) (Nat.le_refl
    (list_max (map (fun keywords => length keywords) (dict_values table)))))
    as Hall.
  rewrite Forall_forall in Hall. apply Hall.
  unfold dict_values. rewrite map_map. apply in_map_iff. now exists row.
Qed.

Lemma Q_of_nat_le (a b : nat) : (a <= b)%nat -> Q_of_nat a <= Q_of_nat b.
Proof. intros H. unfold Q_of_nat. rewrite <- Zle_Qle. lia. Qed.

Lemma share_confidence (hits size : nat) :
  (hits <= size)%nat -> (0 < size)%nat ->
  0 <= pyround (Q_of_nat hits / Q_of_nat size) 2 <= 1.
Proof.
  intros Hle Hpos.
  assert (Hs : 0 < Q_of_nat size).
  { unfold Q_of_nat. change 0 with (inject_Z 0). rewrite <- Zlt_Qlt. lia. }
  pose proof (Q_of_nat_nonneg hits) as Hh.
  pose proof (Q_of_nat_le _ _ Hle) as Hhs.
  assert (H0 : 0 <= Q_of_nat hits / Q_of_nat size).
  { apply Qle_shift_div_l; [exact Hs | lra]. }
  assert (H1 : Q_of_nat hits / Q_of_nat size <= 1).
  { apply Qle_shift_div_r; [exact Hs | lra]. }
  assert (R0 : 0 <= pyround 0 2) by (unfold Qle; simpl; lia).
  assert (R1 : pyround 1 2 <= 1) by (unfold Qle; simpl; lia).
  split.
  - eapply Qle_trans; [exact R0 | apply pyround_mono, H0].
  - eapply Qle_trans; [apply pyround_mono, H1 | exact R1].
Qed.

(** What a keyword classifier computes over a table without repeated
    names, before the default is chosen. *)
Lemma keyword_table_best (table : dict (list string)) (text : string) :
  NoDup (dict_keys table) ->
  (Forall (fun row => row_hits text row = 0%nat) table /\
   any_score (keyword_scores table (PyStr.lower text)) = false) \/
  (Exists (fun row => row_hits text row <> 0%nat) table /\
   exists pre best post,
     table = (pre ++ best :: post)%list /\
     Forall (fun row => row_hits text row < row_hits text best)%nat pre /\
     Forall (fun row => row_hits text row <= row_hits text best)%nat post /\
     any_score (keyword_scores table (PyStr.lower text)) = true /\
     max_key (keyword_scores table (PyStr.lower text)) = inr (fst best) /\
     dict_item (keyword_scores table (PyStr.lower text)) (fst best)
     = inr (row_hits text best)).
Proof.
  intros Hnd.
  destruct (hits_dec table (PyStr.lower text)) as [H0 | H1].
  - left. split; [exact H0 | now apply no_row_hits].
  - right. split; [exact H1|].
    destruct (best_row _ _ Hnd H1)
      as (pre & best & post & E & Hpre & Hpost & A & R & I).
    exists pre, best, post. repeat split; assumption.
Qed.

Lemma Forall_Exists_hits (table : dict (list string)) (text : string) :
  Forall (fun row => row_hits text row = 0%nat) table ->
  Exists (fun row => row_hits text row <> 0%nat) table -> False.
Proof.
  intros H0 H1. apply Exists_exists in H1. destruct H1 as (row & Hin & Hrow).
  rewrite Forall_forall in H0. apply Hrow. now apply H0.
Qed.

(** X1: the platform detector answers the default ("web", 0.3) when no
    platform keyword occurs in the lower-cased text, and otherwise the first
    of mobile, web and desktop with the most keywords, with confidence its
    count over 6 rounded to 2 decimals; the platform is always one of the
    three and the confidence lies in [0, 1]. *)
Theorem detect_platform_preference_answer (text : string) :
  exists answer,
    _detect_platform_preference text = inr answer /\
    keyword_table_answer platform_indicators ("web", 0.3) text answer /\
    max_keywords platform_indicators = 6%nat /\
    In (fst answer) ["mobile"; "web"; "desktop"] /\
    0 <= snd answer <= 1.
Proof.
  unfold _detect_platform_preference, keyword_table_answer.
  destruct (keyword_table_best platform_indicators text
              platform_indicators_NoDup)
    as [[H0 A] | (H1 & pre & best & post & E & Hpre & Hpost & A & R & I)];
    rewrite A; cbn [negb].
  - eexists. split; [reflexivity|]. split; [|split; [reflexivity|]].
    + split; [reflexivity|]. intros H1. destruct (Forall_Exists_hits _ _ H0 H1).
    + split; [simpl; auto | split; unfold Qle; simpl; lia].
  - rewrite R, bind_inr, I, bind_inr.
    eexists. split; [reflexivity|]. split; [|split; [reflexivity|]].
    + split; [intros H0; destruct (Forall_Exists_hits _ _ H0 H1)|].
      intros _. exists pre, best, post. repeat split; auto.
    + assert (Hin : In best platform_indicators).
      { rewrite E. apply in_or_app. right. now left. }
      cbn [fst snd]. split.
      * change ["mobile"; "web"; "desktop"] with (dict_keys platform_indicators).
        unfold dict_keys. apply in_map_iff. now exists best.
      * apply share_confidence; [|cbn; lia].
        eapply Nat.le_trans; [apply keyword_hits_le|].
        now apply row_keywords_le_max.
Qed.

Lemma classify_business_type_range (text : string) (answer : string * Q) :
  _classify_business_type text = inr answer -> 0 <= snd answer <= 1.
Proof.
  unfold _classify_business_type.
  destruct (keyword_table_best business_keywords text business_keywords_NoDup)
    as [[H0 A] | (H1 & pre & best & post & E & Hpre & Hpost & A & R & I)];
    rewrite A; cbn [negb].
  - intros [= <-]. split; unfold Qle; simpl; lia.
  - rewrite R, bind_inr, I, bind_inr. intros [= <-]. cbn [snd].
    apply share_confidence; [|cbn; lia].
    eapply Nat.le_trans; [apply keyword_hits_le|].
    apply row_keywords_le_max. rewrite E. apply in_or_app. right. now left.
Qed.

End KeywordConfidence.

(** ** Business type and the first clarification question *)

Section BusinessQuestion.

Import TextAnalyzer.

Lemma business_question_asked (analysis : Analysis) :
  String.eqb (fst (business_type analysis)) "unknown"
  || Qltb (snd (business_type analysis)) 0.3 = true ->
  exists others,
    generate_clarification_questions analysis
    = "What type of business do you operate?" :: others.
Proof.
  unfold generate_clarification_questions.
  destruct (business_type analysis) as [category confidence]. cbn [fst snd].
  intros ->.
  destruct (length (detected_features analysis) =? 0)%nat;
    destruct (negb (budget_mentioned (budget_indicators analysis)));
    destruct (negb (timeline_mentioned (timeline_indicators analysis)));
    destruct (Qltb (clarity_score analysis) 0.4);
    eexists; reflexivity.
Qed.

Lemma business_question_skipped (analysis : Analysis) :
  String.eqb (fst (business_type analysis)) "unknown"
  || Qltb (snd (business_type analysis)) 0.3 = false ->
  ~ In "What type of business do you operate?"
       (generate_clarification_questions analysis).
Proof.
  unfold generate_clarification_questions.
  destruct (business_type analysis) as [category confidence]. cbn [fst snd].
  intros ->.
  destruct (length (detected_features analysis) =? 0)%nat;
    destruct (negb (budget_mentioned (budget_indicators analysis)));
    destruct (negb (timeline_mentioned (timeline_indicators analysis)));
    destruct (Qltb (clarity_score analysis) 0.4);
    simpl; intuition discriminate.
Qed.

Lemma low_share_below_threshold (hits : nat) :
  (hits < 3)%nat -> Qltb (pyround (Q_of_nat hits / Q_of_nat 8) 2) 0.3 = true.
Proof.
  intros H. destruct hits as [| [| [| hits]]]; try reflexivity. lia.
Qed.

Lemma high_share_above_threshold (hits : nat) :
  (3 <= hits)%nat -> Qltb (pyround (Q_of_nat hits / Q_of_nat 8) 2) 0.3 = false.
Proof.
  intros H.
  destruct (Qltb (pyround (Q_of_nat hits / Q_of_nat 8) 2) 0.3) eqn:E;
    [|reflexivity].
  apply Qltb_true in E.
  assert (Hm : pyround (Q_of_nat 3 / Q_of_nat 8) 2
               <= pyround (Q_of_nat hits / Q_of_nat 8) 2).
  { apply pyround_mono. apply Qmult_le_compat_r.
    - now apply Q_of_nat_le.
    - unfold Qle; simpl; lia. }
  assert (H38 : 0.38 <= pyround (Q_of_nat 3 / Q_of_nat 8) 2)
    by (unfold Qle; simpl; lia).
  lra.
Qed.

(** X2: the business type of an analysis and the first question: the
    confidence lies in [0, 1]; the type is "unknown" exactly when no
    business keyword occurs in the text; when every category has fewer than
    three of its keywords in the text, clarification is needed and the first
    question asks for the type of business; when some category has three or
    more, that question is not asked. *)
Theorem business_type_question
  (nlp : string -> list string) (textblob_sentiment : string -> Q * Q)
  (text : string) (analysis : Analysis) :
  analyze_text nlp textblob_sentiment text = inr analysis ->
  0 <= snd (business_type analysis) <= 1 /\
  (fst (business_type analysis) = "unknown" <->
   Forall (fun row => row_hits text row = 0%nat) business_keywords) /\
  (Forall (fun row => row_hits text row < 3)%nat business_keywords ->
   needs_clarification analysis = true /\
   exists others,
     generate_clarification_questions analysis
     = "What type of business do you operate?" :: others) /\
  (Exists (fun row => 3 <= row_hits text row)%nat business_keywords ->
   ~ In "What type of business do you operate?"
        (generate_clarification_questions analysis)).
Proof.
  intros Ha.
  destruct (analyze_text_fields _ _ _ _ Ha) as (_ & Hb & _).
  unfold _classify_business_type in Hb.
  destruct (keyword_table_best business_keywords text business_keywords_NoDup)
    as [[H0 A] | (H1 & pre & best & post & E & Hpre & Hpost & A & R & I)];
    rewrite A in Hb; cbn [negb] in Hb.
  - injection Hb as Hb. rewrite <- Hb. cbn [fst snd].
    split; [split; unfold Qle; simpl; lia|].
    split; [tauto|]. split.
    + intros _. split.
      * unfold needs_clarification. rewrite <- Hb.
        cbn. rewrite orb_true_r. reflexivity.
      * apply business_question_asked. rewrite <- Hb. reflexivity.
    + intros Hex. exfalso. apply Exists_exists in Hex.
      destruct Hex as (row & Hin & Hrow). rewrite Forall_forall in H0.
      specialize (H0 row Hin). lia.
  - rewrite R, bind_inr, I, bind_inr in Hb. injection Hb as Hb.
    assert (Hin : In best business_keywords).
    { rewrite E. apply in_or_app. right. now left. }
    assert (Hmax : forall row, In row business_keywords ->
                               (row_hits text row <= row_hits text best)%nat).
    { intros row Hrow. rewrite E in Hrow. apply in_app_or in Hrow.
      rewrite Forall_forall in Hpre, Hpost.
      destruct Hrow as [Hrow | [<- | Hrow]];
        [specialize (Hpre row Hrow) | | specialize (Hpost row Hrow)]; lia. }
    assert (Hknown : String.eqb (fst best) "unknown" = false).
    { apply String.eqb_neq. intros Hu.
      assert (Hk : In (fst best) (dict_keys business_keywords)).
      { unfold dict_keys. apply in_map_iff. now exists best. }
      rewrite Hu in Hk. simpl in Hk. intuition discriminate. }
    rewrite <- Hb. cbn [fst snd]. split; [|split; [|split]].
    + apply share_confidence; [|cbn; lia].
      eapply Nat.le_trans; [apply keyword_hits_le|].
      now apply row_keywords_le_max.
    + split.
      * intros Hu. apply String.eqb_neq in Hknown. contradiction.
      * intros H0. destruct (Forall_Exists_hits _ _ H0 H1).
    + intros Hlow. rewrite Forall_forall in Hlow. specialize (Hlow best Hin).
      pose proof (low_share_below_threshold _ Hlow) as Hq.
      split.
      * unfold needs_clarification. rewrite <- Hb.
        change (Q_of_nat (max_keywords business_keywords)) with (Q_of_nat 8).
        rewrite Hq, !orb_true_r. reflexivity.
      * apply business_question_asked. rewrite <- Hb. cbn [fst snd].
        change (Q_of_nat (max_keywords business_keywords)) with (Q_of_nat 8).
        rewrite Hq. apply orb_true_r.
    + intros Hex. apply Exists_exists in Hex.
      destruct Hex as (row & Hrow & Hthree).
      specialize (Hmax row Hrow).
      apply business_question_skipped. rewrite <- Hb. cbn [fst snd].
      rewrite Hknown.
      change (Q_of_nat (max_keywords business_keywords)) with (Q_of_nat 8).
      rewrite high_share_above_threshold; [reflexivity | lia].
Qed.

Lemma business_type_question_witness :
  TextAnalyzer.needs_clarification Samples.vague_analysis = true /\
  exists others,
    TextAnalyzer.generate_clarification_questions Samples.vague_analysis
    = "What type of business do you operate?" :: others.
Proof.
  destruct (business_type_question Samples.nlp Samples.textblob_sentiment
              "I need something to help manage my business"
              Samples.vague_analysis eq_refl) as (_ & _ & Hlow & _).
  apply Hlow. repeat constructor.
Defined.

End BusinessQuestion.

(** ** Detected features, clarity, urgency and portability *)

Section Signals.

Import TextAnalyzer.

Lemma any_keyword_mentions (keywords : list string) (text : string) :
  any_keyword keywords (PyStr.lower text) = true <-> mentions keywords text.
Proof.
  unfold any_keyword, mentions. rewrite existsb_exists. reflexivity.
Qed.

Lemma keyword_hits_mentions (keywords : list string) (text : string) :
  (0 < keyword_hits keywords (PyStr.lower text))%nat <-> mentions keywords text.
Proof. unfold keyword_hits, mentions. apply one_in_filter. Qed.

Lemma keyword_hits_mentions_two (keywords : list string) (text : string) :
  NoDup keywords ->
  (2 <= keyword_hits keywords (PyStr.lower text))%nat
  <-> mentions_two keywords text.
Proof. intros Hnd. unfold keyword_hits, mentions_two. now apply two_in_filter. Qed.

Lemma extract_features_In (text category : string) :
  In category (_extract_features text) <-> category_mentioned text category.
Proof.
  rewrite extract_features_filter. unfold category_mentioned.
  rewrite in_map_iff. split.
  - intros ([c keywords] & E & Hin). cbn [fst] in E. subst c.
    apply filter_In in Hin. destruct Hin as [Hin Hany]. cbn [snd] in Hany.
    apply existsb_exists in Hany. destruct Hany as (keyword & Hk & Hc).
    exists keywords, keyword. auto.
  - intros (keywords & keyword & Hin & Hk & Hc).
    exists (category, keywords). split; [reflexivity|].
    apply filter_In. split; [exact Hin|]. cbn [snd].
    apply existsb_exists. exists keyword. auto.
Qed.

(** X3: the detected features are exactly the feature categories with a
    keyword in the lower-cased text, each listed once. *)
Theorem extract_features_mentioned (text : string) :
  (forall category,
      In category (_extract_features text)
      <-> category_mentioned text category) /\
  NoDup (_extract_features text) /\
  (length (_extract_features text) <= 7)%nat.
Proof.
  split; [|split].
  - intros category. apply extract_features_In.
  - apply extract_features_categories.
  - rewrite extract_features_filter, length_map.
    eapply Nat.le_trans; [apply filter_length_le | cbn; lia].
Qed.

Lemma split_from_nil (text word : string) :
  PyStr.split_from word text = [] <->
  word = EmptyString /\ blank text.
Proof.
  unfold blank. revert word.
  induction text as [| c text IH]; intros word; cbn.
  - destruct word; split; try tauto; try discriminate.
    intros [H _]. discriminate H.
  - destruct (PyStr.is_space c); cbn.
    + destruct word.
      * apply IH.
      * split; [discriminate | intros [H _]; discriminate H].
    + rewrite IH. split; [|intros [_ H]; discriminate H].
      intros [H _]. destruct word; discriminate H.
Qed.

Lemma clarity_score_cases (nlp : string -> list string) (text : string) :
  0 <= _calculate_clarity_score nlp text <= 1 /\
  (blank text -> _calculate_clarity_score nlp text == 0) /\
  (~ blank text -> 0.2 <= _calculate_clarity_score nlp text).
Proof.
  unfold _calculate_clarity_score.
  set (total_indicators := (_ + _ + _)%nat).
  destruct (PyStr.split text) as [| word words] eqn:Es.
  - cbn [length Nat.eqb]. split; [split; unfold Qle; simpl; lia|].
    split; [reflexivity|].
    intros Hnb. exfalso. apply Hnb. now apply (split_from_nil text EmptyString).
  - cbn [length Nat.eqb].
    set (text_length := S (length words)).
    set (raw := Q_of_nat total_indicators / Q_of_nat text_length * 10 + 0.2).
    assert (Hraw : 0.2 <= raw).
    { unfold raw.
      assert (0 <= Q_of_nat total_indicators / Q_of_nat text_length).
      { apply Qle_shift_div_l.
        - unfold Q_of_nat, text_length. change 0 with (inject_Z 0).
          rewrite <- Zlt_Qlt. lia.
        - pose proof (Q_of_nat_nonneg total_indicators). lra. }
      lra. }
    assert (Hlow : 0.2 <= pymin 1.0 raw) by (apply pymin_glb; lra).
    pose proof (pymin_le_l 1.0 raw) as Hhigh.
    assert (R0 : 0.2 <= pyround 0.2 2) by (unfold Qle; simpl; lia).
    assert (R1 : pyround 1.0 2 <= 1) by (unfold Qle; simpl; lia).
    assert (Hc : 0.2 <= pyround (pymin 1.0 raw) 2).
    { eapply Qle_trans; [exact R0 | apply pyround_mono, Hlow]. }
    split; [split|split].
    + lra.
    + eapply Qle_trans; [apply pyround_mono, Hhigh | exact R1].
    + intros Hb.
      assert (Hnil : PyStr.split text = []).
      { apply split_from_nil. split; [reflexivity | exact Hb]. }
      rewrite Hnil in Es. discriminate Es.
    + intros _. exact Hc.
Qed.

(** X4: for every tokenizer, the clarity score lies in [0, 1]; it is 0 for a
    text that is empty or all whitespace, and at least 0.2 for any other
    text. *)
Theorem calculate_clarity_score_bounds
  (nlp : string -> list string) (text : string) :
  0 <= _calculate_clarity_score nlp text <= 1 /\
  (blank text -> _calculate_clarity_score nlp text == 0) /\
  (~ blank text -> 0.2 <= _calculate_clarity_score nlp text).
Proof. exact (clarity_score_cases nlp text). Qed.

Lemma calculate_clarity_score_bounds_witness :
  _calculate_clarity_score Samples.nlp "   " == 0 /\
  0.2 <= _calculate_clarity_score Samples.nlp "shop".
Proof.
  destruct (calculate_clarity_score_bounds Samples.nlp "   ") as (_ & H0 & _).
  destruct (calculate_clarity_score_bounds Samples.nlp "shop") as (_ & _ & H1).
  split; [apply H0; reflexivity | apply H1; discriminate].
Defined.

Lemma urgency_keywords_NoDup : NoDup urgency_keywords.
Proof.
  unfold urgency_keywords.
  repeat (constructor; [simpl; intuition discriminate|]). constructor.
Qed.

(** X5: the urgency of a text is "high" exactly when two distinct urgency
    keywords occur in the lower-cased text, "low" exactly when none occurs,
    and "medium" in the remaining case of a single one. *)
Theorem detect_urgency_levels (text : string) :
  (_detect_urgency text = "high" <-> mentions_two urgency_keywords text) /\
  (_detect_urgency text = "low" <-> ~ mentions urgency_keywords text) /\
  (_detect_urgency text = "medium" <->
   mentions urgency_keywords text /\ ~ mentions_two urgency_keywords text).
Proof.
  unfold _detect_urgency. fold urgency_keywords.
  pose proof (keyword_hits_mentions urgency_keywords text) as H1.
  pose proof (keyword_hits_mentions_two urgency_keywords text
                urgency_keywords_NoDup) as H2.
  set (urgency_count := keyword_hits urgency_keywords (PyStr.lower text)) in *.
  destruct (Nat.leb_spec 2 urgency_count) as [Hge | Hlt].
  - assert (Ht : mentions_two urgency_keywords text) by tauto.
    assert (Ho : mentions urgency_keywords text) by (apply H1; lia).
    repeat split; intros; try discriminate; try reflexivity; tauto.
  - assert (Ht : ~ mentions_two urgency_keywords text).
    { intros H. apply H2 in H. lia. }
    destruct (Nat.eqb_spec urgency_count 1) as [E | N].
    + assert (Ho : mentions urgency_keywords text) by (apply H1; lia).
      repeat split; intros; try discriminate; try reflexivity; tauto.
    + assert (Ho : ~ mentions urgency_keywords text).
      { intros H. apply H1 in H. lia. }
      repeat split; intros; try discriminate; try reflexivity; tauto.
Qed.

(** X6: the portability detected in a text is "high" exactly when a
    high-tier keyword occurs in the lower-cased text, and "low" exactly when
    a low-tier keyword occurs and no high-tier or medium-tier one does; in
    every other case, also when no keyword occurs at all, it is "medium". *)
Theorem detect_portability_requirement_tiers (text : string) :
  let high := mentions high_portability_keywords text in
  let medium := mentions medium_portability_keywords text in
  let low := mentions low_portability_keywords text in
  (_detect_portability_requirement text = "high" <-> high) /\
  (_detect_portability_requirement text = "low"
   <-> ~ high /\ ~ medium /\ low) /\
  (_detect_portability_requirement text = "medium"
   <-> ~ high /\ (medium \/ ~ low)).
Proof.
  unfold _detect_portability_requirement.
  fold high_portability_keywords medium_portability_keywords
       low_portability_keywords.
  pose proof (keyword_hits_mentions high_portability_keywords text) as Hh.
  pose proof (keyword_hits_mentions medium_portability_keywords text) as Hm.
  pose proof (keyword_hits_mentions low_portability_keywords text) as Hl.
  cbv zeta.
  destruct (Nat.ltb_spec 0 (keyword_hits high_portability_keywords
                                         (PyStr.lower text))) as [H1 | H1].
  { assert (mentions high_portability_keywords text) by tauto.
    repeat split; intros; try discriminate; try reflexivity; tauto. }
  assert (~ mentions high_portability_keywords text).
  { intros H. apply Hh in H. lia. }
  destruct (Nat.ltb_spec 0 (keyword_hits medium_portability_keywords
                                         (PyStr.lower text))) as [H2 | H2].
  { assert (mentions medium_portability_keywords text) by tauto.
    repeat split; intros; try discriminate; try reflexivity; tauto. }
  assert (~ mentions medium_portability_keywords text).
  { intros H'. apply Hm in H'. lia. }
  destruct (Nat.ltb_spec 0 (keyword_hits low_portability_keywords
                                         (PyStr.lower text))) as [H3 | H3].
  { assert (mentions low_portability_keywords text) by tauto.
    repeat split; intros; try discriminate; try reflexivity; tauto. }
  assert (~ mentions low_portability_keywords text).
  { intros H'. apply Hl in H'. lia. }
  repeat split; intros; try discriminate; try reflexivity; tauto.
Qed.

End Signals.

(** ** Amounts found in a text *)

Section Amounts.

Import TextAnalyzer.

Lemma chars_app (a b : string) :
  list_ascii_of_string (a ++ b)
  = (list_ascii_of_string a ++ list_ascii_of_string b)%list.
Proof. induction a as [| c a IH]; cbn; [reflexivity | now rewrite IH]. Qed.

Lemma take_digits_digits (s : string) :
  forallb PyStr.is_digit (list_ascii_of_string (PyStr.take_digits s)) = true.
Proof.
  induction s as [| c s IH]; cbn; [reflexivity|].
  destruct (PyStr.is_digit c) eqn:E; cbn; [now rewrite E | reflexivity].
Qed.

Lemma take_digits_incl (s : string) :
  incl (list_ascii_of_string (PyStr.take_digits s)) (list_ascii_of_string s).
Proof.
  induction s as [| c s IH]; cbn; [apply incl_refl|].
  destruct (PyStr.is_digit c); cbn.
  - intros x [<- | H]; [now left | right; now apply IH].
  - intros x [].
Qed.

Lemma drop_incl (n : nat) (s : string) : incl (list_ascii_of_string (PyStr.drop n s)) (list_ascii_of_string s).
Proof.
  revert s. induction n as [| n IH]; intros [| c s]; cbn;
    try apply incl_refl.
  intros x H. right. now apply IH.
Qed.

Lemma take_groups_chars (s : string) :
  forallb amount_char (list_ascii_of_string (PyStr.take_groups s)) = true /\
  forallb (fun c => negb (Ascii.eqb c ".")) (list_ascii_of_string (PyStr.take_groups s)) = true.
Proof.
  assert (Hd : forall c, PyStr.is_digit c = true ->
                         amount_char c = true /\ Ascii.eqb c "." = false).
  { intros c H. unfold amount_char. rewrite H. split; [reflexivity|].
    destruct (Ascii.eqb_spec c "."); [subst; discriminate H | reflexivity]. }
  remember (String.length s) as n eqn:Hn.
  revert s Hn. induction n as [n IH] using lt_wf_ind. intros s Hn.
  destruct s as [| c0 [| a [| b [| c s']]]]; try (split; reflexivity).
  - destruct c0 as [[] [] [] [] [] [] [] []]; split; reflexivity.
  - destruct c0 as [[] [] [] [] [] [] [] []]; split; reflexivity.
  - destruct c0 as [[] [] [] [] [] [] [] []]; split; reflexivity.
  - assert (Hrec : forallb amount_char (list_ascii_of_string (PyStr.take_groups s')) = true /\
                   forallb (fun c => negb (Ascii.eqb c "."))
                           (list_ascii_of_string (PyStr.take_groups s')) = true).
    { apply (IH (String.length s')); [subst n; cbn; lia | reflexivity]. }
    destruct (Ascii.eqb_spec c0 ",") as [-> | Hne].
    + cbn [PyStr.take_groups].
      destruct (PyStr.is_digit a) eqn:Ea; [|split; reflexivity].
      destruct (PyStr.is_digit b) eqn:Eb; [|split; reflexivity].
      destruct (PyStr.is_digit c) eqn:Ec; [|split; reflexivity].
      cbn [andb list_ascii_of_string forallb].
      destruct (Hd a Ea) as [-> ->]. destruct (Hd b Eb) as [-> ->].
      destruct (Hd c Ec) as [-> ->]. destruct Hrec as [-> ->].
      split; reflexivity.
    + destruct c0 as [[] [] [] [] [] [] [] []];
        try (split; reflexivity); congruence.
Qed.

Lemma take_cents_cases (s : string) :
  PyStr.take_cents s = EmptyString \/
  (exists a b rest,
      s = String "." (String a (String b rest)) /\
      PyStr.is_digit a = true /\ PyStr.is_digit b = true /\
      PyStr.take_cents s = String "." (String a (String b EmptyString))).
Proof.
  destruct s as [| c0 [| a [| b rest]]]; try (left; reflexivity).
  - left. destruct c0 as [[] [] [] [] [] [] [] []]; reflexivity.
  - left. destruct c0 as [[] [] [] [] [] [] [] []]; reflexivity.
  - destruct (Ascii.eqb_spec c0 ".") as [-> | Hne].
    + cbn [PyStr.take_cents].
      destruct (PyStr.is_digit a) eqn:Ea; [|left; reflexivity].
      destruct (PyStr.is_digit b) eqn:Eb; [|left; reflexivity].
      right. exists a, b, rest. cbn. auto.
    + left. destruct c0 as [[] [] [] [] [] [] [] []];
        try reflexivity; congruence.
Qed.

Lemma has_char_In (c : ascii) (s : string) :
  has_char c s = true <-> In c (list_ascii_of_string s).
Proof.
  unfold has_char. rewrite existsb_exists. split.
  - intros (x & Hin & E). apply Ascii.eqb_eq in E. now subst.
  - intros Hin. exists c. split; [exact Hin | apply Ascii.eqb_refl].
Qed.

Lemma digit_not_dot (c : ascii) :
  PyStr.is_digit c = true -> c <> "."%char /\ c <> ","%char.
Proof. intros H. split; intros ->; discriminate H. Qed.

(** The number matched in [body] once the optional dollar is passed. *)
Lemma amount_body_shape (body : string) :
  let ds := PyStr.take_digits body in
  let r1 := PyStr.drop (String.length ds) body in
  let gs := PyStr.take_groups r1 in
  let r2 := PyStr.drop (String.length gs) r1 in
  let cs := PyStr.take_cents r2 in
  ds <> EmptyString ->
  amount_shape (ds ++ gs ++ cs) /\
  (has_char "." (ds ++ gs ++ cs) = true -> has_char "." body = true).
Proof.
  intros ds r1 gs r2 cs Hne.
  pose proof (take_digits_digits body) as Hds. fold ds in Hds.
  destruct (take_groups_chars r1) as [Hgs Hgs']. fold gs in Hgs, Hgs'.
  assert (Hcs : forallb amount_char (list_ascii_of_string cs) = true).
  { destruct (take_cents_cases r2) as [E | (a & b & rest & _ & Ea & Eb & E)];
      fold cs in E; rewrite E; [reflexivity|].
    cbn. unfold amount_char. rewrite Ea, Eb. reflexivity. }
  split; [split|].
  - destruct ds as [| d ds']; [congruence|].
    exists d, (ds' ++ gs ++ cs). split; [reflexivity|].
    cbn in Hds. apply andb_true_iff in Hds. tauto.
  - rewrite !chars_app, !forallb_app, Hgs, Hcs, !andb_true_r.
    rewrite forallb_forall in Hds. apply forallb_forall.
    intros c Hc. unfold amount_char. rewrite (Hds c Hc). reflexivity.
  - rewrite !has_char_In, !chars_app. intros Hin.
    apply in_app_or in Hin. destruct Hin as [Hin | Hin].
    { rewrite forallb_forall in Hds. apply Hds in Hin.
      apply digit_not_dot in Hin. tauto. }
    apply in_app_or in Hin. destruct Hin as [Hin | Hin].
    { rewrite forallb_forall in Hgs'. apply Hgs' in Hin.
      rewrite Ascii.eqb_refl in Hin. discriminate Hin. }
    destruct (take_cents_cases r2) as [E | (a & b & rest & Er & _ & _ & _)].
    { fold cs in E. rewrite E in Hin. destruct Hin. }
    apply (drop_incl (String.length ds) body).
    apply (drop_incl (String.length gs) r1). fold r1 r2.
    rewrite Er. now left.
Qed.

Lemma amount_at_shape (s amount : string) (n : nat) :
  PyStr.amount_at s = Some (amount, n) ->
  amount_shape amount /\
  (has_char "." amount = true -> has_char "." s = true).
Proof.
  assert (Hbody : forall dollar body,
             incl (list_ascii_of_string body) (list_ascii_of_string s) ->
             match PyStr.take_digits body with
             | EmptyString => None
             | ds =>
                 let r1 := PyStr.drop (String.length ds) body in
                 let gs := PyStr.take_groups r1 in
                 let r2 := PyStr.drop (String.length gs) r1 in
                 let cs := PyStr.take_cents r2 in
                 Some (ds ++ gs ++ cs,
                       (dollar + String.length ds + String.length gs
                        + String.length cs)%nat)
             end = Some (amount, n) ->
             amount_shape amount /\
             (has_char "." amount = true -> has_char "." s = true)).
  { intros dollar body Hincl H.
    pose proof (amount_body_shape body) as Hshape. cbv zeta in Hshape.
    destruct (PyStr.take_digits body) as [| d ds'] eqn:Ed; [discriminate H|].
    cbv zeta in H. injection H as <- _.
    destruct Hshape as [Hs Hdot]; [discriminate|].
    split; [exact Hs|]. intros Hd. apply Hdot in Hd.
    apply has_char_In. apply Hincl. now apply has_char_In. }
  unfold PyStr.amount_at.
  destruct s as [| c0 s0].
  - cbn. discriminate.
  - destruct (Ascii.eqb_spec c0 "$") as [-> | Hne].
    + destruct s0 as [| d t].
      * apply (Hbody 0%nat). apply incl_refl.
      * destruct (PyStr.is_digit d).
        -- apply (Hbody 1%nat). intros x Hx. now right.
        -- apply (Hbody 0%nat). apply incl_refl.
    + assert (E : match c0 with
                  | "$"%char =>
                      match s0 with
                      | EmptyString => (0%nat, String c0 s0)
                      | String d t =>
                          if PyStr.is_digit d then (1%nat, String d t)
                          else (0%nat, String c0 s0)
                      end
                  | _ => (0%nat, String c0 s0)
                  end = (0%nat, String c0 s0)).
      { destruct c0 as [[] [] [] [] [] [] [] []]; try reflexivity; congruence. }
      rewrite E. apply (Hbody 0%nat). apply incl_refl.
Qed.

Lemma findall_amounts_shape (s : string) :
  forall (skip : nat) (amount : string),
    In amount (PyStr.findall_amounts_from skip s) ->
    amount_shape amount /\
    (has_char "." amount = true -> has_char "." s = true).
Proof.
  induction s as [| c s IH]; intros skip amount Hin; [destruct Hin|].
  assert (Htail : forall k,
             In amount (PyStr.findall_amounts_from k s) ->
             amount_shape amount /\
             (has_char "." amount = true -> has_char "." (String c s) = true)).
  { intros k Hk. destruct (IH k amount Hk) as [Hs Hd].
    split; [exact Hs|]. intros H. apply Hd in H.
    apply has_char_In. right. now apply has_char_In. }
  cbn [PyStr.findall_amounts_from] in Hin.
  destruct skip as [| k]; [|now apply (Htail k)].
  destruct (PyStr.amount_at (String c s)) as [[g n] |] eqn:Ea.
  - destruct Hin as [<- | Hin]; [now apply (amount_at_shape _ _ n)|].
    now apply (Htail (n - 1)%nat).
  - now apply (Htail 0%nat).
Qed.

Lemma digits_value_digits (s : string) :
  forall acc : Z,
    forallb PyStr.is_digit (list_ascii_of_string s) = true ->
    exists z, PyStr.digits_value acc s = Some z.
Proof.
  induction s as [| c s IH]; intros acc H; cbn in *; [eauto|].
  apply andb_true_iff in H. destruct H as [Hc Hs]. rewrite Hc. now apply IH.
Qed.

Lemma digits_value_dot (s : string) :
  forall acc : Z, has_char "." s = true -> PyStr.digits_value acc s = None.
Proof.
  induction s as [| c s IH]; intros acc H; [discriminate H|].
  cbn [PyStr.digits_value].
  destruct (PyStr.is_digit c) eqn:Ec; [|reflexivity].
  apply IH. apply has_char_In in H. destruct H as [-> | H].
  - discriminate Ec.
  - now apply has_char_In.
Qed.

Lemma remove_commas_dot (s : string) :
  has_char "." s = true -> has_char "." (PyStr.remove_commas s) = true.
Proof.
  rewrite !has_char_In.
  induction s as [| c s IH]; cbn [list_ascii_of_string In]; [tauto|].
  intros [-> | H].
  - cbn. now left.
  - cbn [PyStr.remove_commas].
    destruct (Ascii.eqb c ","); [now apply IH | right; now apply IH].
Qed.

Lemma remove_commas_digits (s : string) :
  forallb amount_char (list_ascii_of_string s) = true ->
  has_char "." s = false ->
  forallb PyStr.is_digit (list_ascii_of_string (PyStr.remove_commas s)) = true.
Proof.
  unfold has_char.
  induction s as [| c s IH]; cbn; [reflexivity|].
  intros Ha Hd. apply andb_true_iff in Ha. destruct Ha as [Hc Hs].
  apply orb_false_iff in Hd. destruct Hd as [Hcd Hsd].
  destruct (Ascii.eqb_spec c ",") as [-> | Hne]; [now apply IH|].
  cbn. rewrite (IH Hs Hsd), andb_true_r.
  unfold amount_char in Hc.
  destruct (PyStr.is_digit c); [reflexivity|].
  destruct (Ascii.eqb_spec c ","); [contradiction|].
  destruct (Ascii.eqb_spec c ".") as [-> | _]; [|discriminate Hc].
  discriminate Hcd.
Qed.

(** [int] accepts a matched number exactly when it carries no cents. *)
Lemma int_of_amount (amount : string) :
  amount_shape amount ->
  if has_cents amount
  then PyStr.int_of_string (PyStr.remove_commas amount)
       = inl (ValueError "invalid literal for int()")
  else exists z, PyStr.int_of_string (PyStr.remove_commas amount) = inr z.
Proof.
  intros [(d & rest & -> & Hd) Hchars]. unfold has_cents.
  destruct (has_char "." (String d rest)) eqn:Hdot.
  - apply remove_commas_dot in Hdot. unfold PyStr.int_of_string.
    destruct (PyStr.remove_commas (String d rest)); [reflexivity|].
    now rewrite digits_value_dot.
  - pose proof (remove_commas_digits _ Hchars Hdot) as Hdigits.
    cbn [PyStr.remove_commas] in *.
    destruct (Ascii.eqb_spec d ",") as [-> | _]; [discriminate Hd|].
    unfold PyStr.int_of_string.
    destruct (digits_value_digits _ 0%Z Hdigits) as [z ->]. eauto.
Qed.

Lemma amounts_over_100_result (numbers : list string) :
  Forall amount_shape numbers ->
  if existsb has_cents numbers
  then amounts_over_100 numbers = inl (ValueError "invalid literal for int()")
  else exists amounts,
      amounts_over_100 numbers = inr amounts /\
      Forall (fun v => 100 < v)%Z amounts /\
      (length amounts <= length numbers)%nat.
Proof.
  induction 1 as [| num numbers Hshape _ IH]; cbn [existsb amounts_over_100].
  - exists []. split; [reflexivity|]. split; [constructor | cbn; lia].
  - pose proof (int_of_amount num Hshape) as Hint.
    destruct (has_cents num); cbn [orb].
    + rewrite Hint. reflexivity.
    + destruct Hint as [v ->]. rewrite bind_inr.
      destruct (existsb has_cents numbers).
      * rewrite IH. reflexivity.
      * destruct IH as (amounts & -> & Hall & Hlen). rewrite bind_inr.
        eexists. split; [reflexivity|].
        destruct (Z.ltb_spec 100 v); cbn [length]; split; auto.
        lia.
Qed.

Lemma findall_amounts_shapes (text : string) :
  Forall amount_shape (PyStr.findall_amounts text).
Proof.
  apply Forall_forall. intros amount Hin.
  now apply (findall_amounts_shape text 0 amount).
Qed.


Lemma budget_indicators_cases (text : string) :
  if existsb has_cents (PyStr.findall_amounts text)
  then _extract_budget_indicators text
       = inl (ValueError "invalid literal for int()")
  else exists indicators,
      _extract_budget_indicators text = inr indicators /\
      Forall (fun v => 100 < v)%Z (budget_amounts indicators) /\
      (length (budget_amounts indicators)
       <= length (PyStr.findall_amounts text))%nat /\
      (has_budget_info indicators = true <-> budget_amounts indicators <> []) /\
      (budget_mentioned indicators = true <-> mentions budget_keywords text).
Proof.
  unfold _extract_budget_indicators. fold budget_keywords.
  pose proof (amounts_over_100_result _ (findall_amounts_shapes text)) as H.
  destruct (existsb has_cents (PyStr.findall_amounts text)).
  - rewrite H. reflexivity.
  - destruct H as (amounts & -> & Hall & Hlen). rewrite bind_inr.
    eexists. split; [reflexivity|].
    cbn [budget_amounts has_budget_info budget_mentioned].
    split; [exact Hall|]. split; [exact Hlen|]. split.
    + destruct amounts; cbn; split; congruence.
    + apply any_keyword_mentions.
Qed.




End Amounts.

(** ** The records the engine builds *)

Section EngineSteps.

Import RecommendationEngine.

Lemma info_has_field {A : Type} (info : AdditionalInfo)
  (field : AdditionalInfo -> option A) :
  info_truthy info = true \/ field info = None ->
  info_has (Some info) field = is_some (field info).
Proof.
  unfold info_has. intros [-> | ->]; [reflexivity|].
  cbn [is_some]. apply andb_false_r.
Qed.

Lemma info_truthy_business (info : AdditionalInfo) (business : string) :
  business_type info = Some business -> info_truthy info = true.
Proof.
  intros H. unfold info_truthy. rewrite H. cbn [is_some].
  rewrite orb_true_r. reflexivity.
Qed.

Lemma recommend_platform_record
  (analysis : TextAnalyzer.Analysis) (info : AdditionalInfo)
  (portability business access : string) :
  portability_requirement info = Some portability ->
  business_type info = Some business ->
  access_requirement info = Some access ->
  exists platform confidence reasoning,
    _recommend_platform analysis (Some info)
    = inr (platform_record business platform confidence reasoning) /\
    In platform
       ["mobile"; "desktop"; fst (TextAnalyzer.platform_preference analysis)] /\
    (confidence = 0.95 \/ confidence = 0.9).
Proof.
  intros Hp Hb Ha. unfold _recommend_platform.
  destruct (TextAnalyzer.platform_preference analysis) as [pref pref_conf].
  cbn [info_item fst]. rewrite Hp, Hb, Ha, !bind_inr.
  destruct (_ || _); [|destruct (_ || _)];
    eexists _, _, _; (split; [reflexivity|]); simpl; auto.
Qed.

(** The stack the selector settles on, for a platform with stacks. *)
Lemma recommend_tech_stack_record
  (platform_rec : dict pyval) (analysis : TextAnalyzer.Analysis)
  (info : AdditionalInfo) (platform business : string) (confidence : pyval) :
  dict_find platform_rec "platform" = Some (VStr platform) ->
  dict_find platform_rec "confidence" = Some confidence ->
  In platform ["mobile"; "web"; "desktop"] ->
  business_type info = Some business ->
  exists stack_id stack,
    _recommend_tech_stack platform_rec analysis (Some info)
    = inr (stack_record stack_id stack confidence) /\
    In stack (dict_values (registered_stacks platform)) /\
    (forall preference,
        tech_stack_preference info = Some preference ->
        stack_id = preference) /\
    ((tech_stack_preference info = None \/
      dict_find (registered_stacks platform) stack_id <> None) ->
     dict_find (registered_stacks platform) stack_id = Some stack).
Proof.
  intros Hplatform Hconf Hin Hbusiness.
  pose proof (info_truthy_business _ _ Hbusiness) as Htruthy.
  unfold _recommend_tech_stack, dict_item.
  rewrite Hplatform, Hconf, bind_inr.
  cbn [info_item]. rewrite Hbusiness, bind_inr.
  cbn [table_get]. rewrite bind_inr.
  fold (registered_stacks platform).
  rewrite (info_has_field info tech_stack_preference (or_introl Htruthy)).
  destruct (registered_stacks platform) as [| [first_id first] others] eqn:E.
  { exfalso. destruct Hin as [<- | [<- | [<- | []]]]; discriminate E. }
  cbn [dict_find]. rewrite String.eqb_refl.
  destruct (tech_stack_preference info) as [preference |] eqn:Hpref;
    cbn [is_some].
  - rewrite !bind_inr. unfold dict_get.
    destruct (dict_find ((first_id, first) :: others) preference)
      as [stack |] eqn:Hfind.
    + exists preference, stack. split; [reflexivity|].
      split; [|split; [intros ? [= <-]; reflexivity | intros _; exact Hfind]].
      apply dict_find_values in Hfind. exact Hfind.
    + exists preference, first. split; [reflexivity|].
      split; [now left|].
      split; [intros ? [= <-]; reflexivity|].
      intros [H | H]; [discriminate H | contradiction].
  - rewrite bind_ret, !bind_inr.
    destruct Hin as [<- | [<- | [<- | []]]]; injection E as <- <- <-;
      cbn [is_str String.eqb Ascii.eqb Bool.eqb];
      repeat match goal with
             | |- context [if str_in business ?l then _ else _] =>
                 destruct (str_in business l)
             end;
      eexists _, _; (split; [reflexivity|]);
      (split; [simpl; tauto|]);
      (split; [intros ? [=]|]); intros _; reflexivity.
Qed.

Lemma info_has_budget (info : AdditionalInfo) :
  info_has (Some info) budget_constraint = is_some (budget_constraint info).
Proof.
  apply info_has_field. unfold info_truthy.
  destruct (budget_constraint info); [left | right; reflexivity].
  cbn [is_some]. rewrite !orb_true_r. reflexivity.
Qed.

Lemma info_has_timeline (info : AdditionalInfo) :
  info_has (Some info) timeline_constraint
  = is_some (timeline_constraint info).
Proof.
  apply info_has_field. unfold info_truthy.
  destruct (timeline_constraint info); [left | right; reflexivity].
  cbn [is_some]. rewrite !orb_true_r. reflexivity.
Qed.

Lemma estimate_cost_record
  (business platform reasoning stack_id : string) (confidence : Q)
  (stack : StackInfo) (stack_confidence : pyval)
  (features_rec : list FeatureRec) (info : AdditionalInfo) :
  _estimate_cost (platform_record business platform confidence reasoning)
                 features_rec (stack_record stack_id stack stack_confidence)
                 (Some info)
  = inr (cost_of platform features_rec stack info).
Proof.
  unfold _estimate_cost, platform_record, stack_record, cost_of.
  cbn [dict_item dict_get dict_find String.eqb Ascii.eqb Bool.eqb].
  rewrite bind_inr. cbn [table_get]. rewrite bind_inr.
  cbn [unpack_pair]. rewrite bind_inr. cbn [table_get]. rewrite bind_inr.
  cbn [as_number]. rewrite bind_inr.
  rewrite info_has_budget. cbn [info_item].
  change (dict_get business_multipliers "retail" 1.0) with 1.0.
  destruct (budget_constraint info) as [budget |]; cbn [is_some capped].
  - rewrite bind_inr, bind_ret. reflexivity.
  - rewrite bind_ret. reflexivity.
Qed.

Lemma estimate_timeline_record
  (business platform reasoning stack_id : string) (confidence : Q)
  (stack : StackInfo) (stack_confidence : pyval)
  (features_rec : list FeatureRec) (info : AdditionalInfo) :
  _estimate_timeline (platform_record business platform confidence reasoning)
                     features_rec
                     (stack_record stack_id stack stack_confidence)
                     (Some info)
  = inr (timeline_of platform features_rec stack info).
Proof.
  unfold _estimate_timeline, platform_record, stack_record, timeline_of.
  cbn [dict_item dict_get dict_find String.eqb Ascii.eqb Bool.eqb].
  rewrite bind_inr. cbn [table_get]. rewrite bind_inr.
  cbn [as_number]. rewrite bind_inr.
  rewrite info_has_timeline. cbn [info_item].
  destruct (timeline_constraint info) as [limit |]; cbn [is_some capped].
  - rewrite bind_inr, bind_ret. reflexivity.
  - rewrite bind_ret. reflexivity.
Qed.

Lemma calculate_confidence_record
  (analysis : TextAnalyzer.Analysis)
  (business platform reasoning : string) (confidence : Q)
  (features_rec : list FeatureRec) :
  _calculate_confidence analysis
    (platform_record business platform confidence reasoning) features_rec
  = inr (confidence_of analysis confidence (length features_rec)).
Proof.
  unfold _calculate_confidence, platform_record, confidence_of.
  destruct (TextAnalyzer.business_type analysis) as [category c].
  cbn [dict_item dict_find String.eqb Ascii.eqb Bool.eqb].
  rewrite bind_inr. cbn [as_number]. rewrite bind_inr. reflexivity.
Qed.

End EngineSteps.

(** ** The structure of the feature list *)

Section FeatureList.

Import RecommendationEngine.

Lemma new_feature_outline (id description_default level : string) (g : rng) :
  exists feature_rec g',
    runStateT (new_feature id description_default level) g
    = inr (feature_rec, g') /\
    outline feature_rec
    = (id, dict_get feature_descriptions id description_default, level) /\
    in_range feature_rec.
Proof.
  destruct (new_feature_run id description_default level g)
    as (feature_rec & g' & Hrun & Hid & Hlevel & Heffort & Hcost).
  exists feature_rec, g'. split; [exact Hrun|]. split; [|split; assumption].
  unfold new_feature in Hrun. cbn in Hrun. injection Hrun as <- _. reflexivity.
Qed.

Lemma append_features_structure (ids : list string)
  (description_default level : string) :
  forall (acc : list FeatureRec) (g : rng),
  exists added g',
    runStateT (append_features ids description_default level acc) g
    = inr ((acc ++ added)%list, g') /\
    map outline added
    = map (fun id =>
             (id, dict_get feature_descriptions id description_default, level))
          ids /\
    Forall in_range added.
Proof.
  induction ids as [| id ids IH]; intros acc g; cbn [append_features].
  - exists [], g. rewrite app_nil_r. repeat split. constructor.
  - rewrite run_bind.
    destruct (new_feature_outline id description_default level g)
      as (feature_rec & g1 & -> & Hout & Hrange).
    destruct (IH (acc ++ [feature_rec])%list g1)
      as (added & g' & Hrun & Houts & Hranges).
    exists (feature_rec :: added), g'. split; [|split].
    + rewrite Hrun, <- app_assoc. reflexivity.
    + cbn [map]. now rewrite Hout, Houts.
    + now constructor.
Qed.

Lemma append_requested_structure (requested : list string) :
  forall (acc : list FeatureRec) (g : rng),
  exists added g',
    runStateT (append_requested requested acc) g
    = inr ((acc ++ added)%list, g') /\
    Forall (fun feature_rec =>
              outline feature_rec
              = (feature feature_rec,
                 dict_get feature_descriptions (feature feature_rec)
                          "Feature description not available",
                 "medium")) added /\
    Forall in_range added /\
    incl (map feature added) requested /\
    NoDup (map feature added) /\
    (forall id, In id (map feature added) -> ~ In id (map feature acc)) /\
    (forall id, In id requested -> In id (map feature (acc ++ added)%list)).
Proof.
  induction requested as [| id requested IH]; intros acc g;
    cbn [append_requested].
  - exists [], g. rewrite app_nil_r.
    repeat split; try constructor; intros x []; auto.
  - destruct (existsb (String.eqb id) (map feature acc)) eqn:E.
    + destruct (IH acc g)
        as (added & g' & Hrun & Hout & Hrange & Hincl & Hnd & Hnew & Hall).
      exists added, g'. repeat split; auto.
      * intros x Hx. right. now apply Hincl.
      * intros x [<- | Hx]; [|now apply Hall].
        apply existsb_eqb_In in E. rewrite map_app. apply in_or_app. now left.
    + rewrite run_bind.
      destruct (new_feature_outline id "Feature description not available"
                  "medium" g) as (feature_rec & g1 & -> & Hfr & Hfrange).
      assert (Hid : feature feature_rec = id).
      { unfold outline in Hfr. now injection Hfr. }
      destruct (IH (acc ++ [feature_rec])%list g1)
        as (added & g' & Hrun & Hout & Hrange & Hincl & Hnd & Hnew & Hall).
      exists (feature_rec :: added), g'.
      assert (Hfresh : ~ In id (map feature acc)).
      { intros Hin. apply existsb_eqb_In in Hin. congruence. }
      split; [rewrite Hrun, <- app_assoc; reflexivity|].
      split; [constructor; [rewrite Hfr, Hid; reflexivity | exact Hout]|].
      split; [now constructor|].
      split; [|split; [|split]].
      * cbn [map]. rewrite Hid. intros x [<- | Hx]; [now left|].
        right. now apply Hincl.
      * cbn [map]. rewrite Hid. constructor; [|exact Hnd].
        intros Hin. apply (Hnew id Hin). rewrite map_app.
        apply in_or_app. right. cbn. rewrite Hid. now left.
      * cbn [map]. rewrite Hid. intros x [<- | Hx]; [exact Hfresh|].
        intros Hacc. apply (Hnew x Hx). rewrite map_app.
        apply in_or_app. now left.
      * intros x Hx.
        assert (Hx' : In x (map feature ((acc ++ [feature_rec]) ++ added)%list)).
        { destruct Hx as [<- | Hx]; [|now apply Hall].
          rewrite !map_app. apply in_or_app. left. apply in_or_app. right.
          cbn. rewrite Hid. now left. }
        rewrite <- app_assoc in Hx'. exact Hx'.
Qed.

Lemma recommend_features_parts
  (analysis : TextAnalyzer.Analysis) (info : AdditionalInfo)
  (business : string) (g : rng) :
  business_type info = Some business ->
  exists detected_part base_part requested_part g',
    runStateT (_recommend_features analysis (Some info)) g
    = inr ((detected_part ++ base_part ++ requested_part)%list, g') /\
    map outline detected_part
    = map (fun id => (id, dict_get feature_descriptions id "None", "high"))
          (TextAnalyzer.detected_features analysis) /\
    map outline base_part
    = map (fun id =>
             (id, dict_get feature_descriptions id
                           "Feature description not available", "medium"))
          (base_ids business) /\
    Forall (fun feature_rec => priority feature_rec = "medium")
           requested_part /\
    incl (map feature requested_part) (requested_ids info) /\
    NoDup (map feature requested_part) /\
    (forall id,
        In id (map feature requested_part) ->
        ~ In id (map feature (detected_part ++ base_part)%list)) /\
    (forall id,
        In id (requested_ids info) ->
        In id (map feature
                   (detected_part ++ base_part ++ requested_part)%list)) /\
    Forall in_range (detected_part ++ base_part ++ requested_part)%list.
Proof.
  intros Hb. unfold _recommend_features.
  rewrite run_bind, run_lift. cbn [info_item]. rewrite Hb.
  rewrite run_bind.
  set (detected := TextAnalyzer.detected_features analysis).
  match goal with
  | |- context [runStateT ?c g] =>
      assert (Hdet : exists added g1,
                 runStateT c g = inr (added, g1) /\
                 map outline added
                 = map (fun id =>
                          (id, dict_get feature_descriptions id "None", "high"))
                       detected /\
                 Forall in_range added)
  end.
  { destruct detected as [| d ds] eqn:E.
    - exists [], g. repeat split. constructor.
    - destruct (append_features_structure (d :: ds) "None" "high" [] g)
        as (added & g1 & Hrun & Hout & Hrange).
      exists added, g1. repeat split; assumption. }
  destruct Hdet as (detected_part & g1 & -> & Hout1 & Hrange1).
  rewrite run_bind. fold (base_ids business).
  destruct (append_features_structure (base_ids business)
              "Feature description not available" "medium" detected_part g1)
    as (base_part & g2 & -> & Hout2 & Hrange2).
  rewrite (info_has_field info requested_features
             (or_introl (info_truthy_business _ _ Hb))).
  unfold requested_ids.
  destruct (requested_features info) as [requested |]; cbn [is_some].
  - rewrite run_bind, run_lift. cbn [info_item].
    destruct (append_requested_structure requested
                (detected_part ++ base_part)%list g2)
      as (requested_part & g' & Hrun & Hout3 & Hrange3 & Hincl & Hnd & Hnew
          & Hall).
    exists detected_part, base_part, requested_part, g'.
    rewrite <- app_assoc in Hrun. split; [exact Hrun|].
    split; [exact Hout1|]. split; [exact Hout2|].
    split.
    { eapply Forall_impl; [|exact Hout3]. intros f Hf. unfold outline in Hf.
      now injection Hf. }
    split; [exact Hincl|]. split; [exact Hnd|]. split; [exact Hnew|].
    split.
    { intros id Hid. rewrite app_assoc. now apply Hall. }
    rewrite app_assoc. apply Forall_app. split; [|exact Hrange3].
    apply Forall_app. now split.
  - exists detected_part, base_part, [], g2.
    rewrite run_ret, !app_nil_r. split; [reflexivity|].
    split; [exact Hout1|]. split; [exact Hout2|].
    split; [constructor|]. split; [intros x []|]. split; [constructor|].
    split; [intros x []|]. split; [intros x []|].
    apply Forall_app. now split.
Qed.

(** X9: the feature list, for an [additional_info] with a business type: one
    entry of priority high per detected feature, then one of priority medium
    for each of the first three base features of the business type, then one
    of priority medium for each requested id that the list does not hold
    yet; every requested id ends up in the list, and every effort and cost
    lies in its range, 2 to 8 weeks and 1000 to 5000 USD. *)
Theorem recommend_features_structure
  (analysis : TextAnalyzer.Analysis) (info : AdditionalInfo)
  (business : string) (g : rng) :
  business_type info = Some business ->
  exists detected_part base_part requested_part g',
    runStateT (_recommend_features analysis (Some info)) g
    = inr ((detected_part ++ base_part ++ requested_part)%list, g') /\
    map outline detected_part
    = map (fun id => (id, dict_get feature_descriptions id "None", "high"))
          (TextAnalyzer.detected_features analysis) /\
    map outline base_part
    = map (fun id =>
             (id, dict_get feature_descriptions id
                           "Feature description not available", "medium"))
          (base_ids business) /\
    Forall (fun feature_rec => priority feature_rec = "medium")
           requested_part /\
    incl (map feature requested_part) (requested_ids info) /\
    NoDup (map feature requested_part) /\
    (forall id,
        In id (map feature requested_part) ->
        ~ In id (map feature (detected_part ++ base_part)%list)) /\
    (forall id,
        In id (requested_ids info) ->
        In id (map feature
                   (detected_part ++ base_part ++ requested_part)%list)) /\
    Forall in_range (detected_part ++ base_part ++ requested_part)%list.
Proof. exact (recommend_features_parts analysis info business g). Qed.

Lemma recommend_features_structure_witness :
  exists detected_part base_part requested_part g',
    runStateT
      (_recommend_features Samples.store_analysis
         (Some (mkInfo None (Some "retail") None None None
                       (Some ["inventory"; "chat"; "chat"]) None)))
      Samples.lowest
    = inr ((detected_part ++ base_part ++ requested_part)%list, g') /\
    In "chat"
       (map feature (detected_part ++ base_part ++ requested_part)%list) /\
    Forall in_range (detected_part ++ base_part ++ requested_part)%list.
Proof.
  destruct (recommend_features_structure Samples.store_analysis
              (mkInfo None (Some "retail") None None None
                      (Some ["inventory"; "chat"; "chat"]) None)
              "retail" Samples.lowest eq_refl)
    as (detected_part & base_part & requested_part & g' & Hrun & _ & _ & _
        & _ & _ & _ & Hall & Hrange).
  exists detected_part, base_part, requested_part, g'.
  split; [exact Hrun|]. split; [|exact Hrange].
  apply Hall. simpl. auto.
Defined.

End FeatureList.

(** ** What the engine returns *)

Section EngineRun.

Import RecommendationEngine.

Lemma analysis_platform_enum
  (nlp : string -> list string) (textblob_sentiment : string -> Q * Q)
  (text : string) (analysis : TextAnalyzer.Analysis) :
  TextAnalyzer.analyze_text nlp textblob_sentiment text = inr analysis ->
  In (fst (TextAnalyzer.platform_preference analysis))
     ["mobile"; "web"; "desktop"].
Proof.
  intros Ha. destruct (analyze_text_fields _ _ _ _ Ha) as (_ & _ & Hp & _).
  destruct (detect_platform_preference_total text)
    as (platform & confidence & E & Hin).
  rewrite E in Hp. injection Hp as Hp. rewrite <- Hp. exact Hin.
Qed.

(** The recommendation the engine builds from a finished analysis and an
    [additional_info] with the three required fields. *)
Lemma generate_recommendation_run
  (nlp : string -> list string) (textblob_sentiment : string -> Q * Q)
  (text : string) (analysis : TextAnalyzer.Analysis) (info : AdditionalInfo)
  (portability business access : string) (g : rng) :
  TextAnalyzer.analyze_text nlp textblob_sentiment text = inr analysis ->
  portability_requirement info = Some portability ->
  business_type info = Some business ->
  access_requirement info = Some access ->
  exists platform confidence reasoning features_rec g' stack_id stack,
    _recommend_platform analysis (Some info)
    = inr (platform_record business platform confidence reasoning) /\
    In platform ["mobile"; "web"; "desktop"] /\
    (confidence = 0.95 \/ confidence = 0.9) /\
    runStateT (_recommend_features analysis (Some info)) g
    = inr (features_rec, g') /\
    Forall in_range features_rec /\
    _recommend_tech_stack
      (platform_record business platform confidence reasoning) analysis
      (Some info)
    = inr (stack_record stack_id stack (VNum confidence)) /\
    In stack (dict_values (registered_stacks platform)) /\
    runStateT (generate_recommendation nlp textblob_sentiment text (Some info))
              g
    = inr (mkRecommendation analysis
             (TextAnalyzer.needs_clarification analysis)
             (TextAnalyzer.generate_clarification_questions analysis)
             (platform_record business platform confidence reasoning)
             features_rec
             (stack_record stack_id stack (VNum confidence))
             (cost_of platform features_rec stack info)
             (timeline_of platform features_rec stack info)
             (confidence_of analysis confidence (length features_rec)),
           g').
Proof.
  intros Ha Hp Hb Hacc.
  destruct (recommend_platform_record analysis info _ _ _ Hp Hb Hacc)
    as (platform & confidence & reasoning & Hplat & Hin & Hconf).
  assert (Henum : In platform ["mobile"; "web"; "desktop"]).
  { pose proof (analysis_platform_enum _ _ _ _ Ha) as Hpref.
    destruct Hin as [<- | [<- | [<- | []]]]; simpl; auto. }
  destruct (recommend_features_parts analysis info business g Hb)
    as (part1 & part2 & part3 & g' & Hfeat & Hparts).
  destruct (recommend_tech_stack_record
              (platform_record business platform confidence reasoning)
              analysis info platform business (VNum confidence)
              eq_refl eq_refl Henum Hb)
    as (stack_id & stack & Hstack & Hreg & _).
  exists platform, confidence, reasoning, (part1 ++ part2 ++ part3)%list, g',
    stack_id, stack.
  split; [exact Hplat|]. split; [exact Henum|]. split; [exact Hconf|].
  split; [exact Hfeat|].
  split; [apply Hparts|].
  split; [exact Hstack|]. split; [exact Hreg|].
  unfold generate_recommendation.
  rewrite run_bind, run_lift, Ha.
  rewrite run_bind, run_lift, Hplat.
  rewrite run_bind, Hfeat.
  rewrite run_bind, run_lift, Hstack.
  rewrite run_bind, run_lift, estimate_cost_record.
  rewrite run_bind, run_lift, estimate_timeline_record.
  rewrite run_bind, run_lift, calculate_confidence_record.
  rewrite run_ret. reflexivity.
Qed.

Lemma confidence_of_range (analysis : TextAnalyzer.Analysis)
  (confidence : Q) (feature_count : nat) :
  0 <= TextAnalyzer.clarity_score analysis <= 1 ->
  0 <= snd (TextAnalyzer.business_type analysis) <= 1 ->
  0 <= confidence <= 1 ->
  0 <= confidence_of analysis confidence feature_count <= 1.
Proof.
  intros Hcl Hbc Hpc. unfold confidence_of.
  set (m := pymin 1.0 (TextAnalyzer.Q_of_nat feature_count / 10)).
  assert (Hm : 0 <= m <= 1).
  { split.
    - apply pymin_glb; [lra|].
      pose proof (Q_of_nat_nonneg feature_count) as H. unfold Qdiv.
      apply Qmult_le_0_compat; [exact H | discriminate].
    - pose proof (pymin_le_l 1.0 (TextAnalyzer.Q_of_nat feature_count / 10))
        as Hle. fold m in Hle. lra. }
  assert (R0 : 0 <= pyround 0 2) by (unfold Qle; simpl; lia).
  assert (R1 : pyround 1 2 <= 1) by (unfold Qle; simpl; lia).
  split.
  - eapply Qle_trans; [exact R0 | apply pyround_mono; lra].
  - eapply Qle_trans; [apply pyround_mono | exact R1]. lra.
Qed.

(** X10: with the three required fields given, the engine fails only where
    the analysis of the text fails; otherwise it returns a recommendation
    that holds the analysis, the business type of [additional_info], a
    platform among mobile, web and desktop, and the name and factors of a
    stack registered for that platform. *)
Theorem generate_recommendation_returns
  (nlp : string -> list string) (textblob_sentiment : string -> Q * Q)
  (text : string) (info : AdditionalInfo)
  (portability business access : string) (g : rng) :
  portability_requirement info = Some portability ->
  business_type info = Some business ->
  access_requirement info = Some access ->
  match TextAnalyzer.analyze_text nlp textblob_sentiment text with
  | inl e =>
      runStateT (generate_recommendation nlp textblob_sentiment text
                                         (Some info)) g = inl e
  | inr analysis =>
      exists recommendation g' platform stack,
        runStateT (generate_recommendation nlp textblob_sentiment text
                                           (Some info)) g
        = inr (recommendation, g') /\
        input_analysis recommendation = analysis /\
        dict_find (platform_recommendation recommendation) "type"
        = Some (VStr business) /\
        dict_find (platform_recommendation recommendation) "platform"
        = Some (VStr platform) /\
        In platform ["mobile"; "web"; "desktop"] /\
        In stack (dict_values (registered_stacks platform)) /\
        dict_find (tech_stack_recommendation recommendation) "name"
        = Some (VStr (name stack)) /\
        dict_find (tech_stack_recommendation recommendation) "cost_factor"
        = Some (VNum (cost_factor stack)) /\
        dict_find (tech_stack_recommendation recommendation) "timeline_factor"
        = Some (VNum (timeline_factor stack))
  end.
Proof.
  intros Hp Hb Hacc.
  destruct (TextAnalyzer.analyze_text nlp textblob_sentiment text)
    as [e | analysis] eqn:Ha.
  - unfold generate_recommendation. rewrite run_bind, run_lift, Ha.
    reflexivity.
  - destruct (generate_recommendation_run _ _ _ _ _ _ _ _ g Ha Hp Hb Hacc)
      as (platform & confidence & reasoning & features_rec & g' & stack_id
          & stack & _ & Henum & _ & _ & _ & _ & Hreg & Hrun).
    eexists _, g', platform, stack. split; [exact Hrun|].
    repeat split; assumption.
Qed.

Lemma generate_recommendation_returns_witness :
  exists recommendation g',
    runStateT
      (generate_recommendation Samples.nlp Samples.textblob_sentiment
         "I need an online store to sell my products"
         (Some (mkInfo (Some "medium") (Some "retail") (Some "online")
                       None None None None)))
      Samples.lowest
    = inr (recommendation, g') /\
    dict_find (platform_recommendation recommendation) "type"
    = Some (VStr "retail").
Proof.
  pose proof (generate_recommendation_returns
                Samples.nlp Samples.textblob_sentiment
                "I need an online store to sell my products"
                (mkInfo (Some "medium") (Some "retail") (Some "online")
                        None None None None)
                "medium" "retail" "online" Samples.lowest
                eq_refl eq_refl eq_refl) as H.
  destruct (TextAnalyzer.analyze_text _ _ _) as [e | analysis] eqn:Ha.
  - vm_compute in Ha. discriminate Ha.
  - destruct H as (recommendation & g' & platform & stack & Hrun & _ & Htype
                   & _).
    exists recommendation, g'. split; [exact Hrun | exact Htype].
Defined.

(** X11: every recommendation the engine returns has a confidence score in
    [0, 1], and so has the clarity score of its analysis. *)
Theorem generate_recommendation_confidence
  (nlp : string -> list string) (textblob_sentiment : string -> Q * Q)
  (text : string) (additional_info : option AdditionalInfo) (g g' : rng)
  (recommendation : Recommendation) :
  runStateT (generate_recommendation nlp textblob_sentiment text
                                     additional_info) g
  = inr (recommendation, g') ->
  0 <= confidence_score recommendation <= 1 /\
  0 <= TextAnalyzer.clarity_score (input_analysis recommendation) <= 1.
Proof.
  intros Hrun.
  destruct (generate_recommendation_inv _ _ _ _ _ _ _ Hrun)
    as (analysis & platform_rec & features_rec & tech_stack_rec & cost
        & timeline & confidence & Ha & Hplat & _ & _ & _ & _ & Hc & ->).
  cbn [confidence_score input_analysis].
  destruct (analyze_text_fields _ _ _ _ Ha) as (Hcl & Hbt & _).
  assert (Hclarity : 0 <= TextAnalyzer.clarity_score analysis <= 1).
  { rewrite Hcl. apply clarity_score_cases. }
  split; [|exact Hclarity].
  destruct additional_info as [info |];
    [|rewrite (recommend_platform_missing analysis None I) in Hplat;
      discriminate Hplat].
  destruct (portability_requirement info) as [portability |] eqn:Hp;
    [|rewrite (recommend_platform_missing analysis (Some info)
                 (or_introl Hp)) in Hplat; discriminate Hplat].
  destruct (business_type info) as [business |] eqn:Hb;
    [|rewrite (recommend_platform_missing analysis (Some info)
                 (or_intror (or_introl Hb))) in Hplat; discriminate Hplat].
  destruct (access_requirement info) as [access |] eqn:Hacc;
    [|rewrite (recommend_platform_missing analysis (Some info)
                 (or_intror (or_intror Hacc))) in Hplat; discriminate Hplat].
  destruct (recommend_platform_record analysis info _ _ _ Hp Hb Hacc)
    as (platform & pc & reasoning & Hplat' & _ & Hpc).
  rewrite Hplat' in Hplat. injection Hplat as <-.
  rewrite calculate_confidence_record in Hc. injection Hc as <-.
  apply confidence_of_range.
  - exact Hclarity.
  - now apply (classify_business_type_range text).
  - destruct Hpc as [-> | ->]; split; unfold Qle; simpl; lia.
Qed.

Lemma generate_recommendation_confidence_witness :
  exists recommendation g',
    runStateT
      (generate_recommendation Samples.nlp Samples.textblob_sentiment
         "I need an online store to sell my products"
         (Some (mkInfo (Some "medium") (Some "retail") (Some "online")
                       None None None None)))
      Samples.lowest
    = inr (recommendation, g') /\
    0 <= confidence_score recommendation <= 1.
Proof.
  destruct (runStateT _ Samples.lowest) as [e | [recommendation g']] eqn:Hrun.
  - vm_compute in Hrun. discriminate Hrun.
  - exists recommendation, g'. split; [reflexivity|].
    exact (proj1 (generate_recommendation_confidence _ _ _ _ _ _ _ Hrun)).
Defined.

End EngineRun.

(** ** Ranges of the estimates *)

Section EstimateRanges.

Import RecommendationEngine.

(** A run of the engine that returns was given the three required fields
    and a text whose analysis returns. *)
Lemma generate_recommendation_configured
  (nlp : string -> list string) (textblob_sentiment : string -> Q * Q)
  (text : string) (additional_info : option AdditionalInfo) (g g' : rng)
  (recommendation : Recommendation) :
  runStateT (generate_recommendation nlp textblob_sentiment text
                                     additional_info) g
  = inr (recommendation, g') ->
  exists info portability business access analysis,
    additional_info = Some info /\
    portability_requirement info = Some portability /\
    business_type info = Some business /\
    access_requirement info = Some access /\
    TextAnalyzer.analyze_text nlp textblob_sentiment text = inr analysis.
Proof.
  intros Hrun.
  destruct (generate_recommendation_inv _ _ _ _ _ _ _ Hrun)
    as (analysis & platform_rec & features_rec & tech_stack_rec & cost
        & timeline & confidence & Ha & Hplat & _).
  destruct additional_info as [info |];
    [|rewrite (recommend_platform_missing analysis None I) in Hplat;
      discriminate Hplat].
  destruct (portability_requirement info) as [portability |] eqn:Hp;
    [|rewrite (recommend_platform_missing analysis (Some info)
                 (or_introl Hp)) in Hplat; discriminate Hplat].
  destruct (business_type info) as [business |] eqn:Hb;
    [|rewrite (recommend_platform_missing analysis (Some info)
                 (or_intror (or_introl Hb))) in Hplat; discriminate Hplat].
  destruct (access_requirement info) as [access |] eqn:Hacc;
    [|rewrite (recommend_platform_missing analysis (Some info)
                 (or_intror (or_intror Hacc))) in Hplat; discriminate Hplat].
  exists info, portability, business, access, analysis. auto.
Qed.

Lemma sum_of_nonneg (key : FeatureRec -> Z) (features_rec : list FeatureRec) :
  Forall (fun feature_rec => 0 <= key feature_rec)%Z features_rec ->
  (0 <= sum_of key features_rec)%Z.
Proof.
  unfold sum_of. intros H.
  assert (Hacc : forall acc, (0 <= acc)%Z ->
                             (0 <= fold_left Z.add (map key features_rec) acc)%Z).
  { induction H as [| f fs Hf _ IH]; intros acc Hacc; cbn; [exact Hacc|].
    apply IH. lia. }
  apply Hacc. lia.
Qed.

Lemma registered_factors_positive (platform : string) (stack : StackInfo) :
  In stack (dict_values (registered_stacks platform)) ->
  0 < cost_factor stack /\ 0 < timeline_factor stack.
Proof.
  unfold registered_stacks, dict_get, tech_stacks. cbn [dict_find].
  repeat (destruct (String.eqb platform _);
          [cbn; intros H;
           repeat (destruct H as [<- | H];
                   [split; unfold Qlt; simpl; lia|]);
           destruct H|]).
  intros [].
Qed.

Lemma base_cost_positive (platform : string) :
  (0 < dict_get platform_base_cost platform 12000)%Z.
Proof.
  unfold dict_get, platform_base_cost. cbn [dict_find].
  repeat (destruct (String.eqb platform _); [lia|]). lia.
Qed.

Lemma base_timeline_positive (platform : string) :
  (0 < dict_get platform_base_timeline platform 10)%Z.
Proof.
  unfold dict_get, platform_base_timeline. cbn [dict_find].
  repeat (destruct (String.eqb platform _); [lia|]). lia.
Qed.

Lemma capped_nonneg (raw : Q) (constraint : option Q) :
  0 <= raw ->
  match constraint with Some limit => 0 <= limit | None => True end ->
  0 <= capped raw constraint.
Proof.
  intros Hraw Hc. destruct constraint as [limit |]; cbn [capped];
    [apply pymin_glb|]; assumption.
Qed.

Lemma rounded_range (total : Q) (ndigits : nat) :
  0 <= total ->
  0 <= pyround (total * 0.8) ndigits /\
  pyround (total * 0.8) ndigits <= pyround total ndigits /\
  pyround total ndigits <= pyround (total * 1.2) ndigits.
Proof.
  intros H.
  assert (R0 : pyround 0 ndigits == 0).
  { unfold pyround. rewrite (round_half_even_comp _ (inject_Z 0)).
    - rewrite round_half_even_Z. unfold Qdiv. ring.
    - ring. }
  split; [|split].
  - rewrite <- R0. apply pyround_mono. lra.
  - apply pyround_mono. lra.
  - apply pyround_mono. lra.
Qed.

(** X12: in every recommendation the engine returns under constraints that
    are absent or not negative, the totals are not negative and their ranges
    bracket them: low <= total <= high, for the cost and for the timeline. *)
Theorem generate_recommendation_ranges
  (nlp : string -> list string) (textblob_sentiment : string -> Q * Q)
  (text : string) (info : AdditionalInfo) (g g' : rng)
  (recommendation : Recommendation) :
  runStateT (generate_recommendation nlp textblob_sentiment text (Some info))
            g
  = inr (recommendation, g') ->
  match budget_constraint info with
  | Some budget => 0 <= budget
  | None => True
  end ->
  match timeline_constraint info with
  | Some limit => 0 <= limit
  | None => True
  end ->
  let cost := cost_estimate recommendation in
  let timeline := timeline_estimate recommendation in
  (0 <= fst (cost_range cost) /\
   fst (cost_range cost) <= total_cost cost /\
   total_cost cost <= snd (cost_range cost)) /\
  (0 <= fst (timeline_range timeline) /\
   fst (timeline_range timeline) <= total_timeline timeline /\
   total_timeline timeline <= snd (timeline_range timeline)).
Proof.
  intros Hrun Hbudget Hlimit.
  destruct (generate_recommendation_configured _ _ _ _ _ _ _ Hrun)
    as (info' & portability & business & access & analysis & [= <-] & Hp & Hb
        & Hacc & Ha).
  destruct (generate_recommendation_run _ _ _ _ _ _ _ _ g Ha Hp Hb Hacc)
    as (platform & confidence & reasoning & features_rec & g1 & stack_id
        & stack & _ & Henum & _ & _ & Hrange & _ & Hreg & Hrun').
  rewrite Hrun' in Hrun. injection Hrun as <- _.
  cbn [cost_estimate timeline_estimate]. cbv zeta.
  destruct (registered_factors_positive _ _ Hreg) as [Hcf Htf].
  unfold cost_of, timeline_of.
  cbn [cost_range total_cost timeline_range total_timeline fst snd].
  split; apply rounded_range; apply capped_nonneg; try assumption.
  - pose proof (base_cost_positive platform) as Hbase.
    assert (Hsum : (0 <= sum_of estimated_cost features_rec)%Z).
    { apply sum_of_nonneg. eapply Forall_impl; [|exact Hrange].
      intros f [_ Hf]. lia. }
    assert (0 <= inject_Z (dict_get platform_base_cost platform 12000%Z
                           + sum_of estimated_cost features_rec)%Z).
    { change 0 with (inject_Z 0). rewrite <- Zle_Qle. lia. }
    apply Qmult_le_0_compat; [|unfold Qle; simpl; lia].
    apply Qmult_le_0_compat; [assumption | lra].
  - pose proof (base_timeline_positive platform) as Hbase.
    assert (Hsum : (0 <= sum_of estimated_effort features_rec)%Z).
    { apply sum_of_nonneg. eapply Forall_impl; [|exact Hrange].
      intros f [Hf _]. lia. }
    assert (0 <= inject_Z (dict_get platform_base_timeline platform 10%Z
                           + sum_of estimated_effort features_rec)%Z).
    { change 0 with (inject_Z 0). rewrite <- Zle_Qle. lia. }
    apply Qmult_le_0_compat; [assumption | lra].
Qed.

Lemma generate_recommendation_ranges_witness :
  exists recommendation g',
    runStateT
      (generate_recommendation Samples.nlp Samples.textblob_sentiment
         "I need an online store to sell my products"
         (Some (mkInfo (Some "medium") (Some "retail") (Some "online")
                       (Some 20000) None None None)))
      Samples.lowest
    = inr (recommendation, g') /\
    fst (cost_range (cost_estimate recommendation))
    <= total_cost (cost_estimate recommendation) /\
    total_cost (cost_estimate recommendation)
    <= snd (cost_range (cost_estimate recommendation)).
Proof.
  destruct (runStateT _ Samples.lowest) as [e | [recommendation g']] eqn:Hrun.
  - vm_compute in Hrun. discriminate Hrun.
  - exists recommendation, g'. split; [reflexivity|].
    assert (Hb : 0 <= 20000) by (unfold Qle; simpl; lia).
    exact (proj2 (proj1 (generate_recommendation_ranges
                           _ _ _ _ _ _ _ Hrun Hb I))).
Defined.

End EstimateRanges.

(** ** The random draws *)

Section RandomDraws.

Import RecommendationEngine.

Lemma append_requested_outline (requested : list string) :
  forall (acc1 acc2 : list FeatureRec) (g1 g2 : rng),
    map outline acc1 = map outline acc2 ->
    exists l1 g1' l2 g2',
      runStateT (append_requested requested acc1) g1 = inr (l1, g1') /\
      runStateT (append_requested requested acc2) g2 = inr (l2, g2') /\
      map outline l1 = map outline l2.
Proof.
  induction requested as [| id requested IH]; intros acc1 acc2 g1 g2 Hacc;
    cbn [append_requested].
  - exists acc1, g1, acc2, g2. auto.
  - assert (Hids : map feature acc1 = map feature acc2).
    { assert (E : forall l, map feature l = map (fun o => fst (fst o))
                                                (map outline l)).
      { intros l. rewrite map_map. reflexivity. }
      rewrite (E acc1), (E acc2), Hacc. reflexivity. }
    rewrite Hids.
    destruct (existsb (String.eqb id) (map feature acc2)).
    + now apply IH.
    + rewrite !run_bind.
      destruct (new_feature_outline id "Feature description not available"
                  "medium" g1) as (f1 & h1 & -> & Ho1 & _).
      destruct (new_feature_outline id "Feature description not available"
                  "medium" g2) as (f2 & h2 & -> & Ho2 & _).
      apply IH. rewrite !map_app. cbn [map]. now rewrite Hacc, Ho1, Ho2.
Qed.

(** The outline of the feature list does not depend on the random
    source. *)
Lemma recommend_features_outline
  (analysis : TextAnalyzer.Analysis) (info : AdditionalInfo)
  (business : string) (g1 g2 : rng) :
  business_type info = Some business ->
  exists l1 g1' l2 g2',
    runStateT (_recommend_features analysis (Some info)) g1 = inr (l1, g1') /\
    runStateT (_recommend_features analysis (Some info)) g2 = inr (l2, g2') /\
    map outline l1 = map outline l2.
Proof.
  intros Hb. unfold _recommend_features.
  rewrite !run_bind, !run_lift. cbn [info_item]. rewrite Hb.
  rewrite !run_bind.
  set (detected := TextAnalyzer.detected_features analysis).
  match goal with
  | |- context [runStateT ?c g1] =>
      assert (Hdet : exists a1 h1 a2 h2,
                 runStateT c g1 = inr (a1, h1) /\
                 runStateT c g2 = inr (a2, h2) /\
                 map outline a1 = map outline a2)
  end.
  { destruct detected as [| d ds] eqn:E.
    - exists [], g1, [], g2. auto.
    - destruct (append_features_structure (d :: ds) "None" "high" [] g1)
        as (a1 & h1 & R1 & O1 & _).
      destruct (append_features_structure (d :: ds) "None" "high" [] g2)
        as (a2 & h2 & R2 & O2 & _).
      exists a1, h1, a2, h2. repeat split; try assumption. congruence. }
  destruct Hdet as (a1 & h1 & a2 & h2 & -> & -> & Ho).
  rewrite !run_bind.
  destruct (append_features_structure
              (firstn 3 (dict_get business_features business []))
              "Feature description not available" "medium" a1 h1)
    as (b1 & k1 & -> & Ob1 & _).
  destruct (append_features_structure
              (firstn 3 (dict_get business_features business []))
              "Feature description not available" "medium" a2 h2)
    as (b2 & k2 & -> & Ob2 & _).
  assert (Hacc : map outline (a1 ++ b1)%list = map outline (a2 ++ b2)%list).
  { rewrite !map_app. congruence. }
  rewrite (info_has_field info requested_features)
    by (left; exact (info_truthy_business info business Hb)).
  destruct (requested_features info) as [requested |] eqn:Hreq;
    cbn [is_some].
  - rewrite !run_bind, !run_lift. cbn [info_item].
    now apply append_requested_outline.
  - exists (a1 ++ b1)%list, k1, (a2 ++ b2)%list, k2. auto.
Qed.

Lemma generate_recommendation_raises
  (nlp : string -> list string) (textblob_sentiment : string -> Q * Q)
  (text : string) (additional_info : option AdditionalInfo) (g : rng) :
  lacks_required additional_info ->
  runStateT (generate_recommendation nlp textblob_sentiment text
                                     additional_info) g
  = match TextAnalyzer.analyze_text nlp textblob_sentiment text with
    | inl e => inl e
    | inr _ => inl (missing_error additional_info)
    end.
Proof.
  intros Hlack. unfold generate_recommendation.
  rewrite run_bind, run_lift.
  destruct (TextAnalyzer.analyze_text nlp textblob_sentiment text)
    as [e | analysis]; [reflexivity|].
  rewrite run_bind, run_lift, (recommend_platform_missing _ _ Hlack).
  reflexivity.
Qed.

Lemma platform_record_inj (b1 b2 p1 p2 : string) (c1 c2 : Q)
  (r1 r2 : string) :
  platform_record b1 p1 c1 r1 = platform_record b2 p2 c2 r2 ->
  p1 = p2 /\ c1 = c2.
Proof.
  unfold platform_record. intros H. injection H. auto.
Qed.

(** X13: the random source decides nothing but the effort and the cost of
    each feature.  Two calls of the engine on the same text and the same
    [additional_info] with different random sources either raise the same
    exception or both return, and then the analysis, the clarification
    questions, the platform, the ids, descriptions and priorities of the
    features in order, the stack, the base cost, the base timeline and the
    confidence score are the same. *)
Theorem generate_recommendation_random_draws
  (nlp : string -> list string) (textblob_sentiment : string -> Q * Q)
  (text : string) (additional_info : option AdditionalInfo) (g1 g2 : rng) :
  same_outcome
    (runStateT (generate_recommendation nlp textblob_sentiment text
                                        additional_info) g1)
    (runStateT (generate_recommendation nlp textblob_sentiment text
                                        additional_info) g2).
Proof.
  assert (Hlacking : lacks_required additional_info ->
            same_outcome
              (runStateT (generate_recommendation nlp textblob_sentiment text
                                                  additional_info) g1)
              (runStateT (generate_recommendation nlp textblob_sentiment text
                                                  additional_info) g2)).
  { intros Hlack. rewrite !(generate_recommendation_raises _ _ _ _ _ Hlack).
    destruct (TextAnalyzer.analyze_text nlp textblob_sentiment text);
      reflexivity. }
  destruct additional_info as [info |]; [| apply Hlacking; exact I].
  destruct (portability_requirement info) as [portability |] eqn:Hp;
    [| apply Hlacking; left; exact Hp].
  destruct (business_type info) as [business |] eqn:Hb;
    [| apply Hlacking; right; left; exact Hb].
  destruct (access_requirement info) as [access |] eqn:Hacc;
    [| apply Hlacking; right; right; exact Hacc].
  clear Hlacking.
  destruct (TextAnalyzer.analyze_text nlp textblob_sentiment text)
    as [e | analysis] eqn:Ha.
  - unfold generate_recommendation. rewrite !run_bind, !run_lift, Ha.
    reflexivity.
  - destruct (generate_recommendation_run _ _ _ _ _ _ _ _ g1 Ha Hp Hb Hacc)
      as (p1 & c1 & s1 & f1 & h1 & id1 & st1 & Hplat1 & _ & _ & Hf1 & _
          & Hst1 & _ & ->).
    destruct (generate_recommendation_run _ _ _ _ _ _ _ _ g2 Ha Hp Hb Hacc)
      as (p2 & c2 & s2 & f2 & h2 & id2 & st2 & Hplat2 & _ & _ & Hf2 & _
          & Hst2 & _ & ->).
    assert (Hrec : platform_record business p1 c1 s1
                   = platform_record business p2 c2 s2) by congruence.
    destruct (platform_record_inj _ _ _ _ _ _ _ _ Hrec) as [<- <-].
    rewrite <- Hrec in Hst2.
    assert (Hstack : stack_record id1 st1 (VNum c1)
                     = stack_record id2 st2 (VNum c1)) by congruence.
    destruct (recommend_features_outline analysis info business g1 g2 Hb)
      as (l1 & k1 & l2 & k2 & Hl1 & Hl2 & Hout).
    assert (l1 = f1) by congruence. assert (l2 = f2) by congruence.
    subst l1 l2.
    unfold same_outcome, same_up_to_draws.
    cbn [input_analysis needs_clarification clarification_questions
         platform_recommendation feature_recommendations
         tech_stack_recommendation cost_estimate timeline_estimate
         confidence_score].
    unfold cost_of, timeline_of.
    cbn [base_cost base_timeline currency unit].
    assert (Hlen : length f1 = length f2).
    { rewrite <- (length_map outline f1), <- (length_map outline f2).
      now rewrite Hout. }
    rewrite Hlen.
    repeat split; assumption.
Qed.

End RandomDraws.

(** ** Preprocessing *)

Section Preprocessing.

Import TextAnalyzer.












End Preprocessing.

(** ** Stacks and estimators on their own *)

Section StacksAndEstimators.

Import RecommendationEngine.

(** X15: the selector is consistent whenever the caller's preference is
    absent or names a stack of the platform.  The id it returns is
    registered for the platform, the name, description, pros, cons and
    factors are those of that very stack, and a preference is honoured; so
    each id the built-in rules choose for a business type is a registered
    one. *)
Theorem recommend_tech_stack_registered
  (platform_rec : dict pyval) (analysis : TextAnalyzer.Analysis)
  (info : AdditionalInfo) (platform business : string) (confidence : pyval) :
  dict_find platform_rec "platform" = Some (VStr platform) ->
  dict_find platform_rec "confidence" = Some confidence ->
  In platform ["mobile"; "web"; "desktop"] ->
  business_type info = Some business ->
  (forall preference,
      tech_stack_preference info = Some preference ->
      dict_find (registered_stacks platform) preference <> None) ->
  exists stack_id stack,
    _recommend_tech_stack platform_rec analysis (Some info)
    = inr (stack_record stack_id stack confidence) /\
    dict_find (registered_stacks platform) stack_id = Some stack /\
    (forall preference,
        tech_stack_preference info = Some preference ->
        stack_id = preference).
Proof.
  intros Hplatform Hconf Hin Hbusiness Hregistered.
  destruct (recommend_tech_stack_record platform_rec analysis info platform
              business confidence Hplatform Hconf Hin Hbusiness)
    as (stack_id & stack & Hrun & _ & Hpref & Hentry).
  exists stack_id, stack. split; [exact Hrun|]. split; [| exact Hpref].
  apply Hentry.
  destruct (tech_stack_preference info) as [preference |] eqn:E;
    [right | left; reflexivity].
  rewrite (Hpref preference eq_refl). apply Hregistered. reflexivity.
Qed.

Lemma recommend_tech_stack_registered_witness :
  _recommend_tech_stack
    [("platform", VStr "web"); ("confidence", VNum 0.8)]
    Samples.store_analysis
    (Some (mkInfo None (Some "healthcare") None None None None
                  (Some "laravel")))
  = inr (stack_record "laravel"
           (dict_get (registered_stacks "web") "laravel"
                     (mkStack "" "" [] [] 0 0))
           (VNum 0.8)).
Proof.
  destruct (recommend_tech_stack_registered
              [("platform", VStr "web"); ("confidence", VNum 0.8)]
              Samples.store_analysis
              (mkInfo None (Some "healthcare") None None None None
                      (Some "laravel"))
              "web" "healthcare" (VNum 0.8) eq_refl eq_refl)
    as (stack_id & stack & Hrun & Hentry & Hpref).
  - simpl. auto.
  - reflexivity.
  - intros preference H. injection H as <-. discriminate.
  - rewrite Hrun. rewrite (Hpref "laravel" eq_refl) in *.
    unfold dict_get. rewrite Hentry. reflexivity.
Defined.

Lemma dict_get_missing {V : Type} (d : dict V) (k : string) (default : V) :
  dict_find d k = None -> dict_get d k default = default.
Proof. unfold dict_get. now intros ->. Qed.

Lemma dict_get_present {V : Type} (d : dict V) (k : string) (default v : V) :
  dict_find d k = Some v -> dict_get d k default = v.
Proof. unfold dict_get. now intros ->. Qed.

Lemma pymin_comp (a b limit : Q) :
  a == b -> pymin a limit == pymin b limit.
Proof.
  intros Hab. unfold pymin.
  destruct (Qlt_le_dec limit a) as [Ha | Ha];
    destruct (Qlt_le_dec limit b) as [Hb | Hb];
    try assumption; try reflexivity.
  - rewrite Hab in Ha. apply Qle_antisym; [apply Qlt_le_weak|];
      [exact Ha | exact Hb].
  - rewrite <- Hab in Hb. apply Qle_antisym; [| apply Qlt_le_weak];
      [exact Ha | exact Hb].
Qed.

Lemma unregistered_platform (platform : string) :
  ~ In platform ["mobile"; "web"; "desktop"] ->
  dict_get tech_stacks platform [] = [] /\
  dict_get platform_base_cost platform 12000%Z = 12000%Z /\
  dict_get platform_base_timeline platform 10%Z = 10%Z.
Proof.
  intros Hout.
  assert (E : forall name, In name ["mobile"; "web"; "desktop"] ->
                           String.eqb platform name = false).
  { intros name Hname. apply String.eqb_neq. intros ->. exact (Hout Hname). }
  unfold dict_get, tech_stacks, platform_base_cost, platform_base_timeline.
  cbn [dict_find].
  rewrite (E "mobile"), (E "web"), (E "desktop") by (simpl; auto).
  repeat split.
Qed.

(** X16: a platform that is none of mobile, web and desktop gets the
    'Unknown' stack with confidence 0.0, and the estimators then fall back
    to their defaults: base cost 12000, base timeline 10 weeks and factors
    1.0, each total capped by the caller's constraint. *)
Theorem unknown_platform_defaults
  (platform_rec : dict pyval) (analysis : TextAnalyzer.Analysis)
  (info : AdditionalInfo) (platform business : string)
  (features_rec : list FeatureRec) :
  dict_find platform_rec "platform" = Some (VStr platform) ->
  ~ In platform ["mobile"; "web"; "desktop"] ->
  dict_find platform_rec "business_type" = None ->
  business_type info = Some business ->
  _recommend_tech_stack platform_rec analysis (Some info)
  = inr unknown_stack_record /\
  (exists cost,
      _estimate_cost platform_rec features_rec unknown_stack_record (Some info)
      = inr cost /\
      base_cost cost = 12000%Z /\
      feature_cost cost = sum_of estimated_cost features_rec /\
      total_cost cost
      == pyround (capped (inject_Z (12000 + sum_of estimated_cost features_rec))
                         (budget_constraint info)) 2) /\
  (exists timeline,
      _estimate_timeline platform_rec features_rec unknown_stack_record
                         (Some info)
      = inr timeline /\
      base_timeline timeline = 10%Z /\
      feature_timeline timeline = sum_of estimated_effort features_rec /\
      total_timeline timeline
      == pyround (capped (inject_Z (10 + sum_of estimated_effort features_rec))
                         (timeline_constraint info)) 1).
Proof.
  intros Hplatform Hout Hnone Hbusiness.
  destruct (unregistered_platform platform Hout) as (Hstacks & Hcost & Htime).
  split; [| split].
  - unfold _recommend_tech_stack, dict_item.
    rewrite Hplatform, bind_inr. cbn [info_item].
    rewrite Hbusiness, bind_inr. cbn [table_get]. rewrite Hstacks, bind_inr.
    reflexivity.
  - unfold _estimate_cost, dict_item.
    rewrite Hplatform, bind_inr. cbn [table_get].
    rewrite Hcost, bind_inr.
    rewrite (dict_get_missing platform_rec "business_type" _ Hnone).
    cbn [unpack_pair]. rewrite bind_inr. cbn [table_get]. rewrite bind_inr.
    change (dict_get unknown_stack_record "cost_factor" (VNum 1.0))
      with (VNum 1.0).
    cbn [as_number]. rewrite bind_inr.
    rewrite info_has_budget. cbn [info_item].
    change (dict_get business_multipliers "retail" 1.0) with 1.0.
    destruct (budget_constraint info) as [budget |]; cbn [is_some capped].
    + rewrite bind_inr, bind_ret. eexists. split; [reflexivity|].
      cbn [base_cost feature_cost total_cost]. repeat split.
      apply pyround_comp, pymin_comp. ring.
    + rewrite bind_ret. eexists. split; [reflexivity|].
      cbn [base_cost feature_cost total_cost]. repeat split.
      apply pyround_comp. ring.
  - unfold _estimate_timeline, dict_item.
    rewrite Hplatform, bind_inr. cbn [table_get].
    rewrite Htime, bind_inr.
    change (dict_get unknown_stack_record "timeline_factor" (VNum 1.0))
      with (VNum 1.0).
    cbn [as_number]. rewrite bind_inr.
    rewrite info_has_timeline. cbn [info_item].
    destruct (timeline_constraint info) as [limit |]; cbn [is_some capped].
    + rewrite bind_inr, bind_ret. eexists. split; [reflexivity|].
      cbn [base_timeline feature_timeline total_timeline]. repeat split.
      apply pyround_comp, pymin_comp. ring.
    + rewrite bind_ret. eexists. split; [reflexivity|].
      cbn [base_timeline feature_timeline total_timeline]. repeat split.
      apply pyround_comp. ring.
Qed.

Lemma unknown_platform_defaults_witness :
  let platform_rec := [("platform", VStr "kiosk"); ("confidence", VNum 0.5)] in
  let info :=
    mkInfo None (Some "retail") None (Some 9000) None None None in
  _recommend_tech_stack platform_rec Samples.store_analysis (Some info)
  = inr unknown_stack_record /\
  exists cost,
    _estimate_cost platform_rec [] unknown_stack_record (Some info)
    = inr cost /\
    base_cost cost = 12000%Z /\ total_cost cost == 9000.
Proof.
  intros platform_rec info.
  destruct (unknown_platform_defaults platform_rec Samples.store_analysis
              info "kiosk" "retail" [] eq_refl)
    as (Hstack & (cost & Hcost & Hbase & _ & Htotal) & _).
  - simpl. intros [H | [H | [H | []]]]; discriminate H.
  - reflexivity.
  - reflexivity.
  - split; [exact Hstack|]. exists cost.
    split; [exact Hcost|]. split; [exact Hbase|].
    rewrite Htotal. reflexivity.
Defined.

(** X17: the cost estimator reads the business type from the key
    'business_type' of the platform recommendation.  When that entry is a
    pair of a business type and a confidence, the multiplier of the
    business type (1.0 for an unlisted one) enters the total, which is the
    base cost plus the feature costs, times the stack's cost factor, times
    the multiplier, capped by the budget and rounded to 2 decimals.  When
    the entry is a bare string of another length than 2, the estimator
    raises ValueError. *)
Theorem estimate_cost_business_type_entry
  (platform_rec tech_stack_rec : dict pyval) (features_rec : list FeatureRec)
  (info : AdditionalInfo) (platform : string) (entry : pyval) (factor : Q) :
  dict_find platform_rec "platform" = Some (VStr platform) ->
  dict_find platform_rec "business_type" = Some entry ->
  dict_find tech_stack_rec "cost_factor" = Some (VNum factor) ->
  (forall business confidence,
      entry = VTuple [VStr business; confidence] ->
      exists cost,
        _estimate_cost platform_rec features_rec tech_stack_rec (Some info)
        = inr cost /\
        base_cost cost = dict_get platform_base_cost platform 12000%Z /\
        feature_cost cost = sum_of estimated_cost features_rec /\
        total_cost cost
        = pyround
            (capped (inject_Z (dict_get platform_base_cost platform 12000%Z
                               + sum_of estimated_cost features_rec)
                     * factor * dict_get business_multipliers business 1.0)
                    (budget_constraint info)) 2) /\
  (forall business,
      entry = VStr business -> String.length business <> 2%nat ->
      exists e,
        _estimate_cost platform_rec features_rec tech_stack_rec (Some info)
        = inl e /\
        exn_class e = "ValueError").
Proof.
  intros Hplatform Hentry Hfactor.
  assert (Hhead :
    _estimate_cost platform_rec features_rec tech_stack_rec (Some info)
    = bind (unpack_pair entry) (fun '(business_type, _) =>
        business_multiplier <-
          table_get business_multipliers business_type 1.0 ;;
        let total_cost :=
          inject_Z (dict_get platform_base_cost platform 12000%Z
                    + sum_of estimated_cost features_rec)
          * factor * business_multiplier in
        total_cost <-
          (if info_has (Some info) budget_constraint
           then budget <- info_item (Some info) budget_constraint
                                    "budget_constraint" ;;
                ret (pymin total_cost budget)
           else ret total_cost) ;;
        ret (mkCost (dict_get platform_base_cost platform 12000%Z)
                    (sum_of estimated_cost features_rec)
                    (pyround total_cost 2)
                    (pyround (total_cost * 0.8) 2,
                     pyround (total_cost * 1.2) 2)
                    "USD"))).
  { unfold _estimate_cost, dict_item.
    rewrite Hplatform, bind_inr. cbn [table_get]. rewrite bind_inr.
    rewrite (dict_get_present platform_rec "business_type" _ _ Hentry).
    rewrite (dict_get_present tech_stack_rec "cost_factor" _ _ Hfactor).
    destruct (unpack_pair entry) as [e | [business_type other]];
      [reflexivity|].
    rewrite !bind_inr.
    destruct (table_get business_multipliers business_type 1.0)
      as [e | multiplier]; [reflexivity|].
    rewrite !bind_inr. cbn [as_number]. rewrite bind_inr. reflexivity. }
  rewrite Hhead. clear Hhead. split.
  - intros business confidence ->.
    cbn [unpack_pair]. rewrite bind_inr. cbn [table_get]. rewrite bind_inr.
    rewrite info_has_budget. cbn [info_item].
    destruct (budget_constraint info) as [budget |]; cbn [is_some capped].
    + rewrite bind_inr, bind_ret. eexists. split; [reflexivity|].
      repeat split.
    + rewrite bind_ret. eexists. split; [reflexivity|]. repeat split.
  - intros business -> Hlength.
    destruct business as [| a [| b [| c rest]]]; cbn [unpack_pair];
      try (eexists; split; reflexivity).
    exfalso. apply Hlength. reflexivity.
Qed.

Lemma estimate_cost_business_type_entry_witness :
  let tech_stack_rec := [("cost_factor", VNum 0.9)] in
  let info := mkInfo None None None None None None None in
  (exists cost,
      _estimate_cost
        [("platform", VStr "mobile");
         ("business_type", VTuple [VStr "healthcare"; VNum 0.5])]
        [] tech_stack_rec (Some info)
      = inr cost /\
      total_cost cost == 17550) /\
  (exists e,
      _estimate_cost
        [("platform", VStr "mobile"); ("business_type", VStr "healthcare")]
        [] tech_stack_rec (Some info)
      = inl e /\
      exn_class e = "ValueError").
Proof.
  intros tech_stack_rec info. split.
  - destruct (estimate_cost_business_type_entry
                [("platform", VStr "mobile");
                 ("business_type", VTuple [VStr "healthcare"; VNum 0.5])]
                tech_stack_rec [] info "mobile"
                (VTuple [VStr "healthcare"; VNum 0.5]) 0.9
                eq_refl eq_refl eq_refl) as [Hpair _].
    destruct (Hpair "healthcare" (VNum 0.5) eq_refl)
      as (cost & Hcost & _ & _ & Htotal).
    exists cost. split; [exact Hcost|]. rewrite Htotal. reflexivity.
  - destruct (estimate_cost_business_type_entry
                [("platform", VStr "mobile");
                 ("business_type", VStr "healthcare")]
                tech_stack_rec [] info "mobile" (VStr "healthcare") 0.9
                eq_refl eq_refl eq_refl) as [_ Hstring].
    apply (Hstring "healthcare" eq_refl). simpl. discriminate.
Defined.

End StacksAndEstimators.

(** ** The questions asked after an analysis *)

Section Questions.

Import TextAnalyzer.

Lemma analyze_text_indicators (nlp : string -> list string)
  (textblob_sentiment : string -> Q * Q) (text : string)
  (analysis : Analysis) :
  analyze_text nlp textblob_sentiment text = inr analysis ->
  detected_features analysis = _extract_features text /\
  _extract_budget_indicators text = inr (budget_indicators analysis) /\
  timeline_indicators analysis = _extract_timeline_indicators text.
Proof.
  unfold analyze_text. intros H.
  apply bind_inv in H. destruct H as (business & _ & H).
  apply bind_inv in H. destruct H as (platform & _ & H).
  apply bind_inv in H. destruct H as (budget & Hb & H).
  injection H as <-. cbn. auto.
Qed.

Lemma extract_timeline_indicators_keywords (text : string) :
  (timeline_mentioned (_extract_timeline_indicators text) = true
   <-> mentions timeline_keywords text) /\
  (forall word,
      In word (time_indicators (_extract_timeline_indicators text))
      <-> In word time_words
          /\ PyStr.contains word (PyStr.lower text) = true) /\
  (has_timeline_info (_extract_timeline_indicators text) = true
   <-> mentions time_words text).
Proof.
  unfold _extract_timeline_indicators.
  fold timeline_keywords. fold time_words.
  cbn [timeline_mentioned time_indicators has_timeline_info].
  split; [apply any_keyword_mentions | split].
  - intros word. rewrite filter_In. reflexivity.
  - rewrite Nat.ltb_lt. apply (keyword_hits_mentions time_words text).
Qed.

(** The questions in terms of the five conditions. *)
Lemma questions_by_condition (analysis : Analysis) :
  let questions := generate_clarification_questions analysis in
  let business :=
    String.eqb (fst (business_type analysis)) "unknown"
    || Qltb (snd (business_type analysis)) 0.3 in
  let features := (length (detected_features analysis) =? 0)%nat in
  let budget := negb (budget_mentioned (budget_indicators analysis)) in
  let timeline := negb (timeline_mentioned (timeline_indicators analysis)) in
  (In "What type of business do you operate?" questions
   <-> business = true) /\
  (In "What specific features or functionality do you need?" questions
   <-> features = true) /\
  (In "Do you have a budget range in mind for this project?" questions
   <-> budget = true) /\
  (In "When do you need this system to be completed?" questions
   <-> timeline = true /\ business && features && budget = false).
Proof.
  unfold generate_clarification_questions.
  destruct (business_type analysis) as [category confidence]. cbn [fst snd].
  destruct (String.eqb category "unknown" || Qltb confidence 0.3);
    destruct (length (detected_features analysis) =? 0)%nat;
    destruct (negb (budget_mentioned (budget_indicators analysis)));
    destruct (negb (timeline_mentioned (timeline_indicators analysis)));
    destruct (Qltb (clarity_score analysis) 0.4);
    cbn [app firstn In andb];
    repeat split; intros; try discriminate; try tauto;
      repeat match goal with
             | H : _ \/ _ |- _ => destruct H
             | H : _ /\ _ |- _ => destruct H
             | H : False |- _ => destruct H
             end;
      try discriminate; auto.
Qed.

(** X18: which questions follow an analysis.  The question about features
    is asked exactly when no feature keyword occurs in the text; the
    question about the budget exactly when none of the budget keywords
    occurs, whatever amounts the text names; the question about the
    completion date exactly when none of the timeline keywords occurs and
    the three questions before it are not all asked, whatever time units
    the text names (those only set has_timeline_info). *)
Theorem analysis_questions_by_keywords
  (nlp : string -> list string) (textblob_sentiment : string -> Q * Q)
  (text : string) (analysis : Analysis) :
  analyze_text nlp textblob_sentiment text = inr analysis ->
  let questions := generate_clarification_questions analysis in
  (In "What specific features or functionality do you need?" questions
   <-> forall category, ~ category_mentioned text category) /\
  (In "Do you have a budget range in mind for this project?" questions
   <-> ~ mentions budget_keywords text) /\
  (In "When do you need this system to be completed?" questions
   <-> ~ mentions timeline_keywords text /\
       ~ (In "What type of business do you operate?" questions /\
          In "What specific features or functionality do you need?" questions
          /\ In "Do you have a budget range in mind for this project?"
                questions)) /\
  (has_timeline_info (timeline_indicators analysis) = true
   <-> mentions time_words text).
Proof.
  intros Ha questions.
  destruct (analyze_text_indicators _ _ _ _ Ha) as (Hfeat & Hbudget & Htime).
  destruct (questions_by_condition analysis) as (Q1 & Q2 & Q3 & Q4).
  fold questions in Q1, Q2, Q3, Q4.
  destruct (extract_timeline_indicators_keywords text) as (T1 & _ & T3).
  rewrite <- Htime in T1, T3.
  assert (B : budget_mentioned (budget_indicators analysis) = true
              <-> mentions budget_keywords text).
  { pose proof (budget_indicators_cases text) as H.
    destruct (existsb has_cents (PyStr.findall_amounts text)).
    - rewrite Hbudget in H. discriminate H.
    - destruct H as (indicators & E & _ & _ & _ & Hm).
      rewrite Hbudget in E. injection E as <-. exact Hm. }
  assert (F : (length (detected_features analysis) =? 0)%nat = true
              <-> forall category, ~ category_mentioned text category).
  { rewrite Hfeat, Nat.eqb_eq. split.
    - intros Hlen category Hm.
      apply extract_features_In in Hm.
      destruct (_extract_features text); [exact Hm | discriminate Hlen].
    - intros Hnone. destruct (_extract_features text) as [| c l] eqn:E;
        [reflexivity|].
      exfalso. apply (Hnone c).
      apply extract_features_In.
      rewrite E. left. reflexivity. }
  split; [| split; [| split]].
  - rewrite Q2. exact F.
  - rewrite Q3, negb_true_iff, <- not_true_iff_false, B. reflexivity.
  - rewrite Q4, Q1, Q2, Q3, negb_true_iff, <- not_true_iff_false, T1.
    rewrite !andb_false_iff.
    destruct (String.eqb _ _ || Qltb _ _);
      destruct (length (detected_features analysis) =? 0)%nat;
      destruct (negb (budget_mentioned (budget_indicators analysis)));
      intuition congruence.
  - exact T3.
Qed.

Lemma analysis_questions_by_keywords_witness :
  In "When do you need this system to be completed?"
     (generate_clarification_questions Samples.store_analysis) /\
  ~ mentions timeline_keywords "I need an online store to sell my products".
Proof.
  assert (Ha : analyze_text Samples.nlp Samples.textblob_sentiment
                 "I need an online store to sell my products"
               = inr Samples.store_analysis) by reflexivity.
  pose proof (analysis_questions_by_keywords _ _ _ _ Ha) as (_ & _ & H & _).
  assert (Hin : In "When do you need this system to be completed?"
                   (generate_clarification_questions Samples.store_analysis)).
  { vm_compute. auto. }
  split; [exact Hin|]. exact (proj1 (proj1 H Hin)).
Defined.

End Questions.

(** ** The clarification flag and the questions *)

Section ClarificationFlag.

Import TextAnalyzer.

Lemma clarity_below (clarity : Q) :
  Qltb clarity 0.4 = true -> Qltb clarity 0.5 = true.
Proof.
  intros H. apply Qltb_true in H. apply Qltb_true.
  eapply Qlt_trans; [exact H | reflexivity].
Qed.

(** X19: the flag and the questions agree in one direction.  When one of
    the questions about the type of business, the features or further
    details is asked, the flag needs_clarification is set; so an analysis
    that needs no clarification gets no question but those about the budget
    and the completion date, which are asked whether or not the flag is
    set. *)
Theorem clarification_flag_and_questions (analysis : Analysis) :
  let questions := generate_clarification_questions analysis in
  (In "What type of business do you operate?" questions \/
   In "What specific features or functionality do you need?" questions \/
   In "Can you provide more details about your business requirements?"
      questions ->
   needs_clarification analysis = true) /\
  (needs_clarification analysis = false ->
   incl questions
        ["Do you have a budget range in mind for this project?";
         "When do you need this system to be completed?"]).
Proof.
  unfold generate_clarification_questions, needs_clarification.
  pose proof (clarity_below (clarity_score analysis)) as Hbelow.
  destruct (business_type analysis) as [category confidence].
  destruct (Qltb (clarity_score analysis) 0.4);
    [rewrite (Hbelow eq_refl) |
     destruct (Qltb (clarity_score analysis) 0.5)];
    clear Hbelow;
    destruct (String.eqb category "unknown");
    destruct (Qltb confidence 0.3);
    destruct (length (detected_features analysis) =? 0)%nat;
    destruct (negb (budget_mentioned (budget_indicators analysis)));
    destruct (negb (timeline_mentioned (timeline_indicators analysis)));
    cbn [orb app firstn In incl];
    (split;
     [ intros H; try reflexivity;
       repeat match goal with
              | H : _ \/ _ |- _ => destruct H
              | H : False |- _ => destruct H
              end; discriminate
     | intros H; try discriminate H;
       intros question Hq; cbn [In] in *; tauto ]).
Qed.

Lemma clarification_flag_and_questions_witness :
  incl (generate_clarification_questions Samples.store_analysis)
       ["Do you have a budget range in mind for this project?";
        "When do you need this system to be completed?"].
Proof.
  apply (proj2 (clarification_flag_and_questions Samples.store_analysis)).
  reflexivity.
Defined.

End ClarificationFlag.

(** ** The descriptions of the recommended features *)

Section Descriptions.

Import RecommendationEngine.

Lemma outline_fields (feature_rec : FeatureRec)
  (id description level : string) :
  outline feature_rec = (id, description, level) ->
  feature feature_rec = id /\ feature_description feature_rec = description
  /\ priority feature_rec = level.
Proof. unfold outline. intros H. injection H. auto. Qed.

Lemma outlines_Forall (added : list FeatureRec) (ids : list string)
  (description_default level : string) :
  map outline added
  = map (fun id =>
           (id, dict_get feature_descriptions id description_default, level))
        ids ->
  Forall (fun feature_rec =>
            In (feature feature_rec) ids /\
            feature_description feature_rec
            = dict_get feature_descriptions (feature feature_rec)
                       description_default /\
            priority feature_rec = level) added.
Proof.
  revert ids. induction added as [| f added IH]; intros [| id ids] H;
    try discriminate H; constructor.
  - pose proof (f_equal (hd (outline f)) H) as Hf. cbn [map hd] in Hf.
    destruct (outline_fields _ _ _ _ Hf) as (Hid & Hd & Hl).
    rewrite Hd, Hl, Hid. split; [left; reflexivity | auto].
  - pose proof (f_equal (@tl _) H) as Hrest. cbn [map tl] in Hrest.
    eapply Forall_impl; [| exact (IH ids Hrest)].
    intros x (Hin & Hd & Hl). split; [right; exact Hin | auto].
Qed.

Lemma recommend_features_described
  (analysis : TextAnalyzer.Analysis) (info : AdditionalInfo)
  (business : string) (g : rng) :
  business_type info = Some business ->
  exists features_rec g',
    runStateT (_recommend_features analysis (Some info)) g
    = inr (features_rec, g') /\
    Forall (described analysis info business) features_rec.
Proof.
  intros Hb. unfold _recommend_features.
  rewrite run_bind, run_lift. cbn [info_item]. rewrite Hb.
  rewrite run_bind.
  match goal with
  | |- context [runStateT ?c g] =>
      assert (Hdet : exists added g1,
                 runStateT c g = inr (added, g1) /\
                 Forall (described analysis info business) added)
  end.
  { destruct (TextAnalyzer.detected_features analysis) as [| d ds] eqn:E.
    - exists [], g. split; [reflexivity | constructor].
    - destruct (append_features_structure (d :: ds) "None" "high" [] g)
        as (added & g1 & Hrun & Hout & _).
      exists added, g1. split; [exact Hrun|].
      eapply Forall_impl; [| exact (outlines_Forall _ _ _ _ Hout)].
      intros x (Hin & Hd & Hl). left. rewrite E. auto. }
  destruct Hdet as (part1 & g1 & -> & H1).
  rewrite run_bind.
  destruct (append_features_structure
              (firstn 3 (dict_get business_features business []))
              "Feature description not available" "medium" part1 g1)
    as (part2 & g2 & -> & Hout2 & _).
  assert (H2 : Forall (described analysis info business) part2).
  { eapply Forall_impl; [| exact (outlines_Forall _ _ _ _ Hout2)].
    intros x (Hin & Hd & Hl). right. auto. }
  rewrite (info_has_field info requested_features)
    by (left; exact (info_truthy_business info business Hb)).
  unfold described, requested_ids.
  destruct (requested_features info) as [requested |] eqn:Hreq;
    cbn [is_some].
  - rewrite run_bind, run_lift. cbn [info_item].
    destruct (append_requested_structure requested (part1 ++ part2)%list g2)
      as (part3 & g3 & -> & Hout3 & _ & Hincl & _).
    eexists _, g3. split; [reflexivity|].
    apply Forall_app. split; [apply Forall_app; split|].
    + eapply Forall_impl; [| exact H1]. unfold described, requested_ids.
      rewrite Hreq. auto.
    + eapply Forall_impl; [| exact H2]. unfold described, requested_ids.
      rewrite Hreq. auto.
    + apply Forall_forall. intros x Hx.
      pose proof (proj1 (Forall_forall _ _) Hout3 x Hx) as Ho.
      destruct (outline_fields _ _ _ _ Ho) as (_ & Hd & Hl).
      right. split; [exact Hl|]. split; [| exact Hd].
      right. apply Hincl. apply in_map. exact Hx.
  - eexists _, g2. split; [reflexivity|].
    apply Forall_app. split.
    + eapply Forall_impl; [| exact H1]. unfold described, requested_ids.
      rewrite Hreq. auto.
    + eapply Forall_impl; [| exact H2]. unfold described, requested_ids.
      rewrite Hreq. auto.
Qed.

Lemma dict_find_In {V : Type} (d : dict V) (k : string) (v : V) :
  dict_find d k = Some v -> In (k, v) d.
Proof.
  induction d as [| [k' v'] d IH]; simpl; [discriminate|].
  destruct (String.eqb_spec k k') as [-> | _].
  - intros [= ->]. now left.
  - intros H. right. now apply IH.
Qed.

(** No registered description is the fallback text or 'None'. *)
Lemma registered_description (id description : string) :
  dict_find feature_descriptions id = Some description ->
  description <> "Feature description not available" /\
  description <> "None".
Proof.
  intros H. apply dict_find_In in H.
  assert (Hall : Forall (fun row : string * string =>
                           snd row <> "Feature description not available" /\
                           snd row <> "None") feature_descriptions).
  { unfold feature_descriptions.
    repeat (constructor; [split; discriminate|]). constructor. }
  exact (proj1 (Forall_forall _ _) Hall _ H).
Qed.

(** Every base feature of every business type has a description. *)
Lemma base_features_described (business id : string) :
  In id (base_ids business) -> dict_find feature_descriptions id <> None.
Proof.
  unfold base_ids, dict_get, business_features. cbn [dict_find].
  repeat (destruct (String.eqb business _);
          [cbn [firstn In]; intros [<- | [<- | [<- | []]]]; discriminate|]).
  intros [].
Qed.

(** Of the categories the analyzer detects, tracking alone has a
    description. *)
Lemma detected_description (id : string) :
  In id feature_categories ->
  dict_get feature_descriptions id "None"
  = if String.eqb id "tracking"
    then "Real-time activity and data tracking with analytics" else "None".
Proof.
  unfold feature_categories, dict_keys, TextAnalyzer.feature_keywords.
  cbn [map fst In].
  intros [<- | [<- | [<- | [<- | [<- | [<- | [<- | []]]]]]]]; reflexivity.
Qed.

(** X20: the descriptions of the recommended features.  For an analysis
    of a text, a feature of priority high is a detected one and carries
    the description 'None', unless it is tracking, the only detected
    category with a registered description; and the fallback text 'Feature
    description not available' appears only on a feature the caller
    requested that has no registered description: every base feature of
    every business type has one. *)
Theorem recommended_feature_descriptions
  (nlp : string -> list string) (textblob_sentiment : string -> Q * Q)
  (text : string) (analysis : TextAnalyzer.Analysis) (info : AdditionalInfo)
  (business : string) (g : rng) :
  TextAnalyzer.analyze_text nlp textblob_sentiment text = inr analysis ->
  business_type info = Some business ->
  exists features_rec g',
    runStateT (_recommend_features analysis (Some info)) g
    = inr (features_rec, g') /\
    Forall (fun feature_rec =>
      (priority feature_rec = "high" ->
       In (feature feature_rec) (TextAnalyzer.detected_features analysis) /\
       feature_description feature_rec
       = if String.eqb (feature feature_rec) "tracking"
         then "Real-time activity and data tracking with analytics"
         else "None") /\
      (feature_description feature_rec = "Feature description not available"
       -> In (feature feature_rec) (requested_ids info) /\
          dict_find feature_descriptions (feature feature_rec) = None))
      features_rec.
Proof.
  intros Ha Hb.
  destruct (recommend_features_described analysis info business g Hb)
    as (features_rec & g' & Hrun & Hall).
  exists features_rec, g'. split; [exact Hrun|].
  assert (Hcat : incl (TextAnalyzer.detected_features analysis)
                      feature_categories).
  { destruct (analyze_text_fields _ _ _ _ Ha) as (_ & _ & _ & -> & _).
    apply extract_features_categories. }
  eapply Forall_impl; [| exact Hall].
  intros f [(Hl & Hin & Hd) | (Hl & Hin & Hd)].
  - rewrite (detected_description _ (Hcat _ Hin)) in Hd. split.
    + intros _. split; [exact Hin | exact Hd].
    + intros Hfall. rewrite Hfall in Hd.
      destruct (String.eqb (feature f) "tracking"); discriminate Hd.
  - split.
    + intros Hhigh. rewrite Hhigh in Hl. discriminate Hl.
    + intros Hfall. rewrite Hfall in Hd. unfold dict_get in Hd.
      destruct (dict_find feature_descriptions (feature f))
        as [description |] eqn:E.
      * destruct (registered_description _ _ E) as [Hne _].
        exfalso. apply Hne. symmetry. exact Hd.
      * split; [| reflexivity].
        destruct Hin as [Hbase | Hreq]; [| exact Hreq].
        exfalso. exact (base_features_described _ _ Hbase E).
Qed.

Lemma recommended_feature_descriptions_witness :
  exists features_rec g',
    runStateT
      (_recommend_features Samples.store_analysis
         (Some (mkInfo None (Some "retail") None None None
                       (Some ["gift_cards"]) None)))
      Samples.lowest
    = inr (features_rec, g') /\
    In "gift_cards" (map feature features_rec).
Proof.
  destruct (recommended_feature_descriptions
              Samples.nlp Samples.textblob_sentiment
              "I need an online store to sell my products"
              Samples.store_analysis
              (mkInfo None (Some "retail") None None None
                      (Some ["gift_cards"]) None)
              "retail" Samples.lowest eq_refl eq_refl)
    as (features_rec & g' & Hrun & _).
  exists features_rec, g'. split; [exact Hrun|].
  vm_compute in Hrun. injection Hrun as <- _.
  cbn [map feature In]. auto 10.
Defined.

End Descriptions.
